(** * Phaser.Time: the core game clock (src/time/Time.js)

    A shallow embedding of [Phaser.Time] and proofs about its update cycle,
    pause bookkeeping, timer pool maintenance and advanced timing values.

    Modelling conventions.
    - A JavaScript number is an exact rational or one of the three special
      values [Infinity], [-Infinity], [NaN] (type [num]).  Arithmetic is exact:
      rounding, overflow and the sign of zero are not modelled.
    - [Date.now()] yields integers; every call consumes the next sample of the
      wall clock kept in the world.
    - A [Phaser.Timer] is an external object.  The clock holds references to
      timers; the objects live in a heap, every method call on one is logged,
      and a timer method acts on the state of its own timer only. *)

From Stdlib Require Import ZArith QArith Qcanon Qround.
From stdpp Require Import base tactics option list numbers functions.

Local Open Scope Z_scope.

(** ** JavaScript numbers *)

Inductive num : Type :=
  | Fin (q : Qc)
  | PInf
  | NInf
  | NaN.

Definition ofZ (z : Z) : num := Fin (Qc_of_Z z).
Definition ofNat (n : nat) : num := ofZ (Z.of_nat n).

Global Instance num_eq_dec : EqDecision num.
Proof. solve_decision. Defined.

(** [-x] *)
Definition nneg (a : num) : num :=
  match a with
  | Fin x => Fin (- x)%Qc
  | PInf => NInf
  | NInf => PInf
  | NaN => NaN
  end.

(** [a + b] *)
Definition nadd (a b : num) : num :=
  match a, b with
  | NaN, _ | _, NaN => NaN
  | Fin x, Fin y => Fin (x + y)%Qc
  | PInf, NInf | NInf, PInf => NaN
  | PInf, _ | _, PInf => PInf
  | NInf, _ | _, NInf => NInf
  end.

(** [a - b] *)
Definition nsub (a b : num) : num := nadd a (nneg b).

(** [a * b] *)
Definition nmul (a b : num) : num :=
  match a, b with
  | NaN, _ | _, NaN => NaN
  | Fin x, Fin y => Fin (x * y)%Qc
  | Fin x, PInf | PInf, Fin x =>
      match (x ?= 0)%Qc with Gt => PInf | Lt => NInf | Eq => NaN end
  | Fin x, NInf | NInf, Fin x =>
      match (x ?= 0)%Qc with Gt => NInf | Lt => PInf | Eq => NaN end
  | PInf, PInf | NInf, NInf => PInf
  | PInf, NInf | NInf, PInf => NInf
  end.

(** [a / b]; a zero divisor counts as [+0]. *)
Definition ndiv (a b : num) : num :=
  match a, b with
  | NaN, _ | _, NaN => NaN
  | Fin x, Fin y =>
      if decide (y = 0%Qc)
      then match (x ?= 0)%Qc with Gt => PInf | Lt => NInf | Eq => NaN end
      else Fin (x / y)%Qc
  | Fin _, (PInf | NInf) => Fin 0%Qc
  | PInf, Fin y => match (y ?= 0)%Qc with Lt => NInf | _ => PInf end
  | NInf, Fin y => match (y ?= 0)%Qc with Lt => PInf | _ => NInf end
  | (PInf | NInf), (PInf | NInf) => NaN
  end.

(** [a < b], [a <= b], [a > b], [a >= b]: false as soon as one side is [NaN]. *)
Definition nlt (a b : num) : bool :=
  match a, b with
  | NaN, _ | _, NaN => false
  | Fin x, Fin y => bool_decide (x < y)%Qc
  | NInf, (Fin _ | PInf) => true
  | Fin _, PInf => true
  | _, _ => false
  end.

Definition nle (a b : num) : bool :=
  match a, b with
  | NaN, _ | _, NaN => false
  | Fin x, Fin y => bool_decide (x ≤ y)%Qc
  | NInf, _ => true
  | _, PInf => true
  | _, _ => false
  end.

Definition ngt (a b : num) : bool := nlt b a.
Definition nge (a b : num) : bool := nle b a.

(** [a == b] on numbers: [NaN] differs from everything, itself included. *)
Definition neqb (a b : num) : bool :=
  match a, b with
  | NaN, _ | _, NaN => false
  | _, _ => bool_decide (a = b)
  end.

(** [Math.max(a, b)] and [Math.min(a, b)] *)
Definition nmax (a b : num) : num :=
  match a, b with
  | NaN, _ | _, NaN => NaN
  | _, _ => if nlt a b then b else a
  end.

Definition nmin (a b : num) : num :=
  match a, b with
  | NaN, _ | _, NaN => NaN
  | _, _ => if nlt b a then b else a
  end.

(** [Math.floor(a)] *)
Definition nfloor (a : num) : num :=
  match a with
  | Fin x => ofZ (Qfloor x)
  | _ => a
  end.

(** [Math.round(a)]: the nearest integer, a tie going up. *)
Definition nround (a : num) : num :=
  match a with
  | Fin x => ofZ (Qfloor (x + Q2Qc (1 # 2))%Qc)
  | _ => a
  end.

(** A number is positive when it is [> 0]. *)
Definition npositive (a : num) : Prop := nlt (ofZ 0) a = true.

(** ** The clock object *)

(** A reference to a [Phaser.Timer] object. *)
Definition TimerId : Type := nat.

(** The fields of a [Phaser.Time] instance, as its constructor declares them.
    The field [game] is a reference to the running game; the game object
    itself is part of the world below. *)
Record Time : Type := mkTime {
  time : num; (* The [Date.now()] value when the time was last updated. *)
  prevTime : num; (* The [now] when the previous update occurred. *)
  now : num; (* Cumulative milliseconds since an undisclosed epoch, as passed to [update]. *)
  elapsed : num; (* Elapsed time since the last update, based on [now]. *)
  elapsedMS : num; (* Time since the last update, based on [time]. *)
  physicsElapsed : num; (* The physics update delta, in fractional seconds. *)
  physicsElapsedMS : num; (* The physics update delta, in milliseconds. *)
  desiredFpsMult : num; (* The desiredFps multiplier as used by Game.update. *)
  _desiredFps : num; (* The desired frame rate of the game. *)
  suggestedFps : num; (* The suggested frame rate, based on an averaged real frame rate. *)
  slowMotion : num; (* Scaling factor for slow (or fast) motion. *)
  advancedTiming : bool; (* Whether the advanced timing values are updated. *)
  frames : num; (* Animation frames received in the current second. *)
  updates : num; (* Logic updates made in the current second. *)
  renders : num; (* Renders made in the current second. *)
  fps : num; (* Frames per second. *)
  ups : num; (* Logic updates per second. *)
  rps : num; (* Renders per second. *)
  fpsMin : num; (* The lowest rate the fps has dropped to. *)
  fpsMax : num; (* The highest rate the fps has reached. *)
  msMin : num; (* The minimum time between consecutive frames. *)
  msMax : num; (* The maximum time between consecutive frames. *)
  pauseDuration : num; (* How long the game was last paused, in milliseconds. *)
  timeToCall : num; (* The value setTimeout needs to work out when to next update. *)
  timeExpected : num; (* The time when the next call is expected under setTimeout. *)
  events : TimerId; (* The timer bound to the master clock. *)
  _frameCount : num; (* Calls to [update] since suggestedFps was last calculated. *)
  _elapsedAccumulator : num; (* Sum of the elapsed time since suggestedFps was last calculated. *)
  _started : num; (* The time at which the Game instance started. *)
  _timeLastSecond : num; (* The time that the last second counter ticked over. *)
  _pauseStarted : num; (* The time the game started being paused. *)
  _justResumed : bool; (* Internal value used to recover from the game pause state. *)
  _timers : list TimerId (* Internal store of timers. *)
}.

(** Field assignment, one function per field: [set_f v this] is [this] after
    [this.f = v]. *)
Definition set_time (v : num) (this : Time) : Time :=
  {| time := v; prevTime := prevTime this; now := now this; elapsed := elapsed this;
     elapsedMS := elapsedMS this; physicsElapsed := physicsElapsed this;
     physicsElapsedMS := physicsElapsedMS this;
     desiredFpsMult := desiredFpsMult this; _desiredFps := _desiredFps this;
     suggestedFps := suggestedFps this; slowMotion := slowMotion this;
     advancedTiming := advancedTiming this; frames := frames this;
     updates := updates this; renders := renders this; fps := fps this;
     ups := ups this; rps := rps this; fpsMin := fpsMin this; fpsMax := fpsMax this;
     msMin := msMin this; msMax := msMax this; pauseDuration := pauseDuration this;
     timeToCall := timeToCall this; timeExpected := timeExpected this;
     events := events this; _frameCount := _frameCount this;
     _elapsedAccumulator := _elapsedAccumulator this; _started := _started this;
     _timeLastSecond := _timeLastSecond this; _pauseStarted := _pauseStarted this;
     _justResumed := _justResumed this; _timers := _timers this |}.

Definition set_prevTime (v : num) (this : Time) : Time :=
  {| time := time this; prevTime := v; now := now this; elapsed := elapsed this;
     elapsedMS := elapsedMS this; physicsElapsed := physicsElapsed this;
     physicsElapsedMS := physicsElapsedMS this;
     desiredFpsMult := desiredFpsMult this; _desiredFps := _desiredFps this;
     suggestedFps := suggestedFps this; slowMotion := slowMotion this;
     advancedTiming := advancedTiming this; frames := frames this;
     updates := updates this; renders := renders this; fps := fps this;
     ups := ups this; rps := rps this; fpsMin := fpsMin this; fpsMax := fpsMax this;
     msMin := msMin this; msMax := msMax this; pauseDuration := pauseDuration this;
     timeToCall := timeToCall this; timeExpected := timeExpected this;
     events := events this; _frameCount := _frameCount this;
     _elapsedAccumulator := _elapsedAccumulator this; _started := _started this;
     _timeLastSecond := _timeLastSecond this; _pauseStarted := _pauseStarted this;
     _justResumed := _justResumed this; _timers := _timers this |}.

Definition set_now (v : num) (this : Time) : Time :=
  {| time := time this; prevTime := prevTime this; now := v; elapsed := elapsed this;
     elapsedMS := elapsedMS this; physicsElapsed := physicsElapsed this;
     physicsElapsedMS := physicsElapsedMS this;
     desiredFpsMult := desiredFpsMult this; _desiredFps := _desiredFps this;
     suggestedFps := suggestedFps this; slowMotion := slowMotion this;
     advancedTiming := advancedTiming this; frames := frames this;
     updates := updates this; renders := renders this; fps := fps this;
     ups := ups this; rps := rps this; fpsMin := fpsMin this; fpsMax := fpsMax this;
     msMin := msMin this; msMax := msMax this; pauseDuration := pauseDuration this;
     timeToCall := timeToCall this; timeExpected := timeExpected this;
     events := events this; _frameCount := _frameCount this;
     _elapsedAccumulator := _elapsedAccumulator this; _started := _started this;
     _timeLastSecond := _timeLastSecond this; _pauseStarted := _pauseStarted this;
     _justResumed := _justResumed this; _timers := _timers this |}.

Definition set_elapsed (v : num) (this : Time) : Time :=
  {| time := time this; prevTime := prevTime this; now := now this; elapsed := v;
     elapsedMS := elapsedMS this; physicsElapsed := physicsElapsed this;
     physicsElapsedMS := physicsElapsedMS this;
     desiredFpsMult := desiredFpsMult this; _desiredFps := _desiredFps this;
     suggestedFps := suggestedFps this; slowMotion := slowMotion this;
     advancedTiming := advancedTiming this; frames := frames this;
     updates := updates this; renders := renders this; fps := fps this;
     ups := ups this; rps := rps this; fpsMin := fpsMin this; fpsMax := fpsMax this;
     msMin := msMin this; msMax := msMax this; pauseDuration := pauseDuration this;
     timeToCall := timeToCall this; timeExpected := timeExpected this;
     events := events this; _frameCount := _frameCount this;
     _elapsedAccumulator := _elapsedAccumulator this; _started := _started this;
     _timeLastSecond := _timeLastSecond this; _pauseStarted := _pauseStarted this;
     _justResumed := _justResumed this; _timers := _timers this |}.

Definition set_elapsedMS (v : num) (this : Time) : Time :=
  {| time := time this; prevTime := prevTime this; now := now this;
     elapsed := elapsed this; elapsedMS := v; physicsElapsed := physicsElapsed this;
     physicsElapsedMS := physicsElapsedMS this;
     desiredFpsMult := desiredFpsMult this; _desiredFps := _desiredFps this;
     suggestedFps := suggestedFps this; slowMotion := slowMotion this;
     advancedTiming := advancedTiming this; frames := frames this;
     updates := updates this; renders := renders this; fps := fps this;
     ups := ups this; rps := rps this; fpsMin := fpsMin this; fpsMax := fpsMax this;
     msMin := msMin this; msMax := msMax this; pauseDuration := pauseDuration this;
     timeToCall := timeToCall this; timeExpected := timeExpected this;
     events := events this; _frameCount := _frameCount this;
     _elapsedAccumulator := _elapsedAccumulator this; _started := _started this;
     _timeLastSecond := _timeLastSecond this; _pauseStarted := _pauseStarted this;
     _justResumed := _justResumed this; _timers := _timers this |}.

Definition set_physicsElapsed (v : num) (this : Time) : Time :=
  {| time := time this; prevTime := prevTime this; now := now this;
     elapsed := elapsed this; elapsedMS := elapsedMS this; physicsElapsed := v;
     physicsElapsedMS := physicsElapsedMS this;
     desiredFpsMult := desiredFpsMult this; _desiredFps := _desiredFps this;
     suggestedFps := suggestedFps this; slowMotion := slowMotion this;
     advancedTiming := advancedTiming this; frames := frames this;
     updates := updates this; renders := renders this; fps := fps this;
     ups := ups this; rps := rps this; fpsMin := fpsMin this; fpsMax := fpsMax this;
     msMin := msMin this; msMax := msMax this; pauseDuration := pauseDuration this;
     timeToCall := timeToCall this; timeExpected := timeExpected this;
     events := events this; _frameCount := _frameCount this;
     _elapsedAccumulator := _elapsedAccumulator this; _started := _started this;
     _timeLastSecond := _timeLastSecond this; _pauseStarted := _pauseStarted this;
     _justResumed := _justResumed this; _timers := _timers this |}.

Definition set_physicsElapsedMS (v : num) (this : Time) : Time :=
  {| time := time this; prevTime := prevTime this; now := now this;
     elapsed := elapsed this; elapsedMS := elapsedMS this;
     physicsElapsed := physicsElapsed this; physicsElapsedMS := v;
     desiredFpsMult := desiredFpsMult this; _desiredFps := _desiredFps this;
     suggestedFps := suggestedFps this; slowMotion := slowMotion this;
     advancedTiming := advancedTiming this; frames := frames this;
     updates := updates this; renders := renders this; fps := fps this;
     ups := ups this; rps := rps this; fpsMin := fpsMin this; fpsMax := fpsMax this;
     msMin := msMin this; msMax := msMax this; pauseDuration := pauseDuration this;
     timeToCall := timeToCall this; timeExpected := timeExpected this;
     events := events this; _frameCount := _frameCount this;
     _elapsedAccumulator := _elapsedAccumulator this; _started := _started this;
     _timeLastSecond := _timeLastSecond this; _pauseStarted := _pauseStarted this;
     _justResumed := _justResumed this; _timers := _timers this |}.

Definition set_desiredFpsMult (v : num) (this : Time) : Time :=
  {| time := time this; prevTime := prevTime this; now := now this;
     elapsed := elapsed this; elapsedMS := elapsedMS this;
     physicsElapsed := physicsElapsed this;
     physicsElapsedMS := physicsElapsedMS this; desiredFpsMult := v;
     _desiredFps := _desiredFps this; suggestedFps := suggestedFps this;
     slowMotion := slowMotion this; advancedTiming := advancedTiming this;
     frames := frames this; updates := updates this; renders := renders this;
     fps := fps this; ups := ups this; rps := rps this; fpsMin := fpsMin this;
     fpsMax := fpsMax this; msMin := msMin this; msMax := msMax this;
     pauseDuration := pauseDuration this; timeToCall := timeToCall this;
     timeExpected := timeExpected this; events := events this;
     _frameCount := _frameCount this;
     _elapsedAccumulator := _elapsedAccumulator this; _started := _started this;
     _timeLastSecond := _timeLastSecond this; _pauseStarted := _pauseStarted this;
     _justResumed := _justResumed this; _timers := _timers this |}.

Definition set__desiredFps (v : num) (this : Time) : Time :=
  {| time := time this; prevTime := prevTime this; now := now this;
     elapsed := elapsed this; elapsedMS := elapsedMS this;
     physicsElapsed := physicsElapsed this;
     physicsElapsedMS := physicsElapsedMS this;
     desiredFpsMult := desiredFpsMult this; _desiredFps := v;
     suggestedFps := suggestedFps this; slowMotion := slowMotion this;
     advancedTiming := advancedTiming this; frames := frames this;
     updates := updates this; renders := renders this; fps := fps this;
     ups := ups this; rps := rps this; fpsMin := fpsMin this; fpsMax := fpsMax this;
     msMin := msMin this; msMax := msMax this; pauseDuration := pauseDuration this;
     timeToCall := timeToCall this; timeExpected := timeExpected this;
     events := events this; _frameCount := _frameCount this;
     _elapsedAccumulator := _elapsedAccumulator this; _started := _started this;
     _timeLastSecond := _timeLastSecond this; _pauseStarted := _pauseStarted this;
     _justResumed := _justResumed this; _timers := _timers this |}.

Definition set_suggestedFps (v : num) (this : Time) : Time :=
  {| time := time this; prevTime := prevTime this; now := now this;
     elapsed := elapsed this; elapsedMS := elapsedMS this;
     physicsElapsed := physicsElapsed this;
     physicsElapsedMS := physicsElapsedMS this;
     desiredFpsMult := desiredFpsMult this; _desiredFps := _desiredFps this;
     suggestedFps := v; slowMotion := slowMotion this;
     advancedTiming := advancedTiming this; frames := frames this;
     updates := updates this; renders := renders this; fps := fps this;
     ups := ups this; rps := rps this; fpsMin := fpsMin this; fpsMax := fpsMax this;
     msMin := msMin this; msMax := msMax this; pauseDuration := pauseDuration this;
     timeToCall := timeToCall this; timeExpected := timeExpected this;
     events := events this; _frameCount := _frameCount this;
     _elapsedAccumulator := _elapsedAccumulator this; _started := _started this;
     _timeLastSecond := _timeLastSecond this; _pauseStarted := _pauseStarted this;
     _justResumed := _justResumed this; _timers := _timers this |}.

Definition set_slowMotion (v : num) (this : Time) : Time :=
  {| time := time this; prevTime := prevTime this; now := now this;
     elapsed := elapsed this; elapsedMS := elapsedMS this;
     physicsElapsed := physicsElapsed this;
     physicsElapsedMS := physicsElapsedMS this;
     desiredFpsMult := desiredFpsMult this; _desiredFps := _desiredFps this;
     suggestedFps := suggestedFps this; slowMotion := v;
     advancedTiming := advancedTiming this; frames := frames this;
     updates := updates this; renders := renders this; fps := fps this;
     ups := ups this; rps := rps this; fpsMin := fpsMin this; fpsMax := fpsMax this;
     msMin := msMin this; msMax := msMax this; pauseDuration := pauseDuration this;
     timeToCall := timeToCall this; timeExpected := timeExpected this;
     events := events this; _frameCount := _frameCount this;
     _elapsedAccumulator := _elapsedAccumulator this; _started := _started this;
     _timeLastSecond := _timeLastSecond this; _pauseStarted := _pauseStarted this;
     _justResumed := _justResumed this; _timers := _timers this |}.

Definition set_advancedTiming (v : bool) (this : Time) : Time :=
  {| time := time this; prevTime := prevTime this; now := now this;
     elapsed := elapsed this; elapsedMS := elapsedMS this;
     physicsElapsed := physicsElapsed this;
     physicsElapsedMS := physicsElapsedMS this;
     desiredFpsMult := desiredFpsMult this; _desiredFps := _desiredFps this;
     suggestedFps := suggestedFps this; slowMotion := slowMotion this;
     advancedTiming := v; frames := frames this; updates := updates this;
     renders := renders this; fps := fps this; ups := ups this; rps := rps this;
     fpsMin := fpsMin this; fpsMax := fpsMax this; msMin := msMin this;
     msMax := msMax this; pauseDuration := pauseDuration this;
     timeToCall := timeToCall this; timeExpected := timeExpected this;
     events := events this; _frameCount := _frameCount this;
     _elapsedAccumulator := _elapsedAccumulator this; _started := _started this;
     _timeLastSecond := _timeLastSecond this; _pauseStarted := _pauseStarted this;
     _justResumed := _justResumed this; _timers := _timers this |}.

Definition set_frames (v : num) (this : Time) : Time :=
  {| time := time this; prevTime := prevTime this; now := now this;
     elapsed := elapsed this; elapsedMS := elapsedMS this;
     physicsElapsed := physicsElapsed this;
     physicsElapsedMS := physicsElapsedMS this;
     desiredFpsMult := desiredFpsMult this; _desiredFps := _desiredFps this;
     suggestedFps := suggestedFps this; slowMotion := slowMotion this;
     advancedTiming := advancedTiming this; frames := v; updates := updates this;
     renders := renders this; fps := fps this; ups := ups this; rps := rps this;
     fpsMin := fpsMin this; fpsMax := fpsMax this; msMin := msMin this;
     msMax := msMax this; pauseDuration := pauseDuration this;
     timeToCall := timeToCall this; timeExpected := timeExpected this;
     events := events this; _frameCount := _frameCount this;
     _elapsedAccumulator := _elapsedAccumulator this; _started := _started this;
     _timeLastSecond := _timeLastSecond this; _pauseStarted := _pauseStarted this;
     _justResumed := _justResumed this; _timers := _timers this |}.

Definition set_updates (v : num) (this : Time) : Time :=
  {| time := time this; prevTime := prevTime this; now := now this;
     elapsed := elapsed this; elapsedMS := elapsedMS this;
     physicsElapsed := physicsElapsed this;
     physicsElapsedMS := physicsElapsedMS this;
     desiredFpsMult := desiredFpsMult this; _desiredFps := _desiredFps this;
     suggestedFps := suggestedFps this; slowMotion := slowMotion this;
     advancedTiming := advancedTiming this; frames := frames this; updates := v;
     renders := renders this; fps := fps this; ups := ups this; rps := rps this;
     fpsMin := fpsMin this; fpsMax := fpsMax this; msMin := msMin this;
     msMax := msMax this; pauseDuration := pauseDuration this;
     timeToCall := timeToCall this; timeExpected := timeExpected this;
     events := events this; _frameCount := _frameCount this;
     _elapsedAccumulator := _elapsedAccumulator this; _started := _started this;
     _timeLastSecond := _timeLastSecond this; _pauseStarted := _pauseStarted this;
     _justResumed := _justResumed this; _timers := _timers this |}.

Definition set_renders (v : num) (this : Time) : Time :=
  {| time := time this; prevTime := prevTime this; now := now this;
     elapsed := elapsed this; elapsedMS := elapsedMS this;
     physicsElapsed := physicsElapsed this;
     physicsElapsedMS := physicsElapsedMS this;
     desiredFpsMult := desiredFpsMult this; _desiredFps := _desiredFps this;
     suggestedFps := suggestedFps this; slowMotion := slowMotion this;
     advancedTiming := advancedTiming this; frames := frames this;
     updates := updates this; renders := v; fps := fps this; ups := ups this;
     rps := rps this; fpsMin := fpsMin this; fpsMax := fpsMax this;
     msMin := msMin this; msMax := msMax this; pauseDuration := pauseDuration this;
     timeToCall := timeToCall this; timeExpected := timeExpected this;
     events := events this; _frameCount := _frameCount this;
     _elapsedAccumulator := _elapsedAccumulator this; _started := _started this;
     _timeLastSecond := _timeLastSecond this; _pauseStarted := _pauseStarted this;
     _justResumed := _justResumed this; _timers := _timers this |}.

Definition set_fps (v : num) (this : Time) : Time :=
  {| time := time this; prevTime := prevTime this; now := now this;
     elapsed := elapsed this; elapsedMS := elapsedMS this;
     physicsElapsed := physicsElapsed this;
     physicsElapsedMS := physicsElapsedMS this;
     desiredFpsMult := desiredFpsMult this; _desiredFps := _desiredFps this;
     suggestedFps := suggestedFps this; slowMotion := slowMotion this;
     advancedTiming := advancedTiming this; frames := frames this;
     updates := updates this; renders := renders this; fps := v; ups := ups this;
     rps := rps this; fpsMin := fpsMin this; fpsMax := fpsMax this;
     msMin := msMin this; msMax := msMax this; pauseDuration := pauseDuration this;
     timeToCall := timeToCall this; timeExpected := timeExpected this;
     events := events this; _frameCount := _frameCount this;
     _elapsedAccumulator := _elapsedAccumulator this; _started := _started this;
     _timeLastSecond := _timeLastSecond this; _pauseStarted := _pauseStarted this;
     _justResumed := _justResumed this; _timers := _timers this |}.

Definition set_ups (v : num) (this : Time) : Time :=
  {| time := time this; prevTime := prevTime this; now := now this;
     elapsed := elapsed this; elapsedMS := elapsedMS this;
     physicsElapsed := physicsElapsed this;
     physicsElapsedMS := physicsElapsedMS this;
     desiredFpsMult := desiredFpsMult this; _desiredFps := _desiredFps this;
     suggestedFps := suggestedFps this; slowMotion := slowMotion this;
     advancedTiming := advancedTiming this; frames := frames this;
     updates := updates this; renders := renders this; fps := fps this; ups := v;
     rps := rps this; fpsMin := fpsMin this; fpsMax := fpsMax this;
     msMin := msMin this; msMax := msMax this; pauseDuration := pauseDuration this;
     timeToCall := timeToCall this; timeExpected := timeExpected this;
     events := events this; _frameCount := _frameCount this;
     _elapsedAccumulator := _elapsedAccumulator this; _started := _started this;
     _timeLastSecond := _timeLastSecond this; _pauseStarted := _pauseStarted this;
     _justResumed := _justResumed this; _timers := _timers this |}.

Definition set_rps (v : num) (this : Time) : Time :=
  {| time := time this; prevTime := prevTime this; now := now this;
     elapsed := elapsed this; elapsedMS := elapsedMS this;
     physicsElapsed := physicsElapsed this;
     physicsElapsedMS := physicsElapsedMS this;
     desiredFpsMult := desiredFpsMult this; _desiredFps := _desiredFps this;
     suggestedFps := suggestedFps this; slowMotion := slowMotion this;
     advancedTiming := advancedTiming this; frames := frames this;
     updates := updates this; renders := renders this; fps := fps this;
     ups := ups this; rps := v; fpsMin := fpsMin this; fpsMax := fpsMax this;
     msMin := msMin this; msMax := msMax this; pauseDuration := pauseDuration this;
     timeToCall := timeToCall this; timeExpected := timeExpected this;
     events := events this; _frameCount := _frameCount this;
     _elapsedAccumulator := _elapsedAccumulator this; _started := _started this;
     _timeLastSecond := _timeLastSecond this; _pauseStarted := _pauseStarted this;
     _justResumed := _justResumed this; _timers := _timers this |}.

Definition set_fpsMin (v : num) (this : Time) : Time :=
  {| time := time this; prevTime := prevTime this; now := now this;
     elapsed := elapsed this; elapsedMS := elapsedMS this;
     physicsElapsed := physicsElapsed this;
     physicsElapsedMS := physicsElapsedMS this;
     desiredFpsMult := desiredFpsMult this; _desiredFps := _desiredFps this;
     suggestedFps := suggestedFps this; slowMotion := slowMotion this;
     advancedTiming := advancedTiming this; frames := frames this;
     updates := updates this; renders := renders this; fps := fps this;
     ups := ups this; rps := rps this; fpsMin := v; fpsMax := fpsMax this;
     msMin := msMin this; msMax := msMax this; pauseDuration := pauseDuration this;
     timeToCall := timeToCall this; timeExpected := timeExpected this;
     events := events this; _frameCount := _frameCount this;
     _elapsedAccumulator := _elapsedAccumulator this; _started := _started this;
     _timeLastSecond := _timeLastSecond this; _pauseStarted := _pauseStarted this;
     _justResumed := _justResumed this; _timers := _timers this |}.

Definition set_fpsMax (v : num) (this : Time) : Time :=
  {| time := time this; prevTime := prevTime this; now := now this;
     elapsed := elapsed this; elapsedMS := elapsedMS this;
     physicsElapsed := physicsElapsed this;
     physicsElapsedMS := physicsElapsedMS this;
     desiredFpsMult := desiredFpsMult this; _desiredFps := _desiredFps this;
     suggestedFps := suggestedFps this; slowMotion := slowMotion this;
     advancedTiming := advancedTiming this; frames := frames this;
     updates := updates this; renders := renders this; fps := fps this;
     ups := ups this; rps := rps this; fpsMin := fpsMin this; fpsMax := v;
     msMin := msMin this; msMax := msMax this; pauseDuration := pauseDuration this;
     timeToCall := timeToCall this; timeExpected := timeExpected this;
     events := events this; _frameCount := _frameCount this;
     _elapsedAccumulator := _elapsedAccumulator this; _started := _started this;
     _timeLastSecond := _timeLastSecond this; _pauseStarted := _pauseStarted this;
     _justResumed := _justResumed this; _timers := _timers this |}.

Definition set_msMin (v : num) (this : Time) : Time :=
  {| time := time this; prevTime := prevTime this; now := now this;
     elapsed := elapsed this; elapsedMS := elapsedMS this;
     physicsElapsed := physicsElapsed this;
     physicsElapsedMS := physicsElapsedMS this;
     desiredFpsMult := desiredFpsMult this; _desiredFps := _desiredFps this;
     suggestedFps := suggestedFps this; slowMotion := slowMotion this;
     advancedTiming := advancedTiming this; frames := frames this;
     updates := updates this; renders := renders this; fps := fps this;
     ups := ups this; rps := rps this; fpsMin := fpsMin this; fpsMax := fpsMax this;
     msMin := v; msMax := msMax this; pauseDuration := pauseDuration this;
     timeToCall := timeToCall this; timeExpected := timeExpected this;
     events := events this; _frameCount := _frameCount this;
     _elapsedAccumulator := _elapsedAccumulator this; _started := _started this;
     _timeLastSecond := _timeLastSecond this; _pauseStarted := _pauseStarted this;
     _justResumed := _justResumed this; _timers := _timers this |}.

Definition set_msMax (v : num) (this : Time) : Time :=
  {| time := time this; prevTime := prevTime this; now := now this;
     elapsed := elapsed this; elapsedMS := elapsedMS this;
     physicsElapsed := physicsElapsed this;
     physicsElapsedMS := physicsElapsedMS this;
     desiredFpsMult := desiredFpsMult this; _desiredFps := _desiredFps this;
     suggestedFps := suggestedFps this; slowMotion := slowMotion this;
     advancedTiming := advancedTiming this; frames := frames this;
     updates := updates this; renders := renders this; fps := fps this;
     ups := ups this; rps := rps this; fpsMin := fpsMin this; fpsMax := fpsMax this;
     msMin := msMin this; msMax := v; pauseDuration := pauseDuration this;
     timeToCall := timeToCall this; timeExpected := timeExpected this;
     events := events this; _frameCount := _frameCount this;
     _elapsedAccumulator := _elapsedAccumulator this; _started := _started this;
     _timeLastSecond := _timeLastSecond this; _pauseStarted := _pauseStarted this;
     _justResumed := _justResumed this; _timers := _timers this |}.

Definition set_pauseDuration (v : num) (this : Time) : Time :=
  {| time := time this; prevTime := prevTime this; now := now this;
     elapsed := elapsed this; elapsedMS := elapsedMS this;
     physicsElapsed := physicsElapsed this;
     physicsElapsedMS := physicsElapsedMS this;
     desiredFpsMult := desiredFpsMult this; _desiredFps := _desiredFps this;
     suggestedFps := suggestedFps this; slowMotion := slowMotion this;
     advancedTiming := advancedTiming this; frames := frames this;
     updates := updates this; renders := renders this; fps := fps this;
     ups := ups this; rps := rps this; fpsMin := fpsMin this; fpsMax := fpsMax this;
     msMin := msMin this; msMax := msMax this; pauseDuration := v;
     timeToCall := timeToCall this; timeExpected := timeExpected this;
     events := events this; _frameCount := _frameCount this;
     _elapsedAccumulator := _elapsedAccumulator this; _started := _started this;
     _timeLastSecond := _timeLastSecond this; _pauseStarted := _pauseStarted this;
     _justResumed := _justResumed this; _timers := _timers this |}.

Definition set_timeToCall (v : num) (this : Time) : Time :=
  {| time := time this; prevTime := prevTime this; now := now this;
     elapsed := elapsed this; elapsedMS := elapsedMS this;
     physicsElapsed := physicsElapsed this;
     physicsElapsedMS := physicsElapsedMS this;
     desiredFpsMult := desiredFpsMult this; _desiredFps := _desiredFps this;
     suggestedFps := suggestedFps this; slowMotion := slowMotion this;
     advancedTiming := advancedTiming this; frames := frames this;
     updates := updates this; renders := renders this; fps := fps this;
     ups := ups this; rps := rps this; fpsMin := fpsMin this; fpsMax := fpsMax this;
     msMin := msMin this; msMax := msMax this; pauseDuration := pauseDuration this;
     timeToCall := v; timeExpected := timeExpected this; events := events this;
     _frameCount := _frameCount this;
     _elapsedAccumulator := _elapsedAccumulator this; _started := _started this;
     _timeLastSecond := _timeLastSecond this; _pauseStarted := _pauseStarted this;
     _justResumed := _justResumed this; _timers := _timers this |}.

Definition set_timeExpected (v : num) (this : Time) : Time :=
  {| time := time this; prevTime := prevTime this; now := now this;
     elapsed := elapsed this; elapsedMS := elapsedMS this;
     physicsElapsed := physicsElapsed this;
     physicsElapsedMS := physicsElapsedMS this;
     desiredFpsMult := desiredFpsMult this; _desiredFps := _desiredFps this;
     suggestedFps := suggestedFps this; slowMotion := slowMotion this;
     advancedTiming := advancedTiming this; frames := frames this;
     updates := updates this; renders := renders this; fps := fps this;
     ups := ups this; rps := rps this; fpsMin := fpsMin this; fpsMax := fpsMax this;
     msMin := msMin this; msMax := msMax this; pauseDuration := pauseDuration this;
     timeToCall := timeToCall this; timeExpected := v; events := events this;
     _frameCount := _frameCount this;
     _elapsedAccumulator := _elapsedAccumulator this; _started := _started this;
     _timeLastSecond := _timeLastSecond this; _pauseStarted := _pauseStarted this;
     _justResumed := _justResumed this; _timers := _timers this |}.

Definition set_events (v : TimerId) (this : Time) : Time :=
  {| time := time this; prevTime := prevTime this; now := now this;
     elapsed := elapsed this; elapsedMS := elapsedMS this;
     physicsElapsed := physicsElapsed this;
     physicsElapsedMS := physicsElapsedMS this;
     desiredFpsMult := desiredFpsMult this; _desiredFps := _desiredFps this;
     suggestedFps := suggestedFps this; slowMotion := slowMotion this;
     advancedTiming := advancedTiming this; frames := frames this;
     updates := updates this; renders := renders this; fps := fps this;
     ups := ups this; rps := rps this; fpsMin := fpsMin this; fpsMax := fpsMax this;
     msMin := msMin this; msMax := msMax this; pauseDuration := pauseDuration this;
     timeToCall := timeToCall this; timeExpected := timeExpected this; events := v;
     _frameCount := _frameCount this;
     _elapsedAccumulator := _elapsedAccumulator this; _started := _started this;
     _timeLastSecond := _timeLastSecond this; _pauseStarted := _pauseStarted this;
     _justResumed := _justResumed this; _timers := _timers this |}.

Definition set__frameCount (v : num) (this : Time) : Time :=
  {| time := time this; prevTime := prevTime this; now := now this;
     elapsed := elapsed this; elapsedMS := elapsedMS this;
     physicsElapsed := physicsElapsed this;
     physicsElapsedMS := physicsElapsedMS this;
     desiredFpsMult := desiredFpsMult this; _desiredFps := _desiredFps this;
     suggestedFps := suggestedFps this; slowMotion := slowMotion this;
     advancedTiming := advancedTiming this; frames := frames this;
     updates := updates this; renders := renders this; fps := fps this;
     ups := ups this; rps := rps this; fpsMin := fpsMin this; fpsMax := fpsMax this;
     msMin := msMin this; msMax := msMax this; pauseDuration := pauseDuration this;
     timeToCall := timeToCall this; timeExpected := timeExpected this;
     events := events this; _frameCount := v;
     _elapsedAccumulator := _elapsedAccumulator this; _started := _started this;
     _timeLastSecond := _timeLastSecond this; _pauseStarted := _pauseStarted this;
     _justResumed := _justResumed this; _timers := _timers this |}.

Definition set__elapsedAccumulator (v : num) (this : Time) : Time :=
  {| time := time this; prevTime := prevTime this; now := now this;
     elapsed := elapsed this; elapsedMS := elapsedMS this;
     physicsElapsed := physicsElapsed this;
     physicsElapsedMS := physicsElapsedMS this;
     desiredFpsMult := desiredFpsMult this; _desiredFps := _desiredFps this;
     suggestedFps := suggestedFps this; slowMotion := slowMotion this;
     advancedTiming := advancedTiming this; frames := frames this;
     updates := updates this; renders := renders this; fps := fps this;
     ups := ups this; rps := rps this; fpsMin := fpsMin this; fpsMax := fpsMax this;
     msMin := msMin this; msMax := msMax this; pauseDuration := pauseDuration this;
     timeToCall := timeToCall this; timeExpected := timeExpected this;
     events := events this; _frameCount := _frameCount this;
     _elapsedAccumulator := v; _started := _started this;
     _timeLastSecond := _timeLastSecond this; _pauseStarted := _pauseStarted this;
     _justResumed := _justResumed this; _timers := _timers this |}.

Definition set__started (v : num) (this : Time) : Time :=
  {| time := time this; prevTime := prevTime this; now := now this;
     elapsed := elapsed this; elapsedMS := elapsedMS this;
     physicsElapsed := physicsElapsed this;
     physicsElapsedMS := physicsElapsedMS this;
     desiredFpsMult := desiredFpsMult this; _desiredFps := _desiredFps this;
     suggestedFps := suggestedFps this; slowMotion := slowMotion this;
     advancedTiming := advancedTiming this; frames := frames this;
     updates := updates this; renders := renders this; fps := fps this;
     ups := ups this; rps := rps this; fpsMin := fpsMin this; fpsMax := fpsMax this;
     msMin := msMin this; msMax := msMax this; pauseDuration := pauseDuration this;
     timeToCall := timeToCall this; timeExpected := timeExpected this;
     events := events this; _frameCount := _frameCount this;
     _elapsedAccumulator := _elapsedAccumulator this; _started := v;
     _timeLastSecond := _timeLastSecond this; _pauseStarted := _pauseStarted this;
     _justResumed := _justResumed this; _timers := _timers this |}.

Definition set__timeLastSecond (v : num) (this : Time) : Time :=
  {| time := time this; prevTime := prevTime this; now := now this;
     elapsed := elapsed this; elapsedMS := elapsedMS this;
     physicsElapsed := physicsElapsed this;
     physicsElapsedMS := physicsElapsedMS this;
     desiredFpsMult := desiredFpsMult this; _desiredFps := _desiredFps this;
     suggestedFps := suggestedFps this; slowMotion := slowMotion this;
     advancedTiming := advancedTiming this; frames := frames this;
     updates := updates this; renders := renders this; fps := fps this;
     ups := ups this; rps := rps this; fpsMin := fpsMin this; fpsMax := fpsMax this;
     msMin := msMin this; msMax := msMax this; pauseDuration := pauseDuration this;
     timeToCall := timeToCall this; timeExpected := timeExpected this;
     events := events this; _frameCount := _frameCount this;
     _elapsedAccumulator := _elapsedAccumulator this; _started := _started this;
     _timeLastSecond := v; _pauseStarted := _pauseStarted this;
     _justResumed := _justResumed this; _timers := _timers this |}.

Definition set__pauseStarted (v : num) (this : Time) : Time :=
  {| time := time this; prevTime := prevTime this; now := now this;
     elapsed := elapsed this; elapsedMS := elapsedMS this;
     physicsElapsed := physicsElapsed this;
     physicsElapsedMS := physicsElapsedMS this;
     desiredFpsMult := desiredFpsMult this; _desiredFps := _desiredFps this;
     suggestedFps := suggestedFps this; slowMotion := slowMotion this;
     advancedTiming := advancedTiming this; frames := frames this;
     updates := updates this; renders := renders this; fps := fps this;
     ups := ups this; rps := rps this; fpsMin := fpsMin this; fpsMax := fpsMax this;
     msMin := msMin this; msMax := msMax this; pauseDuration := pauseDuration this;
     timeToCall := timeToCall this; timeExpected := timeExpected this;
     events := events this; _frameCount := _frameCount this;
     _elapsedAccumulator := _elapsedAccumulator this; _started := _started this;
     _timeLastSecond := _timeLastSecond this; _pauseStarted := v;
     _justResumed := _justResumed this; _timers := _timers this |}.

Definition set__justResumed (v : bool) (this : Time) : Time :=
  {| time := time this; prevTime := prevTime this; now := now this;
     elapsed := elapsed this; elapsedMS := elapsedMS this;
     physicsElapsed := physicsElapsed this;
     physicsElapsedMS := physicsElapsedMS this;
     desiredFpsMult := desiredFpsMult this; _desiredFps := _desiredFps this;
     suggestedFps := suggestedFps this; slowMotion := slowMotion this;
     advancedTiming := advancedTiming this; frames := frames this;
     updates := updates this; renders := renders this; fps := fps this;
     ups := ups this; rps := rps this; fpsMin := fpsMin this; fpsMax := fpsMax this;
     msMin := msMin this; msMax := msMax this; pauseDuration := pauseDuration this;
     timeToCall := timeToCall this; timeExpected := timeExpected this;
     events := events this; _frameCount := _frameCount this;
     _elapsedAccumulator := _elapsedAccumulator this; _started := _started this;
     _timeLastSecond := _timeLastSecond this; _pauseStarted := _pauseStarted this;
     _justResumed := v; _timers := _timers this |}.

Definition set__timers (v : list TimerId) (this : Time) : Time :=
  {| time := time this; prevTime := prevTime this; now := now this;
     elapsed := elapsed this; elapsedMS := elapsedMS this;
     physicsElapsed := physicsElapsed this;
     physicsElapsedMS := physicsElapsedMS this;
     desiredFpsMult := desiredFpsMult this; _desiredFps := _desiredFps this;
     suggestedFps := suggestedFps this; slowMotion := slowMotion this;
     advancedTiming := advancedTiming this; frames := frames this;
     updates := updates this; renders := renders this; fps := fps this;
     ups := ups this; rps := rps this; fpsMin := fpsMin this; fpsMax := fpsMax this;
     msMin := msMin this; msMax := msMax this; pauseDuration := pauseDuration this;
     timeToCall := timeToCall this; timeExpected := timeExpected this;
     events := events this; _frameCount := _frameCount this;
     _elapsedAccumulator := _elapsedAccumulator this; _started := _started this;
     _timeLastSecond := _timeLastSecond this; _pauseStarted := _pauseStarted this;
     _justResumed := _justResumed this; _timers := v |}.

(** ** Timers, the game and the world *)

(** What the clock uses of a [Phaser.Timer]: its constructor and the methods
    called in Time.js.  [timer_update t time] gives the timer's next state and
    whether the value returned by [update(time)] is truthy. *)
Class TimerLike (T : Type) : Type := {
  timer_new : bool -> T;
  timer_start : T -> T;
  timer_update : T -> num -> T * bool;
  timer_pause : T -> T;
  timer__pause : T -> T;
  timer_resume : T -> T;
  timer__resume : T -> T;
  timer_destroy : T -> T;
  timer_removeAll : T -> T
}.

(** The timer methods the clock calls, with their arguments. *)
Inductive Method : Type :=
  | m_start
  | m_update (time : num)
  | m_pause
  | m__pause
  | m_resume
  | m__resume
  | m_destroy
  | m_removeAll.

(** One logged method call: which timer object received which method. *)
Record Call : Type := mkCall { callee : TimerId; method : Method }.

Global Instance Method_eq_dec : EqDecision Method.
Proof. solve_decision. Defined.

Global Instance Call_eq_dec : EqDecision Call.
Proof. solve_decision. Defined.

(** The parts of [Phaser.Game] that Time.js reads: [game.paused] and
    [game.raf._isSetTimeOut]. *)
Record Game : Type := mkGame { paused : bool; raf_isSetTimeOut : bool }.

(** ** Computations *)

(** An operation runs in a world of type [W].  It ends with a value, or throws
    a [TypeError] (a method called on [undefined]); [OutOfFuel] marks a loop
    cut short by its step bound. *)
Inductive Res (W A : Type) : Type :=
  | Val (a : A) (w : W)
  | TypeError (w : W)
  | OutOfFuel (w : W).
Global Arguments Val {W A} a w.
Global Arguments TypeError {W A} w.
Global Arguments OutOfFuel {W A} w.

Definition M (W A : Type) : Type := W -> Res W A.

Definition ret {W A} (a : A) : M W A := fun w => Val a w.

Definition bind {W A B} (m : M W A) (k : A -> M W B) : M W B :=
  fun w =>
    match m w with
    | Val a w' => k a w'
    | TypeError w' => TypeError w'
    | OutOfFuel w' => OutOfFuel w'
    end.

Declare Scope clock_scope.
Delimit Scope clock_scope with clock.
Notation "x <- m ;; k" := (bind m (fun x => k))
  (at level 100, m at next level, k at level 200, right associativity)
  : clock_scope.
Notation "m ;; k" := (bind m (fun _ => k))
  (at level 100, k at level 200, right associativity) : clock_scope.
Local Open Scope clock_scope.

Section Clock.

Context {T : Type} `{!TimerLike T}.

(** The effect of a method on the receiving timer, and whether the returned
    value is truthy (a method that returns nothing yields [undefined]). *)
Definition apply_method (m : Method) (t : T) : T * bool :=
  match m with
  | m_start => (timer_start t, false)
  | m_update time => timer_update t time
  | m_pause => (timer_pause t, false)
  | m__pause => (timer__pause t, false)
  | m_resume => (timer_resume t, false)
  | m__resume => (timer__resume t, false)
  | m_destroy => (timer_destroy t, false)
  | m_removeAll => (timer_removeAll t, false)
  end.

(** Everything an operation of the clock can read or change: the clock
    object, the game, the timer objects, the log of the calls made on them, and
    the wall clock as the sequence of samples [Date.now()] will return. *)
Record World : Type := mkWorld {
  clock : Time;
  game : Game;
  heap : TimerId -> T;
  nextId : TimerId;
  calls : list Call;
  wall : nat -> Z;
  wallReads : nat
}.

Definition set_clock (c : Time) (w : World) : World :=
  {| clock := c; game := game w; heap := heap w; nextId := nextId w;
     calls := calls w; wall := wall w; wallReads := wallReads w |}.

Definition set_game (g : Game) (w : World) : World :=
  {| clock := clock w; game := g; heap := heap w; nextId := nextId w;
     calls := calls w; wall := wall w; wallReads := wallReads w |}.

Definition set_heap (h : TimerId -> T) (w : World) : World :=
  {| clock := clock w; game := game w; heap := h; nextId := nextId w;
     calls := calls w; wall := wall w; wallReads := wallReads w |}.

Definition set_nextId (n : TimerId) (w : World) : World :=
  {| clock := clock w; game := game w; heap := heap w; nextId := n;
     calls := calls w; wall := wall w; wallReads := wallReads w |}.

Definition set_calls (l : list Call) (w : World) : World :=
  {| clock := clock w; game := game w; heap := heap w; nextId := nextId w;
     calls := l; wall := wall w; wallReads := wallReads w |}.

Definition set_wallReads (n : nat) (w : World) : World :=
  {| clock := clock w; game := game w; heap := heap w; nextId := nextId w;
     calls := calls w; wall := wall w; wallReads := n |}.

(** *** The primitive steps *)

Local Abbreviation M := (M World).

(** [this.f] *)
Definition read {A} (f : Time -> A) : M A := fun w => Val (f (clock w)) w.

(** One assignment to a field of [this]. *)
Definition assign (f : Time -> Time) : M unit :=
  fun w => Val tt (set_clock (f (clock w)) w).

(** [this.game] *)
Definition the_game : M Game := fun w => Val (game w) w.

(** [Date.now()]: the next sample of the wall clock. *)
Definition Date_now : M num :=
  fun w => Val (ofZ (wall w (wallReads w))) (set_wallReads (S (wallReads w)) w).

(** [new Phaser.Timer(this.game, autoDestroy)]: a fresh timer object. *)
Definition new_Timer (autoDestroy : bool) : M TimerId :=
  fun w =>
    Val (nextId w)
        (set_nextId (S (nextId w))
           (set_heap (<[nextId w := timer_new autoDestroy]> (heap w)) w)).

(** [timer.m(...)]: the call is logged and changes the receiver. *)
Definition invoke (id : TimerId) (m : Method) : M bool :=
  fun w =>
    let r := apply_method m (heap w id) in
    Val r.2 (set_calls (calls w ++ [mkCall id m]) (set_heap (<[id := r.1]> (heap w)) w)).

(** [this._timers[i].m(...)]: past the end of the array the element is
    [undefined] and the call throws. *)
Definition invoke_at (i : nat) (m : Method) : M bool :=
  fun w =>
    match _timers (clock w) !! i with
    | Some id => invoke id m w
    | None => TypeError w
    end.

Definition out_of_fuel {A} : M A := fun w => OutOfFuel w.

(** *** The constructor *)

(** The fields as the constructor sets them; [ev] is the timer it creates for
    [events]. *)
Definition new_fields (ev : TimerId) : Time :=
  {| time := ofZ 0;
     prevTime := ofZ 0;
     now := ofZ 0;
     elapsed := ofZ 0;
     elapsedMS := ofZ 0;
     physicsElapsed := ndiv (ofZ 1) (ofZ 60);
     physicsElapsedMS := nmul (ndiv (ofZ 1) (ofZ 60)) (ofZ 1000);
     desiredFpsMult := ndiv (ofZ 1) (ofZ 60);
     _desiredFps := ofZ 60;
     suggestedFps := ofZ 60;
     slowMotion := ofZ 1;
     advancedTiming := false;
     frames := ofZ 0;
     updates := ofZ 0;
     renders := ofZ 0;
     fps := ofZ 0;
     ups := ofZ 0;
     rps := ofZ 0;
     fpsMin := ofZ 1000;
     fpsMax := ofZ 0;
     msMin := ofZ 1000;
     msMax := ofZ 0;
     pauseDuration := ofZ 0;
     timeToCall := ofZ 0;
     timeExpected := ofZ 0;
     events := ev;
     _frameCount := ofZ 0;
     _elapsedAccumulator := ofZ 0;
     _started := ofZ 0;
     _timeLastSecond := ofZ 0;
     _pauseStarted := ofZ 0;
     _justResumed := false;
     _timers := [] |}.

(** [new Phaser.Time(game)] *)
Definition Phaser_Time : M unit :=
  ev <- new_Timer false ;;
  assign (fun _ => new_fields ev).

(** *** The methods of [Phaser.Time.prototype] *)

Definition boot : M unit :=
  d <- Date_now ;;
  assign (set__started d) ;;
  d <- Date_now ;;
  assign (set_time d) ;;
  ev <- read events ;;
  invoke ev m_start ;;
  assign (fun this => set_timeExpected (time this) this).

Definition add (timer : TimerId) : M TimerId :=
  assign (fun this => set__timers (_timers this ++ [timer]) this) ;;
  ret timer.

(** [autoDestroy] is [None] when the argument is left out. *)
Definition create (autoDestroy : option bool) : M TimerId :=
  let autoDestroy := match autoDestroy with None => true | Some b => b end in
  timer <- new_Timer autoDestroy ;;
  assign (fun this => set__timers (_timers this ++ [timer]) this) ;;
  ret timer.

(** [for (var i = 0; i < this._timers.length; i++) this._timers[i].destroy()] *)
Fixpoint removeAll_loop (fuel : nat) (i : nat) : M unit :=
  len <- read (fun this => length (_timers this)) ;;
  if bool_decide (i < len)%nat then
    match fuel with
    | O => out_of_fuel
    | S fuel' =>
        invoke_at i m_destroy ;;
        removeAll_loop fuel' (i + 1)
    end
  else ret tt.

Definition removeAll : M unit :=
  len <- read (fun this => length (_timers this)) ;;
  removeAll_loop len 0 ;;
  assign (set__timers []) ;;
  ev <- read events ;;
  invoke ev m_removeAll ;;
  ret tt.

Definition refresh : M unit :=
  previousDateNow <- read time ;;
  d <- Date_now ;;
  assign (set_time d) ;;
  assign (fun this => set_elapsedMS (nsub (time this) previousDateNow) this).

(** The loop of [updateTimers]: [while (i < len) ...]. *)
Fixpoint updateTimers_loop (fuel : nat) (i len : nat) : M unit :=
  if bool_decide (i < len)%nat then
    match fuel with
    | O => out_of_fuel
    | S fuel' =>
        t <- read time ;;
        continue <- invoke_at i (m_update t) ;;
        if continue : bool then
          updateTimers_loop fuel' (i + 1) len
        else
          assign (fun this => set__timers (delete i (_timers this)) this) ;;
          updateTimers_loop fuel' i (len - 1)
    end
  else ret tt.

Definition updateTimers : M unit :=
  len <- read (fun this => length (_timers this)) ;;
  updateTimers_loop len 0 len.

Definition updateAdvancedTiming : M unit :=
  assign (fun this => set__frameCount (nadd (_frameCount this) (ofZ 1)) this) ;;
  assign (fun this =>
    set__elapsedAccumulator (nadd (_elapsedAccumulator this) (elapsed this)) this) ;;
  recalc <- read (fun this => nge (_frameCount this) (nmul (_desiredFps this) (ofZ 2))) ;;
  (if recalc : bool then
     assign (fun this =>
       set_suggestedFps
         (nmul (nfloor (ndiv (ofZ 200)
                          (ndiv (_elapsedAccumulator this) (_frameCount this))))
               (ofZ 5)) this) ;;
     assign (set__frameCount (ofZ 0)) ;;
     assign (set__elapsedAccumulator (ofZ 0))
   else ret tt) ;;
  assign (fun this => set_msMin (nmin (msMin this) (elapsed this)) this) ;;
  assign (fun this => set_msMax (nmax (msMax this) (elapsed this)) this) ;;
  assign (fun this => set_frames (nadd (frames this) (ofZ 1)) this) ;;
  tick <- read (fun this => ngt (now this) (nadd (_timeLastSecond this) (ofZ 1000))) ;;
  if tick : bool then
    interval <- read (fun this => nsub (now this) (_timeLastSecond this)) ;;
    assign (fun this =>
      set_fps (nround (ndiv (nmul (frames this) (ofZ 1000)) interval)) this) ;;
    assign (fun this =>
      set_ups (nround (ndiv (nmul (updates this) (ofZ 1000)) interval)) this) ;;
    assign (fun this =>
      set_rps (nround (ndiv (nmul (renders this) (ofZ 1000)) interval)) this) ;;
    assign (fun this => set_fpsMin (nmin (fpsMin this) (fps this)) this) ;;
    assign (fun this => set_fpsMax (nmax (fpsMax this) (fps this)) this) ;;
    assign (fun this => set__timeLastSecond (now this) this) ;;
    assign (set_frames (ofZ 0)) ;;
    assign (set_updates (ofZ 0)) ;;
    assign (set_renders (ofZ 0))
  else ret tt.

(** [update(time)]; the parameter is named [time_] here, [time] being the
    field. *)
Definition update (time_ : num) : M unit :=
  previousDateNow <- read time ;;
  d <- Date_now ;;
  assign (set_time d) ;;
  assign (fun this => set_elapsedMS (nsub (time this) previousDateNow) this) ;;
  assign (fun this => set_prevTime (now this) this) ;;
  assign (set_now time_) ;;
  assign (fun this => set_elapsed (nsub (now this) (prevTime this)) this) ;;
  g <- the_game ;;
  (if raf_isSetTimeOut g then
     assign (fun this =>
       set_timeToCall
         (nfloor (nmax (ofZ 0)
                    (nsub (ndiv (ofZ 1000) (_desiredFps this))
                          (nsub (timeExpected this) time_)))) this) ;;
     assign (fun this => set_timeExpected (nadd time_ (timeToCall this)) this)
   else ret tt) ;;
  advanced <- read advancedTiming ;;
  (if advanced : bool then updateAdvancedTiming else ret tt) ;;
  g <- the_game ;;
  if negb (paused g) then
    ev <- read events ;;
    t <- read time ;;
    invoke ev (m_update t) ;;
    len <- read (fun this => length (_timers this)) ;;
    if negb (len =? 0)%nat then updateTimers else ret tt
  else ret tt.

Definition countUpdate : M unit :=
  advanced <- read advancedTiming ;;
  if advanced : bool then
    assign (fun this => set_updates (nadd (updates this) (ofZ 1)) this)
  else ret tt.

Definition countRender : M unit :=
  advanced <- read advancedTiming ;;
  if advanced : bool then
    assign (fun this => set_renders (nadd (renders this) (ofZ 1)) this)
  else ret tt.

(** [var i = this._timers.length; while (i--) this._timers[i].m()]: the body
    runs with [i] already decremented. *)
Fixpoint reverse_loop (m : Method) (i : nat) : M unit :=
  match i with
  | O => ret tt
  | S i' => invoke_at i' m ;; reverse_loop m i'
  end.

Definition gamePaused : M unit :=
  d <- Date_now ;;
  assign (set__pauseStarted d) ;;
  ev <- read events ;;
  invoke ev m_pause ;;
  i <- read (fun this => length (_timers this)) ;;
  reverse_loop m__pause i.

Definition gameResumed : M unit :=
  d <- Date_now ;;
  assign (set_time d) ;;
  assign (fun this => set_pauseDuration (nsub (time this) (_pauseStarted this)) this) ;;
  ev <- read events ;;
  invoke ev m_resume ;;
  i <- read (fun this => length (_timers this)) ;;
  reverse_loop m__resume i.

(** The literal [0.001]. *)
Definition milli : num := Fin (Q2Qc (1 # 1000)).

Definition totalElapsedSeconds : M num :=
  read (fun this => nmul (nsub (time this) (_started this)) milli).

Definition elapsedSince (since : num) : M num :=
  read (fun this => nsub (time this) since).

Definition elapsedSecondsSince (since : num) : M num :=
  read (fun this => nmul (nsub (time this) since) milli).

Definition reset : M unit :=
  assign (fun this => set__started (time this) this) ;;
  removeAll.

(** The accessor property [desiredFps]. *)
Definition desiredFps_get : M num := read _desiredFps.

Definition desiredFps_set (value : num) : M unit :=
  assign (set__desiredFps value) ;;
  assign (set_physicsElapsed (ndiv (ofZ 1) value)) ;;
  assign (fun this => set_physicsElapsedMS (nmul (physicsElapsed this) (ofZ 1000)) this) ;;
  assign (set_desiredFpsMult (ndiv (ofZ 1) value)).

(** *** Sequences of operations *)

(** What the host may do with a clock between two frames: call one of its
    methods or use the [desiredFps] property, change the state of the game
    ([game.paused], [game.raf._isSetTimeOut]), set the public options
    [advancedTiming] and [slowMotion], or construct a timer of its own. *)
Inductive Op : Type :=
  | op_boot
  | op_add (timer : TimerId)
  | op_create (autoDestroy : option bool)
  | op_removeAll
  | op_refresh
  | op_update (time_ : num)
  | op_countUpdate
  | op_countRender
  | op_gamePaused
  | op_gameResumed
  | op_totalElapsedSeconds
  | op_elapsedSince (since : num)
  | op_elapsedSecondsSince (since : num)
  | op_reset
  | op_desiredFps_get
  | op_desiredFps_set (value : num)
  | host_paused (b : bool)
  | host_isSetTimeOut (b : bool)
  | host_advancedTiming (b : bool)
  | host_slowMotion (v : num)
  | host_new_Timer (autoDestroy : bool).

Definition run_op (o : Op) : M unit :=
  match o with
  | op_boot => boot
  | op_add timer => add timer ;; ret tt
  | op_create autoDestroy => create autoDestroy ;; ret tt
  | op_removeAll => removeAll
  | op_refresh => refresh
  | op_update time_ => update time_
  | op_countUpdate => countUpdate
  | op_countRender => countRender
  | op_gamePaused => gamePaused
  | op_gameResumed => gameResumed
  | op_totalElapsedSeconds => totalElapsedSeconds ;; ret tt
  | op_elapsedSince since => elapsedSince since ;; ret tt
  | op_elapsedSecondsSince since => elapsedSecondsSince since ;; ret tt
  | op_reset => reset
  | op_desiredFps_get => desiredFps_get ;; ret tt
  | op_desiredFps_set value => desiredFps_set value
  | host_paused b =>
      fun w => Val tt (set_game (mkGame b (raf_isSetTimeOut (game w))) w)
  | host_isSetTimeOut b =>
      fun w => Val tt (set_game (mkGame (paused (game w)) b) w)
  | host_advancedTiming b => assign (set_advancedTiming b)
  | host_slowMotion v => assign (set_slowMotion v)
  | host_new_Timer autoDestroy => new_Timer autoDestroy ;; ret tt
  end.

Fixpoint run_ops (os : list Op) : M unit :=
  match os with
  | [] => ret tt
  | o :: os' => run_op o ;; run_ops os'
  end.

(** *** The loops, as functions on the pool *)

(** The timer objects after calling [m] on each of [ids], first to last. *)
Fixpoint apply_all (m : Method) (ids : list TimerId) (h : TimerId -> T)
  : TimerId -> T :=
  match ids with
  | [] => h
  | id :: ids' => apply_all m ids' (<[id := (apply_method m (h id)).1]> h)
  end.

(** Calling [update(time)] on each of [ids], first to last: the timer objects
    afterwards, and the entries whose call returned a truthy value. *)
Fixpoint sweep (time_ : num) (ids : list TimerId) (h : TimerId -> T)
  : (TimerId -> T) * list TimerId :=
  match ids with
  | [] => (h, [])
  | id :: ids' =>
      let r := timer_update (h id) time_ in
      let s := sweep time_ ids' (<[id := r.1]> h) in
      (s.1, if r.2 then id :: s.2 else s.2)
  end.

(** The log entries of calling [m] on each of [ids], first to last. *)
Definition calls_of (m : Method) (ids : list TimerId) : list Call :=
  map (fun id => mkCall id m) ids.

(** *** Views of the clock *)

(** The advanced timing values, with the two private counters behind
    [suggestedFps] and the mark of the last second. *)
Definition statistics (c : Time) : list num :=
  [frames c; updates c; renders c; fps c; ups c; rps c; fpsMin c; fpsMax c;
   msMin c; msMax c; suggestedFps c; _frameCount c; _elapsedAccumulator c;
   _timeLastSecond c].

(** [physicsElapsedMS == physicsElapsed * 1000] *)
Definition fixed_step_consistent (c : Time) : Prop :=
  neqb (physicsElapsedMS c) (nmul (physicsElapsed c) (ofZ 1000)) = true.

(** The calls of [cs] received by the timer [id], in order. *)
Definition received (id : TimerId) (cs : list Call) : list Method :=
  map method (List.filter (fun c => bool_decide (callee c = id)) cs).

(** [n] frames at a constant pace: the [k]-th call of [update] gets the
    timestamp [start + k * pace]. *)
Definition paced_updates (start pace : Qc) (n : nat) : list Op :=
  map (fun k => op_update (Fin (start + Qc_of_Z (Z.of_nat k) * pace)%Qc)) (seq 1 n).

(** The fixed-step fields hold a finite delta and its product by 1000. *)
Definition fixed_step_finite (c : Time) : Prop :=
  exists q, physicsElapsed c = Fin q /\ physicsElapsedMS c = nmul (Fin q) (ofZ 1000).

(** The state of the counters [k] frames into a window. *)
Definition in_window (w0 : World) (a e : Qc) (k : nat) (w : World) : Prop :=
  advancedTiming (clock w) = true /\
  _desiredFps (clock w) = _desiredFps (clock w0) /\
  suggestedFps (clock w) = suggestedFps (clock w0) /\
  now (clock w) = Fin (a + Qc_of_Z (Z.of_nat k) * e) /\
  _frameCount (clock w) = ofNat k /\
  _elapsedAccumulator (clock w) = Fin (Qc_of_Z (Z.of_nat k) * e) /\
  ((0 < k)%nat -> elapsed (clock w) = Fin e).

(** An operation other than [gamePaused]. *)
Definition not_gamePaused (o : Op) : Prop :=
  match o with op_gamePaused => False | _ => True end.

(** An operation that is not an assignment of a non-positive number to
    [desiredFps]. *)
Definition rate_positive (o : Op) : Prop :=
  match o with op_desiredFps_set value => npositive value | _ => True end.

(** Three frames on a new clock, with [elapsed] read after each. *)
Definition three_frames (t1 t2 t3 : num) : M (list num) :=
  Phaser_Time ;;
  boot ;;
  update t1 ;;
  e1 <- read elapsed ;;
  update t2 ;;
  e2 <- read elapsed ;;
  update t3 ;;
  e3 <- read elapsed ;;
  ret [e1; e2; e3].

(** *** The worlds the operations end in *)

(** The world after [timer.m(...)]. *)
Definition after_invoke (id : TimerId) (m : Method) (w : World) : World :=
  set_calls (calls w ++ [mkCall id m])
    (set_heap (<[id := (apply_method m (heap w id)).1]> (heap w)) w).

(** The world after a loop that called [m] on each of [ids], in that order. *)
Definition after_calls (m : Method) (ids : list TimerId) (w : World) : World :=
  set_calls (calls w ++ calls_of m ids) (set_heap (apply_all m ids (heap w)) w).

(** The world after the loop of [updateTimers] has gone through the entries
    [rest] of the pool, the entries before them being [pre]. *)
Definition after_sweep (pre rest : list TimerId) (w : World) : World :=
  let s := sweep (time (clock w)) rest (heap w) in
  {| clock := set__timers (pre ++ s.2) (clock w);
     game := game w;
     heap := s.1;
     nextId := nextId w;
     calls := calls w ++ calls_of (m_update (time (clock w))) rest;
     wall := wall w;
     wallReads := wallReads w |}.

(** The statements of [update] before the test of [game.paused]. *)
Definition update_clock_part (time_ : num) : M unit :=
  previousDateNow <- read time ;;
  d <- Date_now ;;
  assign (set_time d) ;;
  assign (fun this => set_elapsedMS (nsub (time this) previousDateNow) this) ;;
  assign (fun this => set_prevTime (now this) this) ;;
  assign (set_now time_) ;;
  assign (fun this => set_elapsed (nsub (now this) (prevTime this)) this) ;;
  g <- the_game ;;
  (if raf_isSetTimeOut g then
     assign (fun this =>
       set_timeToCall
         (nfloor (nmax (ofZ 0)
                    (nsub (ndiv (ofZ 1000) (_desiredFps this))
                          (nsub (timeExpected this) time_)))) this) ;;
     assign (fun this => set_timeExpected (nadd time_ (timeToCall this)) this)
   else ret tt) ;;
  advanced <- read advancedTiming ;;
  (if advanced : bool then updateAdvancedTiming else ret tt).

(** The rest of [update]. *)
Definition update_timers_part : M unit :=
  g <- the_game ;;
  if negb (paused g) then
    ev <- read events ;;
    t <- read time ;;
    invoke ev (m_update t) ;;
    len <- read (fun this => length (_timers this)) ;;
    if negb (len =? 0)%nat then updateTimers else ret tt
  else ret tt.

(** The world a computation stops in. *)
Definition final {A} (r : Res World A) : World :=
  match r with
  | Val _ w' | TypeError w' | OutOfFuel w' => w'
  end.

(** The world after the first part of [update], and after all of it. *)
Definition after_clock_part (time_ : num) (w : World) : World :=
  final (update_clock_part time_ w).

Definition after_update (time_ : num) (w : World) : World :=
  let w1 := after_clock_part time_ w in
  if paused (game w1) then w1
  else after_sweep [] (_timers (clock w1))
         (after_invoke (events (clock w1)) (m_update (time (clock w1))) w1).

End Clock.

Global Arguments World T : clear implicits.

(** ** A timer for the examples *)

(** A stand-in for [Phaser.Timer]: a timer that expires after a number of
    updates.  [update] counts one tick down and asks to be kept while ticks
    remain; [pause] and [resume] set and clear a flag. *)
Record TickTimer : Type := mkTick { ticks : nat; halted : bool; autoDestroy : bool }.

Global Instance TickTimer_like : TimerLike TickTimer := {|
  timer_new b := mkTick 0 false b;
  timer_start t := t;
  timer_update t _ := (mkTick (pred (ticks t)) (halted t) (autoDestroy t),
                       negb (Nat.leb (ticks t) 1));
  timer_pause t := mkTick (ticks t) true (autoDestroy t);
  timer__pause t := mkTick (ticks t) true (autoDestroy t);
  timer_resume t := mkTick (ticks t) false (autoDestroy t);
  timer__resume t := mkTick (ticks t) false (autoDestroy t);
  timer_destroy t := mkTick 0 (halted t) (autoDestroy t);
  timer_removeAll t := mkTick 0 (halted t) (autoDestroy t)
|}.


(** ** Example worlds *)

(** A world before the clock is constructed: the game runs on
    requestAnimationFrame and is not paused, no timer exists, and the wall
    clock reads 1000, 1050, 1100, ... *)
Definition blank_world : World TickTimer :=
  {| clock := new_fields 0%nat;
     game := mkGame false false;
     heap := fun _ => mkTick 0 false true;
     nextId := 0%nat;
     calls := [];
     wall := fun k => 1000 + 50 * Z.of_nat k;
     wallReads := 0%nat |}.

(** The world of a constructed and booted clock. *)
Definition booted_world : World TickTimer :=
  final ((Phaser_Time ;; boot) blank_world).

(** A booted clock with three timers in its pool, expiring after 5, 3 and 4
    updates. *)
Definition three_timers : M (World TickTimer) unit :=
  a <- create None ;;
  b <- create None ;;
  c <- create None ;;
  (fun w => Val tt (set_heap (<[a := mkTick 5 false true]>
                               (<[b := mkTick 3 false true]>
                                  (<[c := mkTick 4 false true]> (heap w)))) w)).

Definition pool_world : World TickTimer := final (three_timers booted_world).

(** The same after two frames. *)
Definition pool_world_2 : World TickTimer :=
  final ((update (ofZ 16) ;; update (ofZ 33)) pool_world).

(** A booted clock with three timers, the game paused. *)
Definition paused_world : World TickTimer :=
  set_game (mkGame true false) pool_world.

(** A booted clock whose wall clock stands still at 2000. *)
Definition frozen_world : World TickTimer :=
  {| clock := clock booted_world;
     game := game booted_world;
     heap := heap booted_world;
     nextId := nextId booted_world;
     calls := calls booted_world;
     wall := fun _ => 2000;
     wallReads := 0%nat |}.

(** A booted clock with [desiredFps] set to 2 and the advanced timing on. *)
Definition timing_world : World TickTimer :=
  final ((desiredFps_set (ofZ 2) ;; assign (set_advancedTiming true)) booted_world).

(** * Proofs *)

(** ** Facts about numbers *)

Lemma num_eq_decide (a b : num) : bool_decide (a = b) = true -> a = b.
Proof. apply bool_decide_eq_true_1. Qed.

Lemma nsub_ofZ (a b : Z) : nsub (ofZ a) (ofZ b) = ofZ (a - b).
Proof.
  unfold nsub, ofZ; cbn. f_equal.
  rewrite Z2Qc_inj_sub. reflexivity.
Qed.

Lemma nadd_ofZ (a b : Z) : nadd (ofZ a) (ofZ b) = ofZ (a + b).
Proof. unfold ofZ; cbn. f_equal. rewrite Z2Qc_inj_add. reflexivity. Qed.

Lemma nsub_0_r_ofZ (a : Z) : nsub (ofZ a) (ofZ 0) = ofZ a.
Proof. rewrite nsub_ofZ. f_equal. lia. Qed.

Lemma nsub_diag_ofZ (a : Z) : nsub (ofZ a) (ofZ a) = ofZ 0.
Proof. rewrite nsub_ofZ. f_equal. lia. Qed.

Lemma Qc_of_Z_lt_floor (q : Qc) :
  (Qc_of_Z 0 < Qc_of_Z (Qfloor q))%Qc -> (Qc_of_Z 0 < q)%Qc.
Proof.
  unfold Qclt; cbn. intros H.
  eapply Qlt_le_trans; [exact H | apply Qfloor_le].
Qed.

Lemma Qfloor_nonpos (q : Qc) :
  ~ (Qc_of_Z 0 < q)%Qc -> ~ (Qc_of_Z 0 < Qc_of_Z (Qfloor q))%Qc.
Proof. intros H H'. apply H, Qc_of_Z_lt_floor, H'. Qed.

Lemma Qfloor_pos_cases (q : Qc) :
  (Qc_of_Z 0 < q)%Qc -> (0 <= Qfloor q)%Z.
Proof.
  unfold Qclt; cbn. intros H.
  change 0%Z with (Qfloor (inject_Z 0)).
  apply Qfloor_resp_le. apply Qlt_le_weak, H.
Qed.

Lemma nmax_Fin (x y : Qc) :
  nmax (Fin x) (Fin y) = if bool_decide (x < y)%Qc then Fin y else Fin x.
Proof. reflexivity. Qed.

(** [Math.floor] and [Math.max(0, _)] commute. *)
Lemma nfloor_nmax_0 (x : num) :
  nfloor (nmax (ofZ 0) x) = nmax (ofZ 0) (nfloor x).
Proof.
  destruct x as [q| | |]; try reflexivity.
  cbn [nfloor]. unfold ofZ. rewrite !nmax_Fin.
  destruct (decide (Qc_of_Z 0 < q)%Qc) as [Hq|Hq].
  - rewrite (bool_decide_eq_true_2 _ Hq). cbn [nfloor]. unfold ofZ.
    destruct (decide (Qc_of_Z 0 < Qc_of_Z (Qfloor q))%Qc) as [Hf|Hf].
    + rewrite (bool_decide_eq_true_2 _ Hf). reflexivity.
    + rewrite (bool_decide_eq_false_2 _ Hf).
      apply Qfloor_pos_cases in Hq.
      assert (Qfloor q = 0) as ->; [|reflexivity].
      apply Z.le_antisymm; [|exact Hq].
      apply Z.nlt_ge. intros Hlt. apply Hf. apply (proj1 (Z2Qc_inj_lt 0 (Qfloor q))). exact Hlt.
  - rewrite (bool_decide_eq_false_2 _ Hq).
    rewrite (bool_decide_eq_false_2 _ (Qfloor_nonpos _ Hq)).
    reflexivity.
Qed.

Section ClockProofs.

Context {T : Type} `{!TimerLike T}.
Implicit Types (w : World T) (t d : num) (m : Method) (pre rest pool : list TimerId).

(** *** Method calls *)

Lemma invoke_run id m w :
  invoke id m w = Val (apply_method m (heap w id)).2 (after_invoke id m w).
Proof. reflexivity. Qed.

Lemma invoke_at_run i id m w :
  _timers (clock w) !! i = Some id ->
  invoke_at i m w = invoke id m w.
Proof. intros H. unfold invoke_at. rewrite H. reflexivity. Qed.

(** *** The loops *)

Lemma after_calls_nil m w : after_calls m [] w = w.
Proof. destruct w. unfold after_calls, calls_of; cbn. rewrite app_nil_r. reflexivity. Qed.

Lemma after_calls_cons m id ids w :
  after_calls m ids (after_invoke id m w) = after_calls m (id :: ids) w.
Proof.
  unfold after_calls, after_invoke, calls_of; cbn. rewrite <- app_assoc. reflexivity.
Qed.

Lemma reverse_loop_run m i : forall w,
  (i <= length (_timers (clock w)))%nat ->
  reverse_loop m i w = Val tt (after_calls m (reverse (take i (_timers (clock w)))) w).
Proof.
  induction i as [|i IH]; intros w Hi.
  - cbn. rewrite after_calls_nil. reflexivity.
  - destruct (lookup_lt_is_Some_2 (_timers (clock w)) i) as [id Hid]; [lia|].
    cbn [reverse_loop]. unfold bind. rewrite (invoke_at_run _ _ _ _ Hid), invoke_run.
    rewrite IH by (cbn; lia). cbn [clock set_calls set_heap].
    rewrite (take_S_r _ _ _ Hid), reverse_snoc, after_calls_cons. reflexivity.
Qed.

Lemma removeAll_loop_run : forall rest pre fuel w,
  _timers (clock w) = pre ++ rest ->
  (length rest <= fuel)%nat ->
  removeAll_loop fuel (length pre) w = Val tt (after_calls m_destroy rest w).
Proof.
  induction rest as [|id rest IH]; intros pre fuel w Hpool Hfuel.
  - destruct fuel; cbn; unfold bind, read; rewrite Hpool, app_nil_r;
      rewrite bool_decide_eq_false_2 by lia; rewrite after_calls_nil; reflexivity.
  - destruct fuel as [|fuel]; [cbn in Hfuel; lia|].
    cbn [removeAll_loop]. unfold bind at 1, read. rewrite Hpool.
    rewrite bool_decide_eq_true_2 by (rewrite length_app; cbn; lia).
    unfold bind.
    rewrite (invoke_at_run _ id) by (rewrite Hpool; apply list_lookup_middle; reflexivity).
    rewrite invoke_run.
    replace (length pre + 1)%nat with (length (pre ++ [id]))
      by (rewrite length_app; reflexivity).
    rewrite (IH (pre ++ [id]) fuel).
    + rewrite after_calls_cons. reflexivity.
    + cbn. rewrite Hpool, <- app_assoc. reflexivity.
    + cbn in Hfuel. lia.
Qed.

Lemma updateTimers_loop_run : forall rest pre fuel w,
  _timers (clock w) = pre ++ rest ->
  (length rest <= fuel)%nat ->
  updateTimers_loop fuel (length pre) (length pre + length rest) w
  = Val tt (after_sweep pre rest w).
Proof.
  induction rest as [|id rest IH]; intros pre fuel w Hpool Hfuel.
  - assert (after_sweep pre [] w = w) as Hw.
    { unfold after_sweep, calls_of; cbn [sweep map fst snd].
      rewrite !app_nil_r. rewrite app_nil_r in Hpool. rewrite <- Hpool.
      destruct w as [[] ? ? ? ? ? ?]; reflexivity. }
    rewrite Hw.
    destruct fuel; cbn [updateTimers_loop length];
      rewrite bool_decide_eq_false_2 by lia; reflexivity.
  - destruct fuel as [|fuel]; [cbn in Hfuel; lia|].
    cbn [updateTimers_loop length].
    rewrite bool_decide_eq_true_2 by lia.
    unfold bind at 1, read. unfold bind at 1.
    rewrite (invoke_at_run _ id) by (rewrite Hpool; apply list_lookup_middle; reflexivity).
    rewrite invoke_run. cbn [apply_method].
    destruct (timer_update (heap w id) (time (clock w))) as [t' b] eqn:Hupd.
    cbn [fst snd]. destruct b.
    + replace (length pre + 1)%nat with (length (pre ++ [id]))
        by (rewrite length_app; reflexivity).
      replace (length pre + S (length rest))%nat
        with (length (pre ++ [id]) + length rest)%nat
        by (rewrite length_app; cbn; lia).
      rewrite (IH (pre ++ [id]) fuel);
        [|cbn; rewrite Hpool, <- app_assoc; reflexivity|cbn in Hfuel; lia].
      unfold after_sweep; cbn. rewrite Hupd; cbn.
      rewrite <- !app_assoc. reflexivity.
    + unfold bind, assign.
      replace (length pre + S (length rest) - 1)%nat
        with (length pre + length rest)%nat by lia.
      rewrite (IH pre fuel);
        [|cbn; rewrite Hpool; apply delete_middle|cbn in Hfuel; lia].
      unfold after_sweep; cbn. rewrite Hupd; cbn.
      rewrite <- !app_assoc. reflexivity.
Qed.

Lemma updateTimers_run w :
  updateTimers w = Val tt (after_sweep [] (_timers (clock w)) w).
Proof.
  unfold updateTimers, bind, read.
  apply (updateTimers_loop_run (_timers (clock w)) [] _ w); [reflexivity|lia].
Qed.


(** *** One frame *)

(** Symbolic execution of straight-line code: compute with everything but
    the arithmetic and the calls on timers, then settle each test in turn. *)
Ltac run_cbv :=
  cbv -[nadd nsub nmul ndiv nneg nfloor nround nmax nmin nlt nle ngt nge ofZ
        updateTimers invoke after_invoke after_sweep after_calls sweep
        apply_all calls_of reverse_loop removeAll_loop length app].

Ltac run_step :=
  run_cbv;
  try match goal with
      | |- context [if ?b then _ else _] => destruct b eqn:?
      | |- context [match ?b with true => _ | false => _ end] => destruct b eqn:?
      end.

Ltac run_clock := repeat progress run_step.

(** A world taken apart into its fields, so that every field access computes. *)
Ltac open_world w := destruct w as [[] [? ?] ? ? ? ? ?].

Lemma update_parts t w :
  update t w = (update_clock_part t ;; update_timers_part) w.
Proof. open_world w. run_clock; reflexivity. Qed.

Lemma update_clock_part_run t w :
  update_clock_part t w = Val tt (after_clock_part t w).
Proof.
  unfold after_clock_part.
  assert (exists w1, update_clock_part t w = Val tt w1) as [w1 ->];
    [|reflexivity].
  open_world w. run_clock; eexists; reflexivity.
Qed.

(** The first part of [update] leaves the game, the timers and the pool
    alone, and takes one sample of the wall clock. *)
Lemma after_clock_part_frame t w :
  let w1 := after_clock_part t w in
  game w1 = game w /\ heap w1 = heap w /\ nextId w1 = nextId w /\
  calls w1 = calls w /\ wall w1 = wall w /\ wallReads w1 = S (wallReads w) /\
  _timers (clock w1) = _timers (clock w) /\ events (clock w1) = events (clock w) /\
  time (clock w1) = ofZ (wall w (wallReads w)).
Proof.
  open_world w. unfold after_clock_part. run_clock; repeat split; reflexivity.
Qed.

Lemma after_sweep_nil pre w :
  _timers (clock w) = pre -> after_sweep pre [] w = w.
Proof.
  intros <-. unfold after_sweep, calls_of; cbn [sweep map fst snd].
  rewrite !app_nil_r. destruct w as [[] ? ? ? ? ? ?]; reflexivity.
Qed.

Lemma update_timers_part_run w :
  update_timers_part w =
    Val tt (if paused (game w) then w
            else after_sweep [] (_timers (clock w))
                   (after_invoke (events (clock w)) (m_update (time (clock w))) w)).
Proof.
  unfold update_timers_part, bind, the_game, read.
  destruct (paused (game w)); [reflexivity|]. cbn [negb].
  rewrite invoke_run.
  change (clock (after_invoke ?i ?m w)) with (clock w).
  destruct (_timers (clock w)) as [|id ids] eqn:Hpool.
  - cbn [length Nat.eqb negb]. rewrite after_sweep_nil; reflexivity || exact Hpool.
  - cbn [length Nat.eqb negb]. rewrite updateTimers_run.
    change (clock (after_invoke ?i ?m w)) with (clock w).
    rewrite Hpool. reflexivity.
Qed.

(** [update] always completes, in the world [after_update]. *)
Lemma update_run t w : update t w = Val tt (after_update t w).
Proof.
  rewrite update_parts. unfold bind. rewrite update_clock_part_run.
  rewrite update_timers_part_run. unfold after_update.
  generalize (after_clock_part t w); intros w1. reflexivity.
Qed.

Lemma set__timers_same (c : Time) : set__timers (_timers c) c = c.
Proof. destruct c; reflexivity. Qed.

(** Past its first part, [update] changes no field of the clock but the
    pool. *)
Lemma after_update_clock t w :
  clock (after_update t w)
  = set__timers (_timers (clock (after_update t w))) (clock (after_clock_part t w)).
Proof.
  unfold after_update. cbv zeta.
  generalize (after_clock_part t w); intros w1.
  destruct (paused (game w1)).
  - symmetry. apply set__timers_same.
  - reflexivity.
Qed.

Lemma after_update_wallReads t w : wallReads (after_update t w) = S (wallReads w).
Proof.
  unfold after_update. cbv zeta.
  destruct (after_clock_part_frame t w) as (_ & _ & _ & _ & _ & Hr & _).
  destruct (paused (game (after_clock_part t w))); exact Hr.
Qed.

(** The first part of [update] does not look at [game.paused]. *)
Lemma after_clock_part_paused t w (p : bool) :
  after_clock_part t (set_game (mkGame p (raf_isSetTimeOut (game w))) w)
  = set_game (mkGame p (raf_isSetTimeOut (game w))) (after_clock_part t w).
Proof. open_world w. unfold after_clock_part. run_clock; reflexivity. Qed.

(** The timestamps of a frame. *)
Lemma update_now t w :
  exists w', update t w = Val tt w' /\
    now (clock w') = t /\
    prevTime (clock w') = now (clock w) /\
    elapsed (clock w') = nsub t (now (clock w)) /\
    time (clock w') = ofZ (wall w (wallReads w)) /\
    elapsedMS (clock w') = nsub (ofZ (wall w (wallReads w))) (time (clock w)).
Proof.
  rewrite update_run. eexists; split; [reflexivity|].
  rewrite (after_update_clock t w).
  generalize (_timers (clock (after_update t w))); intros ts.
  open_world w. unfold after_clock_part. run_clock; repeat split; reflexivity.
Qed.

(** C2: under setTimeout the next delay is
    [max(0, floor(1000/desiredFps - (timeExpected - time)))] and the next call
    is expected that long after [time]; otherwise [update] leaves both fields
    as they were. *)
Theorem update_fallback_cadence t w :
  exists w', update t w = Val tt w' /\
    if raf_isSetTimeOut (game w) then
      timeToCall (clock w')
      = nmax (ofZ 0)
          (nfloor (nsub (ndiv (ofZ 1000) (_desiredFps (clock w)))
                        (nsub (timeExpected (clock w)) t))) /\
      timeExpected (clock w') = nadd t (timeToCall (clock w'))
    else
      timeToCall (clock w') = timeToCall (clock w) /\
      timeExpected (clock w') = timeExpected (clock w).
Proof.
  rewrite update_run. eexists; split; [reflexivity|].
  rewrite (after_update_clock t w).
  generalize (_timers (clock (after_update t w))); intros ts.
  open_world w. unfold after_clock_part.
  run_clock; (split; [try apply nfloor_nmax_0|]); reflexivity.
Qed.

Lemma bind_val {A B} (m : M (World T) A) (k : A -> M (World T) B) w a w' :
  m w = Val a w' -> bind m k w = k a w'.
Proof. unfold bind. intros ->. reflexivity. Qed.

(** C9: [refresh] takes one sample of the wall clock and assigns [time] and
    [elapsedMS] only, so [now], [elapsed] and every other field keep their
    values; a second [refresh] that gets the same sample sets [elapsedMS]
    to 0. *)
Theorem refresh_only_wall_time w :
  let d := ofZ (wall w (wallReads w)) in
  exists w1, refresh w = Val tt w1 /\
    w1 = set_clock (set_elapsedMS (nsub d (time (clock w))) (set_time d (clock w)))
           (set_wallReads (S (wallReads w)) w) /\
    now (clock w1) = now (clock w) /\
    elapsed (clock w1) = elapsed (clock w) /\
    (wall w (S (wallReads w)) = wall w (wallReads w) ->
     exists w2, refresh w1 = Val tt w2 /\
       time (clock w2) = time (clock w1) /\
       elapsedMS (clock w2) = ofZ 0).
Proof.
  cbv zeta. eexists. split; [reflexivity|].
  split; [reflexivity|]. split; [reflexivity|]. split; [reflexivity|].
  intros Hsame. eexists. split; [reflexivity|].
  cbn [clock set_clock set_wallReads wall wallReads time elapsedMS
       set_elapsedMS set_time].
  rewrite Hsame. split; [reflexivity|]. apply nsub_diag_ofZ.
Qed.

(** C8: with [advancedTiming] off, [update] changes none of the advanced
    timing values, and [countUpdate] and [countRender] change nothing at
    all. *)
Theorem statistics_frozen w :
  advancedTiming (clock w) = false ->
  (forall t, exists w', update t w = Val tt w' /\
     statistics (clock w') = statistics (clock w) /\
     advancedTiming (clock w') = false) /\
  countUpdate w = Val tt w /\
  countRender w = Val tt w.
Proof.
  intros Hoff. split; [|split].
  - intros t. rewrite update_run. eexists; split; [reflexivity|].
    rewrite (after_update_clock t w).
    generalize (_timers (clock (after_update t w))); intros ts.
    open_world w. cbn in Hoff. subst. unfold after_clock_part.
    run_clock; split; reflexivity.
  - unfold countUpdate, bind, read. rewrite Hoff. reflexivity.
  - unfold countRender, bind, read. rewrite Hoff. reflexivity.
Qed.

(** C7: while the game is paused [update] calls no timer and leaves the pool
    as it is; every other field of the clock gets the value it gets when the
    game is running. *)
Theorem update_while_paused t w :
  paused (game w) = true ->
  exists w', update t w = Val tt w' /\
    calls w' = calls w /\
    heap w' = heap w /\
    _timers (clock w') = _timers (clock w) /\
    exists w2,
      update t (set_game (mkGame false (raf_isSetTimeOut (game w))) w) = Val tt w2 /\
      clock w' = set__timers (_timers (clock w)) (clock w2) /\
      wallReads w' = wallReads w2.
Proof.
  intros Hp. rewrite !update_run.
  destruct (after_clock_part_frame t w) as (Hg & Hh & _ & Hc & _ & Hr & Hts & _).
  assert (after_update t w = after_clock_part t w) as Hw.
  { unfold after_update. cbv zeta. rewrite Hg, Hp. reflexivity. }
  eexists; split; [reflexivity|]. rewrite Hw.
  split; [exact Hc|]. split; [exact Hh|]. split; [exact Hts|].
  eexists; split; [reflexivity|]. split.
  - rewrite after_update_clock, after_clock_part_paused.
    cbn [clock set_game]. rewrite <- Hts.
    generalize (clock (after_clock_part t w)); intros c.
    destruct c; reflexivity.
  - rewrite after_update_wallReads. exact Hr.
Qed.

Lemma boot_run w :
  exists w', boot w = Val tt w' /\ now (clock w') = now (clock w) /\
    _timers (clock w') = _timers (clock w).
Proof. eexists. split; [reflexivity|]. split; reflexivity. Qed.

Lemma three_frames_run (t1 t2 t3 : num) w :
  exists w', three_frames t1 t2 t3 w
             = Val [nsub t1 (ofZ 0); nsub t2 t1; nsub t3 t2] w'.
Proof.
  unfold three_frames.
  rewrite (bind_val Phaser_Time _ w tt _ eq_refl).
  match goal with |- context [bind boot _ ?w0] =>
    destruct (boot_run w0) as (w1 & Hboot & Hnow & _);
    rewrite (bind_val boot _ w0 tt w1 Hboot)
  end.
  cbn [now clock set_clock new_fields] in Hnow.
  destruct (update_now t1 w1) as (w2 & H2 & Hn2 & _ & He2 & _).
  rewrite (bind_val _ _ _ _ _ H2). unfold bind at 1, read at 1.
  destruct (update_now t2 w2) as (w3 & H3 & Hn3 & _ & He3 & _).
  rewrite (bind_val _ _ _ _ _ H3). unfold bind at 1, read at 1.
  destruct (update_now t3 w3) as (w4 & H4 & Hn4 & _ & He4 & _).
  rewrite (bind_val _ _ _ _ _ H4). unfold bind at 1, read at 1.
  eexists. unfold ret. rewrite He2, He3, He4, Hnow, Hn2, Hn3. reflexivity.
Qed.

(** C5: on a new, booted clock the calls [update(0)], [update(16)],
    [update(33)] give [elapsed] the values 0, 16 and 17: each time the
    argument minus the previous [now], which starts at 0. *)
Theorem three_frames_elapsed w :
  (forall t1 t2 t3, exists w',
      three_frames t1 t2 t3 w = Val [nsub t1 (ofZ 0); nsub t2 t1; nsub t3 t2] w') /\
  exists w', three_frames (ofZ 0) (ofZ 16) (ofZ 33) w
             = Val [ofZ 0; ofZ 16; ofZ 17] w'.
Proof.
  split; [intros; apply three_frames_run|].
  destruct (three_frames_run (ofZ 0) (ofZ 16) (ofZ 33) w) as [w' Hrun].
  exists w'. rewrite Hrun, !nsub_ofZ. reflexivity.
Qed.

(** *** Pause, resume and the other operations *)

Lemma gamePaused_run w :
  gamePaused w =
    Val tt (after_calls m__pause (reverse (_timers (clock w)))
              (after_invoke (events (clock w)) m_pause
                 (set_clock (set__pauseStarted (ofZ (wall w (wallReads w))) (clock w))
                    (set_wallReads (S (wallReads w)) w)))).
Proof.
  unfold gamePaused.
  rewrite (bind_val Date_now _ w _ _ eq_refl).
  rewrite (bind_val (assign _) _ _ _ _ eq_refl).
  rewrite (bind_val (read events) _ _ _ _ eq_refl).
  rewrite (bind_val (invoke _ _) _ _ _ _ (invoke_run _ _ _)).
  rewrite (bind_val (read _) _ _ _ _ eq_refl).
  rewrite reverse_loop_run by reflexivity.
  rewrite take_ge by reflexivity. destruct w as [[] ? ? ? ? ? ?]; reflexivity.
Qed.

Lemma gameResumed_run w :
  gameResumed w =
    Val tt (after_calls m__resume (reverse (_timers (clock w)))
              (after_invoke (events (clock w)) m_resume
                 (set_clock
                    (set_pauseDuration
                       (nsub (ofZ (wall w (wallReads w))) (_pauseStarted (clock w)))
                       (set_time (ofZ (wall w (wallReads w))) (clock w)))
                    (set_wallReads (S (wallReads w)) w)))).
Proof.
  unfold gameResumed.
  rewrite (bind_val Date_now _ w _ _ eq_refl).
  rewrite (bind_val (assign _) _ _ _ _ eq_refl).
  rewrite (bind_val (assign _) _ _ _ _ eq_refl).
  rewrite (bind_val (read events) _ _ _ _ eq_refl).
  rewrite (bind_val (invoke _ _) _ _ _ _ (invoke_run _ _ _)).
  rewrite (bind_val (read _) _ _ _ _ eq_refl).
  rewrite reverse_loop_run by reflexivity.
  rewrite take_ge by reflexivity. destruct w as [[] ? ? ? ? ? ?]; reflexivity.
Qed.

Lemma removeAll_run w :
  removeAll w =
    Val tt (after_invoke (events (clock w)) m_removeAll
              (set_clock (set__timers [] (clock w))
                 (after_calls m_destroy (_timers (clock w)) w))).
Proof.
  unfold removeAll.
  rewrite (bind_val (read _) _ _ _ _ eq_refl).
  rewrite (bind_val (removeAll_loop _ _) _ _ _ _
             (removeAll_loop_run (_timers (clock w)) [] _ w eq_refl (le_n _))).
  reflexivity.
Qed.

(** The calls a timer of a duplicate-free list receives from a loop over the
    list. *)
Lemma received_app id (cs1 cs2 : list Call) :
  received id (cs1 ++ cs2) = received id cs1 ++ received id cs2.
Proof. unfold received. rewrite List.filter_app, map_app. reflexivity. Qed.

Lemma received_calls_of_notin id m (ids : list TimerId) :
  id ∉ ids -> received id (calls_of m ids) = [].
Proof.
  induction ids as [|x ids IH]; intros Hnotin; [reflexivity|].
  apply not_elem_of_cons in Hnotin as [Hne Hnotin].
  unfold received in *. cbn. rewrite bool_decide_eq_false_2 by congruence.
  apply IH, Hnotin.
Qed.

Lemma received_calls_of id m (ids : list TimerId) :
  NoDup ids -> id ∈ ids -> received id (calls_of m ids) = [m].
Proof.
  induction 1 as [|x ids Hx Hnd IH]; intros Hin; [inversion Hin|].
  apply elem_of_cons in Hin as [->|Hin].
  - change (received x (calls_of m (x :: ids)))
      with (received x ([mkCall x m] ++ calls_of m ids)).
    rewrite received_app, (received_calls_of_notin _ _ _ Hx).
    unfold received; cbn. rewrite bool_decide_eq_true_2 by reflexivity. reflexivity.
  - change (received id (calls_of m (x :: ids)))
      with (received id ([mkCall x m] ++ calls_of m ids)).
    rewrite received_app, (IH Hin).
    unfold received; cbn. rewrite bool_decide_eq_false_2; [reflexivity|].
    intros ->. contradiction.
Qed.

Lemma received_other id x m : x <> id -> received id [mkCall x m] = [].
Proof.
  intros Hne. unfold received; cbn. rewrite bool_decide_eq_false_2 by exact Hne.
  reflexivity.
Qed.

(** C1, as the code has it: [gamePaused] stores a new sample of the wall clock
    in [_pauseStarted], leaves [time] as it was, and calls [pause] on the
    master timer, then [_pause] on the pool from its last entry to its
    first.  [gameResumed], when the wall clock has advanced by [D] since,
    sets [time] to the new sample and [pauseDuration] to
    [time - _pauseStarted], which is [D], and calls [resume] and [_resume] the
    same way.  A timer that is in the pool once gets [_pause] then [_resume],
    and nothing else. *)
Theorem pause_resume_round_trip w (D : Z) :
  let p := wall w (wallReads w) in
  let pool := _timers (clock w) in
  let ev := events (clock w) in
  wall w (S (wallReads w)) = p + D ->
  exists w1 w2,
    gamePaused w = Val tt w1 /\
    gameResumed w1 = Val tt w2 /\
    _pauseStarted (clock w1) = ofZ p /\
    time (clock w1) = time (clock w) /\
    calls w1 = calls w ++ mkCall ev m_pause :: calls_of m__pause (reverse pool) /\
    time (clock w2) = ofZ (p + D) /\
    pauseDuration (clock w2) = nsub (time (clock w2)) (_pauseStarted (clock w1)) /\
    pauseDuration (clock w2) = ofZ D /\
    calls w2 = calls w1 ++ mkCall ev m_resume :: calls_of m__resume (reverse pool) /\
    _timers (clock w2) = pool /\
    forall id, NoDup pool -> id ∈ pool -> id <> ev ->
      exists cs, calls w2 = calls w ++ cs /\ received id cs = [m__pause; m__resume].
Proof.
  cbv zeta. intros Hwall.
  eexists. eexists.
  split; [apply gamePaused_run|]. split; [apply gameResumed_run|].
  cbn [clock after_calls after_invoke set_calls set_heap set_clock set_wallReads
       wall wallReads calls].
  rewrite Hwall.
  cbn [_pauseStarted time pauseDuration _timers events set__pauseStarted set_time
       set_pauseDuration].
  split; [reflexivity|]. split; [reflexivity|].
  split; [rewrite <- app_assoc; reflexivity|].
  split; [reflexivity|]. split; [reflexivity|].
  split; [rewrite nsub_ofZ; f_equal; lia|].
  split; [rewrite <- !app_assoc; reflexivity|].
  split; [reflexivity|].
  intros id Hnd Hin Hne.
  eexists. split.
  - rewrite <- !app_assoc. reflexivity.
  - rewrite !received_app.
    rewrite !(received_other id (events (clock w))) by congruence.
    assert (NoDup (reverse (_timers (clock w)))) as Hnd'
      by (apply NoDup_ListNoDup; rewrite reverse_Permutation;
          apply NoDup_ListNoDup, Hnd).
    apply elem_of_reverse_2 in Hin.
    rewrite !received_calls_of by assumption.
    reflexivity.
Qed.

(** *** Every operation completes *)

(** What an operation does to the fixed-step fields and to [_pauseStarted]. *)
Lemma run_op_effect (o : Op) w :
  exists w', run_op o w = Val tt w' /\
    (match o with
     | op_desiredFps_set value =>
         physicsElapsed (clock w') = ndiv (ofZ 1) value /\
         physicsElapsedMS (clock w') = nmul (ndiv (ofZ 1) value) (ofZ 1000)
     | _ =>
         physicsElapsed (clock w') = physicsElapsed (clock w) /\
         physicsElapsedMS (clock w') = physicsElapsedMS (clock w)
     end) /\
    (not_gamePaused o -> _pauseStarted (clock w') = _pauseStarted (clock w)).
Proof.
  destruct o; cbn [run_op not_gamePaused];
    try (eexists; split; [reflexivity|]; split; [split|intros _]; reflexivity).
  - (* removeAll *)
    eexists; split; [apply removeAll_run|].
    split; [split|intros _]; reflexivity.
  - (* update *)
    rewrite update_run. eexists; split; [reflexivity|].
    rewrite (after_update_clock time_ w).
    generalize (_timers (clock (after_update time_ w))); intros ts.
    open_world w. unfold after_clock_part.
    run_clock; (split; [split|intros _]); reflexivity.
  - (* countUpdate *)
    unfold countUpdate, bind, read. destruct (advancedTiming (clock w));
      (eexists; split; [reflexivity|]; split; [split|intros _]; reflexivity).
  - (* countRender *)
    unfold countRender, bind, read. destruct (advancedTiming (clock w));
      (eexists; split; [reflexivity|]; split; [split|intros _]; reflexivity).
  - (* gamePaused *)
    eexists; split; [apply gamePaused_run|].
    split; [split; reflexivity|intros []].
  - (* gameResumed *)
    eexists; split; [apply gameResumed_run|].
    split; [split|intros _]; reflexivity.
  - (* reset *)
    unfold reset. rewrite (bind_val (assign _) _ _ _ _ eq_refl).
    eexists; split; [apply removeAll_run|].
    split; [split|intros _]; reflexivity.
Qed.

(** A property of the clock kept by every allowed operation is kept by every
    sequence of them. *)
Lemma run_ops_invariant (I : Time -> Prop) (allowed : Op -> Prop) :
  (forall o w, allowed o -> I (clock w) ->
     exists w', run_op o w = Val tt w' /\ I (clock w')) ->
  forall ops w, Forall allowed ops -> I (clock w) ->
    exists w', run_ops ops w = Val tt w' /\ I (clock w').
Proof.
  intros Hstep ops. induction ops as [|o ops IH]; intros w Hall HI.
  - exists w. split; [reflexivity|exact HI].
  - inversion Hall as [|? ? Ho Hall']; subst.
    destruct (Hstep o w Ho HI) as (w1 & Hrun & HI1).
    destruct (IH w1 Hall' HI1) as (w2 & Hrun2 & HI2).
    exists w2. split; [|exact HI2].
    cbn [run_ops]. rewrite (bind_val _ _ _ _ _ Hrun). exact Hrun2.
Qed.

Lemma fixed_step_finite_consistent c :
  fixed_step_finite c -> fixed_step_consistent c.
Proof.
  intros (q & Hq & Hms). unfold fixed_step_consistent. rewrite Hms, Hq.
  cbn. apply bool_decide_eq_true_2. reflexivity.
Qed.

Lemma ndiv_1_positive (r : num) : npositive r -> exists q, ndiv (ofZ 1) r = Fin q.
Proof.
  unfold npositive. destruct r as [q| | |]; cbn; intros Hpos; try discriminate.
  - apply bool_decide_eq_true_1 in Hpos.
    destruct (decide (q = 0%Qc)) as [->|Hne].
    + exfalso. apply (Qclt_not_eq _ _ Hpos). apply Z2Qc_inj_0.
    + eexists. reflexivity.
  - eexists. reflexivity.
Qed.

(** C3: assigning a positive [r] to [desiredFps] sets [physicsElapsed] to
    [1/r], [physicsElapsedMS] to [(1/r) * 1000] and [desiredFpsMult] to [1/r];
    and [physicsElapsedMS == physicsElapsed * 1000] holds of a new clock and
    after any sequence of operations that assigns only positive rates. *)
Theorem fixed_step_invariant :
  (forall (r : num) w, npositive r ->
     exists w', desiredFps_set r w = Val tt w' /\
       _desiredFps (clock w') = r /\
       physicsElapsed (clock w') = ndiv (ofZ 1) r /\
       physicsElapsedMS (clock w') = nmul (ndiv (ofZ 1) r) (ofZ 1000) /\
       desiredFpsMult (clock w') = ndiv (ofZ 1) r /\
       fixed_step_consistent (clock w')) /\
  (forall w (ops : list Op), Forall rate_positive ops ->
     exists w', (Phaser_Time ;; run_ops ops) w = Val tt w' /\
       fixed_step_consistent (clock w')).
Proof.
  split.
  - intros r w Hpos. eexists. split; [reflexivity|].
    do 4 (split; [reflexivity|]).
    apply fixed_step_finite_consistent.
    destruct (ndiv_1_positive r Hpos) as [q Hq].
    exists q. split; [exact Hq|]. rewrite <- Hq. reflexivity.
  - intros w ops Hops.
    rewrite (bind_val Phaser_Time _ w tt _ eq_refl).
    match goal with |- context [run_ops ops ?w0] =>
      destruct (run_ops_invariant fixed_step_finite rate_positive) with (ops := ops) (w := w0)
        as (w' & Hrun & Hinv)
    end.
    + intros o w1 Hpos Hinv.
      destruct (run_op_effect o w1) as (w2 & Hrun & Heff & _).
      exists w2. split; [exact Hrun|].
      destruct o;
        try (destruct Heff as [He Hms]; unfold fixed_step_finite;
             rewrite He, Hms; exact Hinv).
      destruct Heff as [He Hms]. destruct (ndiv_1_positive value Hpos) as [q Hq].
      exists q. rewrite He, Hms, Hq. split; reflexivity.
    + exact Hops.
    + eexists. split; reflexivity.
    + exists w'. split; [exact Hrun|]. apply fixed_step_finite_consistent, Hinv.
Qed.

(** C10: as long as [gamePaused] has not been called, [_pauseStarted] is 0,
    and [gameResumed] then sets [pauseDuration] to the whole timestamp it
    samples. *)
Theorem resume_without_pause w (ops : list Op) :
  Forall not_gamePaused ops ->
  exists w1 w2,
    (Phaser_Time ;; run_ops ops) w = Val tt w1 /\
    _pauseStarted (clock w1) = ofZ 0 /\
    gameResumed w1 = Val tt w2 /\
    time (clock w2) = ofZ (wall w1 (wallReads w1)) /\
    pauseDuration (clock w2) = ofZ (wall w1 (wallReads w1)).
Proof.
  intros Hops.
  rewrite (bind_val Phaser_Time _ w tt _ eq_refl).
  match goal with |- context [run_ops ops ?w0] =>
    destruct (run_ops_invariant (fun c => _pauseStarted c = ofZ 0) not_gamePaused)
      with (ops := ops) (w := w0) as (w1 & Hrun & Hinv)
  end.
  - intros o w1 Ho Hinv.
    destruct (run_op_effect o w1) as (w2 & Hrun & _ & Hkeep).
    exists w2. split; [exact Hrun|]. rewrite (Hkeep Ho). exact Hinv.
  - exact Hops.
  - reflexivity.
  - exists w1. eexists.
    split; [exact Hrun|]. split; [exact Hinv|].
    split; [apply gameResumed_run|].
    cbn [clock after_calls after_invoke set_calls set_heap set_clock time
         pauseDuration set_pauseDuration set_time].
    split; [reflexivity|]. rewrite Hinv. apply nsub_0_r_ofZ.
Qed.

(** *** The window of [suggestedFps] *)

Lemma ofNat_S (k : nat) : nadd (ofNat k) (ofZ 1) = ofNat (S k).
Proof. unfold ofNat. rewrite nadd_ofZ. f_equal. lia. Qed.

Lemma nge_ofNat (a b : nat) : nge (ofNat a) (ofNat b) = bool_decide (b <= a)%nat.
Proof.
  unfold nge, nle, ofNat, ofZ.
  apply bool_decide_ext. rewrite <- Z2Qc_inj_le. lia.
Qed.

Lemma Qc_of_nat_S (k : nat) :
  Qc_of_Z (Z.of_nat (S k)) = (Qc_of_Z (Z.of_nat k) + 1)%Qc.
Proof. rewrite Nat2Z.inj_succ, <- Z.add_1_r, Z2Qc_inj_add, Z2Qc_inj_1. reflexivity. Qed.

Lemma paced_elapsed (a e : Qc) (k : nat) :
  nsub (Fin (a + Qc_of_Z (Z.of_nat (S k)) * e)) (Fin (a + Qc_of_Z (Z.of_nat k) * e))
  = Fin e.
Proof. unfold nsub; cbn. f_equal. rewrite Qc_of_nat_S. ring. Qed.

Lemma paced_accumulated (e : Qc) (k : nat) :
  nadd (Fin (Qc_of_Z (Z.of_nat k) * e)) (Fin e) = Fin (Qc_of_Z (Z.of_nat (S k)) * e).
Proof. cbn. f_equal. rewrite Qc_of_nat_S. ring. Qed.

Lemma paced_average (e : Qc) (n : nat) :
  (0 < n)%nat -> ndiv (Fin (Qc_of_Z (Z.of_nat n) * e)) (ofNat n) = Fin e.
Proof.
  intros Hn. unfold ofNat, ofZ, ndiv.
  assert (Qc_of_Z (Z.of_nat n) <> 0%Qc) as Hne.
  { rewrite <- Z2Qc_inj_0. intros Heq. apply Z2Qc_inj in Heq. lia. }
  destruct (decide (Qc_of_Z (Z.of_nat n) = 0%Qc)) as [Heq|_]; [contradiction|].
  f_equal. field. exact Hne.
Qed.

(** What a frame does to the counters behind [suggestedFps]. *)
Lemma update_counters t w :
  advancedTiming (clock w) = true ->
  exists w', update t w = Val tt w' /\
    advancedTiming (clock w') = true /\
    _desiredFps (clock w') = _desiredFps (clock w) /\
    now (clock w') = t /\
    elapsed (clock w') = nsub t (now (clock w)) /\
    let count := nadd (_frameCount (clock w)) (ofZ 1) in
    let total := nadd (_elapsedAccumulator (clock w)) (nsub t (now (clock w))) in
    if nge count (nmul (_desiredFps (clock w)) (ofZ 2)) then
      suggestedFps (clock w')
      = nmul (nfloor (ndiv (ofZ 200) (ndiv total count))) (ofZ 5) /\
      _frameCount (clock w') = ofZ 0 /\
      _elapsedAccumulator (clock w') = ofZ 0
    else
      suggestedFps (clock w') = suggestedFps (clock w) /\
      _frameCount (clock w') = count /\
      _elapsedAccumulator (clock w') = total.
Proof.
  intros Hon. rewrite update_run. eexists; split; [reflexivity|].
  rewrite (after_update_clock t w).
  generalize (_timers (clock (after_update t w))); intros ts.
  open_world w. cbn in Hon. subst. unfold after_clock_part.
  run_clock; repeat split; reflexivity.
Qed.

Lemma run_ops_app (ops1 ops2 : list Op) w :
  run_ops (ops1 ++ ops2) w = (run_ops ops1 ;; run_ops ops2) w.
Proof.
  revert w. induction ops1 as [|o ops1 IH]; intros w; [reflexivity|].
  cbn [run_ops app]. unfold bind in *.
  destruct (run_op o w); [apply IH|reflexivity|reflexivity].
Qed.

Lemma in_window_step w0 (a e : Qc) (n k : nat) w :
  nmul (_desiredFps (clock w0)) (ofZ 2) = ofNat n ->
  in_window w0 a e k w ->
  (S k < n)%nat ->
  exists w', update (Fin (a + Qc_of_Z (Z.of_nat (S k)) * e)) w = Val tt w' /\
    in_window w0 a e (S k) w'.
Proof.
  intros Hn (Hon & Hfps & Hsug & Hnow & Hcount & Htotal & _) Hk.
  destruct (update_counters (Fin (a + Qc_of_Z (Z.of_nat (S k)) * e)) w Hon)
    as (w' & Hrun & Hon' & Hfps' & Hnow' & Hel & Hcounters).
  cbv zeta in Hcounters.
  rewrite Hnow, paced_elapsed in Hel, Hcounters.
  rewrite Hfps, Hn, Hcount, ofNat_S, nge_ofNat in Hcounters.
  rewrite bool_decide_eq_false_2 in Hcounters by lia.
  destruct Hcounters as (Hsug' & Hcount' & Htotal').
  exists w'. split; [exact Hrun|].
  repeat split; try congruence.
  rewrite Htotal', Htotal. apply paced_accumulated.
Qed.

Lemma in_window_run w0 (a e : Qc) (n : nat) :
  nmul (_desiredFps (clock w0)) (ofZ 2) = ofNat n ->
  forall (cnt k : nat) w,
    in_window w0 a e k w ->
    (k + cnt < n)%nat ->
    exists w',
      run_ops (map (fun j => op_update (Fin (a + Qc_of_Z (Z.of_nat j) * e)))
                 (seq (S k) cnt)) w = Val tt w' /\
      in_window w0 a e (k + cnt) w'.
Proof.
  intros Hn. induction cnt as [|cnt IH]; intros k w Hin Hlt.
  - exists w. split; [reflexivity|]. rewrite Nat.add_0_r. exact Hin.
  - destruct (in_window_step w0 a e n k w Hn Hin) as (w1 & Hrun1 & Hin1); [lia|].
    destruct (IH (S k) w1 Hin1) as (w2 & Hrun2 & Hin2); [lia|].
    exists w2. split.
    + cbn [seq map run_ops run_op]. rewrite (bind_val _ _ _ _ _ Hrun1). exact Hrun2.
    + replace (k + S cnt)%nat with (S k + cnt)%nat by lia. exact Hin2.
Qed.

(** C6: with the advanced timing on and the two counters at zero, let
    [2 * desiredFps] be a whole number [n] of frames and let [update] be
    called [n] times, [now] advancing by [e] each time.  The first [n - 1]
    calls leave [suggestedFps] alone; the [n]-th sets it to
    [floor(200 / e) * 5] and puts both counters back to zero. *)
Theorem suggestedFps_after_window w (n : nat) (a e : Qc) :
  advancedTiming (clock w) = true ->
  _frameCount (clock w) = ofZ 0 ->
  _elapsedAccumulator (clock w) = ofZ 0 ->
  now (clock w) = Fin a ->
  (0 < n)%nat ->
  nmul (_desiredFps (clock w)) (ofZ 2) = ofNat n ->
  (forall k, (k < n)%nat ->
     exists wk, run_ops (paced_updates a e k) w = Val tt wk /\
       _frameCount (clock wk) = ofNat k /\
       suggestedFps (clock wk) = suggestedFps (clock w) /\
       ((0 < k)%nat -> elapsed (clock wk) = Fin e)) /\
  exists w', run_ops (paced_updates a e n) w = Val tt w' /\
    elapsed (clock w') = Fin e /\
    suggestedFps (clock w') = nmul (nfloor (ndiv (ofZ 200) (Fin e))) (ofZ 5) /\
    _frameCount (clock w') = ofZ 0 /\
    _elapsedAccumulator (clock w') = ofZ 0.
Proof.
  intros Hon Hcount Htotal Hnow Hpos Hn.
  assert (in_window w a e 0 w) as Hin0.
  { repeat split; try assumption.
    - rewrite Hnow. f_equal.
      rewrite (Z2Qc_inj_0 : Qc_of_Z (Z.of_nat 0) = 0%Qc). ring.
    - rewrite Htotal. unfold ofZ. f_equal.
      rewrite (Z2Qc_inj_0 : Qc_of_Z (Z.of_nat 0) = 0%Qc), Z2Qc_inj_0. ring.
    - lia. }
  split.
  - intros k Hk.
    destruct (in_window_run w a e n Hn k 0%nat w Hin0) as (wk & Hrun & Hin); [lia|].
    destruct Hin as (_ & _ & Hsug & _ & Hc & _ & Hel).
    exists wk. repeat split; assumption.
  - destruct n as [|m]; [lia|].
    destruct (in_window_run w a e (S m) Hn m 0%nat w Hin0) as (wm & Hrun & Hin); [lia|].
    cbn [Nat.add] in Hin.
    destruct Hin as (Hon' & Hfps & Hsug & Hnow' & Hc & Ht & _).
    destruct (update_counters (Fin (a + Qc_of_Z (Z.of_nat (S m)) * e)) wm Hon')
      as (w' & Hrun' & _ & _ & _ & Hel & Hcounters).
    cbv zeta in Hcounters.
    rewrite Hnow', paced_elapsed in Hel, Hcounters.
    rewrite Hfps, Hn, Hc, ofNat_S, nge_ofNat in Hcounters.
    rewrite bool_decide_eq_true_2 in Hcounters by lia.
    rewrite Ht, paced_accumulated, paced_average in Hcounters by lia.
    destruct Hcounters as (Hsug' & Hc' & Ht').
    exists w'. split; [|repeat split; assumption].
    unfold paced_updates. rewrite seq_S, map_app, run_ops_app.
    rewrite (bind_val _ _ _ _ _ Hrun).
    cbn [map run_ops run_op Nat.add]. rewrite (bind_val _ _ _ _ _ Hrun').
    reflexivity.
Qed.

(** *** Pool maintenance *)

Lemma sweep_sublist t (ids : list TimerId) : forall h : TimerId -> T,
  (sweep t ids h).2 `sublist_of` ids.
Proof.
  induction ids as [|id ids IH]; intros h; cbn [sweep fst snd].
  - constructor.
  - destruct (timer_update (h id) t).2.
    + apply sublist_skip, IH.
    + apply sublist_cons, IH.
Qed.

(** When no timer is in the list twice, an entry is kept exactly when its own
    call of [update] returned a truthy value. *)
Lemma sweep_filter t (h0 : TimerId -> T) (ids : list TimerId) :
  NoDup ids ->
  forall h : TimerId -> T,
    (forall id, id ∈ ids -> h id = h0 id) ->
    (sweep t ids h).2 = List.filter (fun id => (timer_update (h0 id) t).2) ids.
Proof.
  induction 1 as [|id ids Hid Hnd IH]; intros h Hsame; [reflexivity|].
  cbn [sweep fst snd List.filter].
  rewrite (Hsame id) by apply list_elem_of_here.
  rewrite (IH (<[id := (timer_update (h0 id) t).1]> h)).
  - reflexivity.
  - intros id' Hin. rewrite fn_lookup_insert_ne.
    + apply Hsame, list_elem_of_further, Hin.
    + intros ->. contradiction.
Qed.

(** C4: when the game is not paused, [update] calls [update(time)], with the
    new [time], on the master timer and then on each entry of the pool, once,
    first to last.  The pool afterwards holds the entries whose call returned
    a truthy value, in their order; the others are gone.  With three
    different timers [a], [b], [c], of which only [b] returns a falsy value,
    the pool becomes [a; c]. *)
Theorem pool_maintenance t w :
  paused (game w) = false ->
  let tm := ofZ (wall w (wallReads w)) in
  let pool := _timers (clock w) in
  let ev := events (clock w) in
  let h1 := <[ev := (timer_update (heap w ev) tm).1]> (heap w) in
  exists w', update t w = Val tt w' /\
    time (clock w') = tm /\
    calls w' = calls w ++ mkCall ev (m_update tm) :: calls_of (m_update tm) pool /\
    heap w' = (sweep tm pool h1).1 /\
    _timers (clock w') = (sweep tm pool h1).2 /\
    _timers (clock w') `sublist_of` pool /\
    (NoDup pool -> ev ∉ pool ->
       _timers (clock w')
       = List.filter (fun id => (timer_update (heap w id) tm).2) pool /\
       forall id, id ∈ pool ->
         exists cs, calls w' = calls w ++ cs /\ received id cs = [m_update tm]) /\
    (forall a b c,
       pool = [a; b; c] ->
       NoDup [ev; a; b; c] ->
       (timer_update (heap w a) tm).2 = true ->
       (timer_update (heap w b) tm).2 = false ->
       (timer_update (heap w c) tm).2 = true ->
       _timers (clock w') = [a; c]).
Proof.
  intros Hp. cbv zeta. rewrite update_run. eexists; split; [reflexivity|].
  destruct (after_clock_part_frame t w) as (Hg & Hh & _ & Hc & _ & _ & Hts & Hev & Htm).
  unfold after_update; cbv zeta. rewrite Hg, Hp.
  revert Hh Hc Hts Hev Htm.
  generalize (after_clock_part t w); intros w1 Hh Hc Hts Hev Htm.
  unfold after_sweep, after_invoke.
  cbn [clock heap calls set_calls set_heap apply_method app].
  cbn [time _timers set__timers].
  rewrite Hh, Hc, Hts, Hev, Htm.
  set (tm := ofZ (wall w (wallReads w))).
  set (pool := _timers (clock w)).
  set (ev := events (clock w)).
  set (h1 := <[ev := (timer_update (heap w ev) tm).1]> (heap w)).
  assert (forall id, id ∈ pool -> ev ∉ pool -> h1 id = heap w id) as Hsame.
  { intros id Hin Hnotin. unfold h1. apply fn_lookup_insert_ne.
    intros ->. contradiction. }
  split; [reflexivity|].
  split; [rewrite <- app_assoc; reflexivity|].
  split; [reflexivity|]. split; [reflexivity|].
  split; [apply sweep_sublist|]. split.
  - intros Hnd Hnotin. split.
    + apply sweep_filter; [exact Hnd|]. intros id Hin. apply Hsame; assumption.
    + intros id Hin. eexists. split; [rewrite <- app_assoc; reflexivity|].
      rewrite received_app, received_other, (received_calls_of _ _ _ Hnd Hin);
        [reflexivity|].
      intros ->. contradiction.
  - intros a b c Hpool Hnd Ha Hb Hc'.
    inversion Hnd as [|? ? Hnotin Hnd']; subst.
    rewrite (sweep_filter tm (heap w) pool).
    + rewrite Hpool. cbn [List.filter]. rewrite Ha, Hb, Hc'. reflexivity.
    + rewrite Hpool. exact Hnd'.
    + intros id Hin. apply Hsame; [exact Hin|]. rewrite Hpool. exact Hnotin.
Qed.

End ClockProofs.

(** ** The example worlds *)

Example booted_world_run : (Phaser_Time ;; boot) blank_world = Val tt booted_world.
Proof. vm_compute. reflexivity. Qed.

Example booted_world_fields :
  events (clock booted_world) = 0%nat /\
  _started (clock booted_world) = ofZ 1000 /\
  time (clock booted_world) = ofZ 1050 /\
  timeExpected (clock booted_world) = ofZ 1050 /\
  calls booted_world = [mkCall 0%nat m_start].
Proof. repeat split; vm_compute; reflexivity. Qed.

Example pool_world_run :
  three_timers booted_world = Val tt pool_world /\
  _timers (clock pool_world) = [1; 2; 3]%nat /\
  map (fun id => ticks (heap pool_world id)) [1; 2; 3]%nat = [5; 3; 4]%nat.
Proof. repeat split; vm_compute; reflexivity. Qed.

Example pool_world_2_run :
  (update (ofZ 16) ;; update (ofZ 33)) pool_world = Val tt pool_world_2 /\
  map (fun id => ticks (heap pool_world_2 id)) [1; 2; 3]%nat = [3; 1; 2]%nat.
Proof. split; vm_compute; reflexivity. Qed.

Example timing_world_run :
  (desiredFps_set (ofZ 2) ;; assign (set_advancedTiming true)) booted_world
  = Val tt timing_world.
Proof. vm_compute. reflexivity. Qed.

(** ** The theorems at work on the example worlds *)

Lemma pause_resume_round_trip_witness :
  wall pool_world (S (wallReads pool_world))
  = wall pool_world (wallReads pool_world) + 50 /\
  exists w1 w2,
    gamePaused pool_world = Val tt w1 /\
    gameResumed w1 = Val tt w2 /\
    pauseDuration (clock w2) = ofZ 50.
Proof.
  split; [reflexivity|].
  destruct (pause_resume_round_trip pool_world 50 eq_refl)
    as (w1 & w2 & Hp & Hr & _ & _ & _ & _ & _ & Hd & _).
  exists w1, w2. split; [exact Hp|]. split; [exact Hr|exact Hd].
Defined.

(** Against C1 as stated: on a booted clock, [gamePaused] stores the sample
    1100 in [_pauseStarted] while [time] still holds 1050. *)
Lemma pause_start_is_not_time :
  exists w', gamePaused booted_world = Val tt w' /\
    time (clock w') = ofZ 1050 /\
    _pauseStarted (clock w') = ofZ 1100 /\
    _pauseStarted (clock w') <> time (clock w').
Proof.
  eexists. split; [apply gamePaused_run|].
  split; [reflexivity|]. split; [reflexivity|].
  intros H. apply (f_equal (fun x => neqb x (ofZ 1050))) in H.
  vm_compute in H. discriminate H.
Qed.

Lemma pool_maintenance_witness :
  paused (game pool_world_2) = false /\
  _timers (clock pool_world_2) = [1; 2; 3]%nat /\
  exists w', update (ofZ 50) pool_world_2 = Val tt w' /\
    _timers (clock w') = [1; 3]%nat.
Proof.
  split; [reflexivity|]. split; [reflexivity|].
  destruct (pool_maintenance (ofZ 50) pool_world_2 eq_refl)
    as (w' & Hrun & _ & _ & _ & Hpool & _).
  exists w'. split; [exact Hrun|]. rewrite Hpool. vm_compute. reflexivity.
Defined.

Lemma update_while_paused_witness :
  paused (game paused_world) = true /\
  exists w', update (ofZ 16) paused_world = Val tt w' /\
    calls w' = calls paused_world /\
    _timers (clock w') = [1; 2; 3]%nat.
Proof.
  split; [reflexivity|].
  destruct (update_while_paused (ofZ 16) paused_world eq_refl)
    as (w' & Hrun & Hcalls & _ & Hpool & _).
  exists w'. split; [exact Hrun|]. split; [exact Hcalls|].
  rewrite Hpool. reflexivity.
Defined.

Lemma statistics_frozen_witness :
  advancedTiming (clock booted_world) = false /\
  countUpdate booted_world = Val tt booted_world /\
  exists w', update (ofZ 16) booted_world = Val tt w' /\
    statistics (clock w') = statistics (clock booted_world).
Proof.
  split; [reflexivity|].
  destruct (statistics_frozen booted_world eq_refl) as (Hupd & Hcu & _).
  split; [exact Hcu|].
  destruct (Hupd (ofZ 16)) as (w' & Hrun & Hstats & _).
  exists w'. split; [exact Hrun|exact Hstats].
Defined.

Lemma refresh_only_wall_time_witness :
  wall frozen_world (S (wallReads frozen_world))
  = wall frozen_world (wallReads frozen_world) /\
  exists w1 w2,
    refresh frozen_world = Val tt w1 /\
    refresh w1 = Val tt w2 /\
    elapsedMS (clock w2) = ofZ 0.
Proof.
  split; [reflexivity|].
  destruct (refresh_only_wall_time frozen_world) as (w1 & Hr1 & _ & _ & _ & Hagain).
  destruct (Hagain eq_refl) as (w2 & Hr2 & _ & Hzero).
  exists w1, w2. split; [exact Hr1|]. split; [exact Hr2|exact Hzero].
Defined.

Lemma fixed_step_invariant_witness :
  npositive (ofZ 30) /\
  Forall rate_positive [op_boot; op_desiredFps_set (ofZ 30); op_update (ofZ 16)] /\
  (exists w', desiredFps_set (ofZ 30) booted_world = Val tt w' /\
     fixed_step_consistent (clock w')) /\
  (exists w',
     (Phaser_Time ;;
      run_ops [op_boot; op_desiredFps_set (ofZ 30); op_update (ofZ 16)]) blank_world
     = Val tt w' /\
     fixed_step_consistent (clock w')).
Proof.
  assert (npositive (ofZ 30)) as Hpos by (vm_compute; reflexivity).
  assert (Forall rate_positive
            [op_boot; op_desiredFps_set (ofZ 30); op_update (ofZ 16)]) as Hops
    by (repeat constructor; exact Hpos).
  split; [exact Hpos|]. split; [exact Hops|].
  destruct (@fixed_step_invariant TickTimer _) as (Hset & Hall).
  split.
  - destruct (Hset (ofZ 30) booted_world Hpos) as (w' & Hrun & _ & _ & _ & _ & Hok).
    exists w'. split; [exact Hrun|exact Hok].
  - destruct (Hall blank_world _ Hops) as (w' & Hrun & Hok).
    exists w'. split; [exact Hrun|exact Hok].
Defined.

Lemma resume_without_pause_witness :
  Forall not_gamePaused [op_boot; op_update (ofZ 16)] /\
  exists w1 w2,
    (Phaser_Time ;; run_ops [op_boot; op_update (ofZ 16)]) blank_world = Val tt w1 /\
    gameResumed w1 = Val tt w2 /\
    pauseDuration (clock w2) = time (clock w2).
Proof.
  assert (Forall not_gamePaused [op_boot; op_update (ofZ 16)]) as Hops
    by (repeat constructor).
  split; [exact Hops|].
  destruct (resume_without_pause blank_world _ Hops)
    as (w1 & w2 & Hrun & _ & Hres & Htime & Hdur).
  exists w1, w2. split; [exact Hrun|]. split; [exact Hres|].
  rewrite Hdur, Htime. reflexivity.
Defined.

Lemma suggestedFps_after_window_witness :
  advancedTiming (clock timing_world) = true /\
  nmul (_desiredFps (clock timing_world)) (ofZ 2) = ofNat 4 /\
  exists w',
    run_ops (paced_updates (Qc_of_Z 0) (Qc_of_Z 16) 4) timing_world = Val tt w' /\
    suggestedFps (clock w') = ofZ 60 /\
    _frameCount (clock w') = ofZ 0.
Proof.
  assert (nmul (_desiredFps (clock timing_world)) (ofZ 2) = ofNat 4) as Hn
    by (apply num_eq_decide; vm_compute; reflexivity).
  split; [reflexivity|]. split; [exact Hn|].
  destruct (suggestedFps_after_window timing_world 4 (Qc_of_Z 0) (Qc_of_Z 16)
              eq_refl eq_refl eq_refl eq_refl (le_S _ _ (le_S _ _ (le_S _ _ (le_n 1)))) Hn)
    as (_ & w' & Hrun & _ & Hsug & Hcount & _).
  exists w'. split; [exact Hrun|]. split; [|exact Hcount].
  rewrite Hsug. apply num_eq_decide. vm_compute. reflexivity.
Defined.

(** * Further properties of the clock *)

(** ** Definitions *)

(** A number that is an integer, as [Date.now()] returns them. *)
Definition is_sample (x : num) : Prop := exists z : Z, x = ofZ z.

(** The fields that hold wall-clock samples or differences of two. *)
Definition wall_fields_integral (c : Time) : Prop :=
  is_sample (time c) /\ is_sample (_started c) /\ is_sample (_pauseStarted c) /\
  is_sample (elapsedMS c) /\ is_sample (pauseDuration c).

(** An operation other than an assignment to [desiredFps]. *)
Definition not_desiredFps_set (o : Op) : Prop :=
  match o with op_desiredFps_set _ => False | _ => True end.

(** An operation other than [boot] and [reset]. *)
Definition keeps_started (o : Op) : Prop :=
  match o with op_boot | op_reset => False | _ => True end.

(** An operation other than [add]. *)
Definition not_add (o : Op) : Prop :=
  match o with op_add _ => False | _ => True end.

(** No timer is in the pool twice, and every timer of the pool was made
    after the master timer and before the next one will be. *)
Definition pool_distinct {T : Type} (w : World T) : Prop :=
  NoDup (_timers (clock w)) /\
  (forall id, id ∈ _timers (clock w) ->
     (events (clock w) < id)%nat /\ (id < nextId w)%nat) /\
  (events (clock w) < nextId w)%nat.

(** The counters [k] frames into a second that began at [a]. *)
Definition in_second {T : Type} (w0 : World T) (a e : Qc) (k : nat) (w : World T)
  : Prop :=
  advancedTiming (clock w) = true /\
  now (clock w) = Fin (a + Qc_of_Z (Z.of_nat k) * e) /\
  _timeLastSecond (clock w) = Fin a /\
  frames (clock w) = ofNat k /\
  fps (clock w) = fps (clock w0).

(** The wall clock does not run backwards and [time] holds a sample not later
    than the next one; [elapsedMS] is a non-negative integer. *)
Definition wall_in_order {T : Type} (w : World T) : Prop :=
  (forall i j : nat, (i <= j)%nat -> wall w i <= wall w j) /\
  (exists z, time (clock w) = ofZ z /\ z <= wall w (wallReads w)) /\
  (exists d, elapsedMS (clock w) = ofZ d /\ 0 <= d).

(** An operation other than [add] and [create]. *)
Definition adds_no_timer (o : Op) : Prop :=
  match o with op_add _ | op_create _ => False | _ => True end.

(** A booted clock whose game runs on setTimeout. *)
Definition timeout_world : World TickTimer :=
  set_game (mkGame false true) booted_world.

Section ClockMore.

Context {T : Type} `{!TimerLike T}.
Implicit Types (w : World T) (t : num) (pool : list TimerId).

(** Field by field evaluation of the first part of [update]. *)
Ltac eval_fields :=
  cbv -[nadd nsub nmul ndiv nneg nfloor nround nmax nmin nlt nle ngt nge ofZ
        updateTimers invoke after_invoke after_sweep after_calls sweep
        apply_all calls_of reverse_loop removeAll_loop length app is_sample];
  try match goal with
      | |- context [if ?b then _ else _] => destruct b eqn:?
      | |- context [match ?b with true => _ | false => _ end] => destruct b eqn:?
      end.

Ltac eval_clock := repeat progress eval_fields.

Ltac take_apart w := destruct w as [[] [? ?] ? ? ? ? ?].

(** The fields [update] never assigns, and the wall-clock fields after it. *)
Lemma update_untouched t w :
  let c := clock w in
  let c' := clock (after_update t w) in
  events c' = events c /\ _desiredFps c' = _desiredFps c /\
  _started c' = _started c /\ _pauseStarted c' = _pauseStarted c /\
  pauseDuration c' = pauseDuration c /\ slowMotion c' = slowMotion c /\
  advancedTiming c' = advancedTiming c /\
  time c' = ofZ (wall w (wallReads w)) /\
  elapsedMS c' = nsub (ofZ (wall w (wallReads w))) (time c).
Proof.
  cbv zeta. rewrite (after_update_clock t w).
  generalize (_timers (clock (after_update t w))); intros ts.
  take_apart w. unfold after_clock_part.
  eval_clock; repeat split; reflexivity.
Qed.

Lemma after_update_pool t w :
  _timers (clock (after_update t w)) `sublist_of` _timers (clock w) /\
  wall (after_update t w) = wall w.
Proof.
  unfold after_update. cbv zeta.
  destruct (after_clock_part_frame t w) as (_ & _ & _ & _ & Hw & _ & Hts & _).
  revert Hts Hw. generalize (after_clock_part t w); intros w1 Hts Hw.
  destruct (paused (game w1)).
  - rewrite Hts. split; [reflexivity|exact Hw].
  - split; [|exact Hw]. unfold after_sweep, after_invoke. cbn [clock _timers set__timers app set_calls set_heap].
    rewrite Hts. apply sweep_sublist.
Qed.

Lemma is_sample_ofZ (z : Z) : is_sample (ofZ z).
Proof. exists z. reflexivity. Qed.

Lemma is_sample_nsub (x y : num) : is_sample x -> is_sample y -> is_sample (nsub x y).
Proof. intros [a ->] [b ->]. rewrite nsub_ofZ. apply is_sample_ofZ. Qed.

Ltac solve_samples :=
  unfold wall_fields_integral in *;
  cbn [clock set_clock time _started _pauseStarted elapsedMS pauseDuration] in *;
  repeat match goal with
         | H : _ /\ _ |- _ => destruct H
         end;
  repeat split;
  repeat first [assumption | apply is_sample_ofZ | apply is_sample_nsub].

(** What every operation keeps: the master timer, the wall clock, the
    integrality of the wall-clock fields; and what all but a few keep. *)
Lemma run_op_keeps (o : Op) w :
  exists w', run_op o w = Val tt w' /\
    events (clock w') = events (clock w) /\
    wall w' = wall w /\
    (wall_fields_integral (clock w) -> wall_fields_integral (clock w')) /\
    (not_desiredFps_set o -> _desiredFps (clock w') = _desiredFps (clock w)) /\
    (keeps_started o -> _started (clock w') = _started (clock w)) /\
    (adds_no_timer o -> _timers (clock w') `sublist_of` _timers (clock w)).
Proof.
  destruct o; cbn [run_op not_desiredFps_set keeps_started adds_no_timer].
  - (* boot *)
    eexists; split; [reflexivity|]. take_apart w.
    split; [reflexivity|]. split; [reflexivity|]. split; [intros Hs; solve_samples|].
    split; [reflexivity|]. split; [intros []|intros _; reflexivity].
  - (* add *)
    eexists; split; [reflexivity|]. take_apart w.
    split; [reflexivity|]. split; [reflexivity|]. split; [intros Hs; exact Hs|].
    split; [reflexivity|]. split; [reflexivity|intros []].
  - (* create *)
    eexists; split; [reflexivity|]. take_apart w.
    split; [reflexivity|]. split; [reflexivity|]. split; [intros Hs; exact Hs|].
    split; [reflexivity|]. split; [reflexivity|intros []].
  - (* removeAll *)
    eexists; split; [apply removeAll_run|]. take_apart w.
    split; [reflexivity|]. split; [reflexivity|]. split; [intros Hs; exact Hs|].
    split; [reflexivity|]. split; [reflexivity|intros _; apply sublist_nil_l].
  - (* refresh *)
    eexists; split; [reflexivity|]. take_apart w.
    split; [reflexivity|]. split; [reflexivity|]. split; [intros Hs; solve_samples|].
    split; [reflexivity|]. split; [reflexivity|intros _; reflexivity].
  - (* update *)
    rewrite update_run. eexists; split; [reflexivity|].
    destruct (update_untouched time_ w) as (He & Hd & Hs & Hp & Hpd & _ & _ & Ht & Hms).
    destruct (after_update_pool time_ w) as (Hsub & Hw).
    split; [exact He|]. split; [exact Hw|]. split.
    { unfold wall_fields_integral. rewrite Hs, Hp, Hpd, Ht, Hms.
      intros (H1 & H2 & H3 & H4 & H5).
      repeat split; repeat first [assumption | apply is_sample_ofZ | apply is_sample_nsub]. }
    split; [intros _; exact Hd|]. split; [intros _; exact Hs|intros _; exact Hsub].
  - (* countUpdate *)
    unfold countUpdate, bind, read. destruct (advancedTiming (clock w));
      (eexists; split; [reflexivity|];
       split; [reflexivity|]; split; [reflexivity|]; split; [intros Hs; exact Hs|];
       split; [reflexivity|]; split; [reflexivity|intros _; reflexivity]).
  - (* countRender *)
    unfold countRender, bind, read. destruct (advancedTiming (clock w));
      (eexists; split; [reflexivity|];
       split; [reflexivity|]; split; [reflexivity|]; split; [intros Hs; exact Hs|];
       split; [reflexivity|]; split; [reflexivity|intros _; reflexivity]).
  - (* gamePaused *)
    eexists; split; [apply gamePaused_run|]. take_apart w.
    split; [reflexivity|]. split; [reflexivity|]. split; [intros Hs; solve_samples|].
    split; [reflexivity|]. split; [reflexivity|intros _; reflexivity].
  - (* gameResumed *)
    eexists; split; [apply gameResumed_run|]. take_apart w.
    split; [reflexivity|]. split; [reflexivity|]. split; [intros Hs; solve_samples|].
    split; [reflexivity|]. split; [reflexivity|intros _; reflexivity].
  - (* totalElapsedSeconds *)
    eexists; split; [reflexivity|].
    split; [reflexivity|]. split; [reflexivity|]. split; [intros Hs; exact Hs|].
    split; [reflexivity|]. split; [reflexivity|intros _; reflexivity].
  - (* elapsedSince *)
    eexists; split; [reflexivity|].
    split; [reflexivity|]. split; [reflexivity|]. split; [intros Hs; exact Hs|].
    split; [reflexivity|]. split; [reflexivity|intros _; reflexivity].
  - (* elapsedSecondsSince *)
    eexists; split; [reflexivity|].
    split; [reflexivity|]. split; [reflexivity|]. split; [intros Hs; exact Hs|].
    split; [reflexivity|]. split; [reflexivity|intros _; reflexivity].
  - (* reset *)
    unfold reset. rewrite (bind_val (assign _) _ _ _ _ eq_refl).
    eexists; split; [apply removeAll_run|]. take_apart w.
    split; [reflexivity|]. split; [reflexivity|]. split; [intros Hs; solve_samples|].
    split; [reflexivity|]. split; [intros []|intros _; apply sublist_nil_l].
  - (* desiredFps, read *)
    eexists; split; [reflexivity|].
    split; [reflexivity|]. split; [reflexivity|]. split; [intros Hs; exact Hs|].
    split; [reflexivity|]. split; [reflexivity|intros _; reflexivity].
  - (* desiredFps, assigned *)
    eexists; split; [reflexivity|]. take_apart w.
    split; [reflexivity|]. split; [reflexivity|]. split; [intros Hs; exact Hs|].
    split; [intros []|]. split; [reflexivity|intros _; reflexivity].
  - eexists; split; [reflexivity|].
    split; [reflexivity|]. split; [reflexivity|]. split; [intros Hs; exact Hs|].
    split; [reflexivity|]. split; [reflexivity|intros _; reflexivity].
  - eexists; split; [reflexivity|].
    split; [reflexivity|]. split; [reflexivity|]. split; [intros Hs; exact Hs|].
    split; [reflexivity|]. split; [reflexivity|intros _; reflexivity].
  - eexists; split; [reflexivity|]. take_apart w.
    split; [reflexivity|]. split; [reflexivity|]. split; [intros Hs; exact Hs|].
    split; [reflexivity|]. split; [reflexivity|intros _; reflexivity].
  - eexists; split; [reflexivity|]. take_apart w.
    split; [reflexivity|]. split; [reflexivity|]. split; [intros Hs; exact Hs|].
    split; [reflexivity|]. split; [reflexivity|intros _; reflexivity].
  - eexists; split; [reflexivity|].
    split; [reflexivity|]. split; [reflexivity|]. split; [intros Hs; exact Hs|].
    split; [reflexivity|]. split; [reflexivity|intros _; reflexivity].
Qed.

(** A property of the world kept by every allowed operation is kept by every
    sequence of them, and the sequence completes. *)
Lemma run_ops_keeps (I : World T -> Prop) (allowed : Op -> Prop) :
  (forall o w, allowed o -> I w -> exists w', run_op o w = Val tt w' /\ I w') ->
  forall ops w, Forall allowed ops -> I w ->
    exists w', run_ops ops w = Val tt w' /\ I w'.
Proof.
  intros Hstep ops. induction ops as [|o ops IH]; intros w Hall HI.
  - exists w. split; [reflexivity|exact HI].
  - inversion Hall as [|? ? Ho Hall']; subst.
    destruct (Hstep o w Ho HI) as (w1 & Hrun & HI1).
    destruct (IH w1 Hall' HI1) as (w2 & Hrun2 & HI2).
    exists w2. split; [|exact HI2].
    cbn [run_ops]. rewrite (bind_val _ _ _ _ _ Hrun). exact Hrun2.
Qed.

Lemma Forall_any (ops : list Op) : Forall (fun _ => True) ops.
Proof. induction ops; constructor; auto. Qed.

(** The wall-clock fields stay integral, whatever is done to the clock. *)
Lemma run_ops_integral (ops : list Op) w :
  wall_fields_integral (clock w) ->
  exists w', run_ops ops w = Val tt w' /\ wall_fields_integral (clock w').
Proof.
  intros Hw.
  apply (run_ops_keeps (fun w => wall_fields_integral (clock w)) (fun _ => True));
    [|apply Forall_any|exact Hw].
  intros o w1 _ H1. destruct (run_op_keeps o w1) as (w2 & Hrun & _ & _ & Hkeep & _).
  exists w2. split; [exact Hrun|apply Hkeep, H1].
Qed.

Lemma new_fields_integral (ev : TimerId) : wall_fields_integral (new_fields ev).
Proof. repeat split; apply is_sample_ofZ. Qed.

(** X1: on a clock made by the constructor, after any operations, [time],
    [_started] and [_pauseStarted] hold integers, as [Date.now()] returns
    them, and so do the two differences [elapsedMS] and [pauseDuration]; and
    no operation throws on the way. *)
Theorem wall_fields_stay_integral w (ops : list Op) :
  exists w', (Phaser_Time ;; run_ops ops) w = Val tt w' /\
    wall_fields_integral (clock w').
Proof.
  rewrite (bind_val Phaser_Time _ w tt _ eq_refl).
  apply run_ops_integral. apply new_fields_integral.
Qed.

(** X2: [events] always refers to the timer the constructor made, and an
    operation other than [add] and [create] puts no timer in the pool: what
    the pool holds afterwards it held before, in the same order. *)
Theorem master_kept_pool_only_shrinks w (ops : list Op) :
  (exists w', (Phaser_Time ;; run_ops ops) w = Val tt w' /\
     events (clock w') = nextId w) /\
  (Forall adds_no_timer ops ->
   exists w', run_ops ops w = Val tt w' /\
     events (clock w') = events (clock w) /\
     _timers (clock w') `sublist_of` _timers (clock w)).
Proof.
  split.
  - rewrite (bind_val Phaser_Time _ w tt _ eq_refl).
    apply (run_ops_keeps (fun w' => events (clock w') = nextId w) (fun _ => True));
      [|apply Forall_any|reflexivity].
    intros o w1 _ H1. destruct (run_op_keeps o w1) as (w2 & Hrun & Hev & _).
    exists w2. split; [exact Hrun|]. rewrite Hev. exact H1.
  - intros Hops.
    apply (run_ops_keeps
             (fun w' => events (clock w') = events (clock w) /\
                        _timers (clock w') `sublist_of` _timers (clock w))
             adds_no_timer); [|exact Hops|split; reflexivity].
    intros o w1 Ho (H1 & H2).
    destruct (run_op_keeps o w1) as (w2 & Hrun & Hev & _ & _ & _ & _ & Hsub).
    exists w2. split; [exact Hrun|]. split; [rewrite Hev; exact H1|].
    etransitivity; [apply Hsub, Ho|exact H2].
Qed.

(** *** Pauses *)

(** X3: the length of a pause is measured between the sample [gamePaused]
    took and the one [gameResumed] takes, whatever is done in between except
    pausing again (frames, refreshes, other samples of the wall clock). *)
Theorem pause_length_over_operations w (ops : list Op) :
  Forall not_gamePaused ops ->
  exists w1 w2 w3,
    gamePaused w = Val tt w1 /\
    run_ops ops w1 = Val tt w2 /\
    gameResumed w2 = Val tt w3 /\
    pauseDuration (clock w3)
    = ofZ (wall w (wallReads w2) - wall w (wallReads w)).
Proof.
  intros Hops.
  destruct (run_ops_keeps
              (fun w' => _pauseStarted (clock w') = ofZ (wall w (wallReads w)) /\
                         wall w' = wall w)
              not_gamePaused) with (ops := ops)
      (w := after_calls m__pause (reverse (_timers (clock w)))
              (after_invoke (events (clock w)) m_pause
                 (set_clock (set__pauseStarted (ofZ (wall w (wallReads w))) (clock w))
                    (set_wallReads (S (wallReads w)) w))))
    as (w2 & Hrun & Hps & Hwall).
  - intros o w1 Ho (H1 & H2).
    destruct (run_op_effect o w1) as (w' & Hrun & _ & Hkeep).
    destruct (run_op_keeps o w1) as (w'' & Hrun' & _ & Hw & _).
    rewrite Hrun in Hrun'. injection Hrun' as <-.
    exists w'. split; [exact Hrun|]. split; [rewrite (Hkeep Ho); exact H1|].
    rewrite Hw. exact H2.
  - exact Hops.
  - split; reflexivity.
  - eexists. exists w2. eexists.
    split; [apply gamePaused_run|]. split; [exact Hrun|].
    split; [apply gameResumed_run|].
    cbn [clock after_calls after_invoke set_calls set_heap set_clock pauseDuration
         set_pauseDuration set_time].
    rewrite Hps, Hwall. apply nsub_ofZ.
Qed.

(** X4: the first frame after [gameResumed] gets as [elapsedMS] the time
    since the resume only, not since the frame before the pause, while
    [elapsed] is still the argument minus the previous [now]. *)
Theorem wall_delta_after_resume w t :
  exists w1 w2,
    gameResumed w = Val tt w1 /\
    update t w1 = Val tt w2 /\
    elapsedMS (clock w2)
    = ofZ (wall w (S (wallReads w)) - wall w (wallReads w)) /\
    elapsed (clock w2) = nsub t (now (clock w)).
Proof.
  pose proof (gameResumed_run w) as Hres.
  match type of Hres with _ = Val tt ?w' => set (w1 := w') in Hres end.
  assert (wall w1 (wallReads w1) = wall w (S (wallReads w))) as Hwall by reflexivity.
  assert (time (clock w1) = ofZ (wall w (wallReads w))) as Htime by reflexivity.
  assert (now (clock w1) = now (clock w)) as Hnow by reflexivity.
  clearbody w1.
  destruct (update_untouched t w1) as (_ & _ & _ & _ & _ & _ & _ & _ & Hms).
  destruct (update_now t w1) as (w2 & Hrun & _ & _ & Hel & _).
  pose proof Hrun as Hrun'. rewrite update_run in Hrun'. injection Hrun' as <-.
  exists w1, (after_update t w1).
  split; [exact Hres|]. split; [exact Hrun|].
  rewrite Hms, Hel, Hwall, Htime, Hnow. split; [apply nsub_ofZ|reflexivity].
Qed.

(** Frames while the game is paused call no timer. *)
Lemma paused_frames (ts : list num) : forall w,
  paused (game w) = true ->
  exists w', run_ops (map op_update ts) w = Val tt w' /\
    calls w' = calls w /\ heap w' = heap w /\ game w' = game w /\
    _timers (clock w') = _timers (clock w) /\
    events (clock w') = events (clock w) /\
    _pauseStarted (clock w') = _pauseStarted (clock w).
Proof.
  induction ts as [|t ts IH]; intros w Hp.
  - exists w. repeat split; reflexivity.
  - destruct (after_clock_part_frame t w)
      as (Hg & Hh & _ & Hc & _ & _ & Hts & Hev & _).
    destruct (update_untouched t w) as (_ & _ & _ & Hps & _).
    assert (after_update t w = after_clock_part t w) as Hw.
    { unfold after_update. cbv zeta. rewrite Hg, Hp. reflexivity. }
    rewrite Hw in Hps.
    destruct (IH (after_clock_part t w)) as (w' & Hrun & Hc' & Hh' & Hg' & Hts' & Hev' & Hps');
      [rewrite Hg; exact Hp|].
    exists w'. split.
    + cbn [map run_ops run_op].
      rewrite (bind_val _ _ _ _ _ (update_run t w)), Hw. exact Hrun.
    + repeat split; congruence.
Qed.

(** The log and the pool after [gamePaused] and after [gameResumed]. *)
Lemma gamePaused_log w :
  exists w1, gamePaused w = Val tt w1 /\
    calls w1 = calls w ++ mkCall (events (clock w)) m_pause
                       :: calls_of m__pause (reverse (_timers (clock w))) /\
    _timers (clock w1) = _timers (clock w) /\
    events (clock w1) = events (clock w) /\
    game w1 = game w /\
    _pauseStarted (clock w1) = ofZ (wall w (wallReads w)).
Proof.
  eexists. split; [apply gamePaused_run|].
  split; [|repeat split; reflexivity].
  unfold after_calls, after_invoke. cbn [calls set_calls set_heap].
  rewrite <- app_assoc. reflexivity.
Qed.

Lemma gameResumed_log w :
  exists w1, gameResumed w = Val tt w1 /\
    calls w1 = calls w ++ mkCall (events (clock w)) m_resume
                       :: calls_of m__resume (reverse (_timers (clock w))) /\
    _timers (clock w1) = _timers (clock w) /\
    events (clock w1) = events (clock w).
Proof.
  eexists. split; [apply gameResumed_run|].
  split; [|repeat split; reflexivity].
  unfold after_calls, after_invoke. cbn [calls set_calls set_heap].
  rewrite <- app_assoc. reflexivity.
Qed.

(** X5: timers do not tick during a pause.  With [game.paused] set, the
    calls made on timers by [gamePaused], any number of frames and
    [gameResumed] are the pause calls followed by the resume calls, with no
    [update] among them, and the pool is unchanged. *)
Theorem no_ticks_while_paused w (ts : list num) :
  paused (game w) = true ->
  let pool := _timers (clock w) in
  let ev := events (clock w) in
  exists w1 w2 w3,
    gamePaused w = Val tt w1 /\
    run_ops (map op_update ts) w1 = Val tt w2 /\
    gameResumed w2 = Val tt w3 /\
    calls w3 = calls w
               ++ (mkCall ev m_pause :: calls_of m__pause (reverse pool))
               ++ (mkCall ev m_resume :: calls_of m__resume (reverse pool)) /\
    _timers (clock w3) = pool.
Proof.
  intros Hp. cbv zeta.
  destruct (gamePaused_log w) as (w1 & Hrun1 & Hc1 & Hts1 & Hev1 & Hg1 & _).
  destruct (paused_frames ts w1) as (w2 & Hrun2 & Hc2 & _ & _ & Hts2 & Hev2 & _);
    [rewrite Hg1; exact Hp|].
  destruct (gameResumed_log w2) as (w3 & Hrun3 & Hc3 & Hts3 & _).
  exists w1, w2, w3.
  split; [exact Hrun1|]. split; [exact Hrun2|]. split; [exact Hrun3|].
  rewrite Hc3, Hts3, Hc2, Hts2, Hev2, Hc1, Hts1, Hev1.
  split; [|reflexivity]. rewrite <- !app_assoc. reflexivity.
Qed.

(** *** Clearing the pool and restarting the session *)

(** X6: [removeAll] calls [destroy] on each entry of the pool, first to last,
    empties the pool and then calls [removeAll] on the master timer; no other
    field of the clock changes.  The master timer itself is not destroyed
    unless it had been added to the pool, and with an empty pool only its
    [removeAll] is called. *)
Theorem removeAll_destroys_pool w :
  let pool := _timers (clock w) in
  let ev := events (clock w) in
  exists w', removeAll w = Val tt w' /\
    clock w' = set__timers [] (clock w) /\
    calls w' = calls w ++ calls_of m_destroy pool ++ [mkCall ev m_removeAll] /\
    (ev ∉ pool ->
     heap w' ev = timer_removeAll (heap w ev) /\
     received ev (calls_of m_destroy pool ++ [mkCall ev m_removeAll]) = [m_removeAll]) /\
    (pool = [] -> calls w' = calls w ++ [mkCall ev m_removeAll]) /\
    (forall id, NoDup pool -> id ∈ pool -> id <> ev ->
       received id (calls_of m_destroy pool ++ [mkCall ev m_removeAll]) = [m_destroy]).
Proof.
  cbv zeta. eexists. split; [apply removeAll_run|].
  split; [reflexivity|]. split.
  { unfold after_invoke, after_calls. cbn [calls set_calls set_heap set_clock clock events set__timers].
    rewrite <- app_assoc. reflexivity. }
  split; [|split].
  - intros Hnotin. split.
    + unfold after_invoke, after_calls.
      cbn [heap set_calls set_heap set_clock clock events set__timers apply_method fst].
      rewrite fn_lookup_insert. f_equal.
      generalize (heap w). induction (_timers (clock w)) as [|x l IH]; intros h.
      * reflexivity.
      * apply not_elem_of_cons in Hnotin as [Hne Hnotin].
        cbn [apply_all]. rewrite (IH Hnotin). apply fn_lookup_insert_ne. congruence.
    + rewrite received_app, (received_calls_of_notin _ _ _ Hnotin).
      unfold received; cbn. rewrite bool_decide_eq_true_2 by reflexivity. reflexivity.
  - intros Hnil. unfold after_invoke, after_calls.
    cbn [calls set_calls set_heap set_clock clock events set__timers].
    rewrite Hnil. cbn [calls_of map]. rewrite app_nil_r. reflexivity.
  - intros id Hnd Hin Hne.
    rewrite received_app, (received_calls_of _ _ _ Hnd Hin), received_other by congruence.
    reflexivity.
Qed.

Lemma nmul_0_milli : nmul (ofZ 0) milli = ofZ 0.
Proof.
  unfold ofZ, milli; cbn. f_equal. rewrite Z2Qc_inj_0. ring.
Qed.

(** X7: after [reset] the session has lasted 0 seconds and the pool is
    empty, on any clock made by the constructor and whatever was done to it
    before. *)
Theorem reset_restarts_session w (ops : list Op) :
  exists w', (Phaser_Time ;; run_ops ops ;; reset ;; totalElapsedSeconds) w
             = Val (ofZ 0) w' /\
    _timers (clock w') = [] /\
    _started (clock w') = time (clock w').
Proof.
  rewrite (bind_val Phaser_Time _ w tt _ eq_refl).
  match goal with |- context [bind (run_ops ops) _ ?w0] =>
    destruct (run_ops_integral ops w0 (new_fields_integral _)) as (w1 & Hrun & Hint)
  end.
  rewrite (bind_val _ _ _ _ _ Hrun).
  destruct Hint as ([z Hz] & _).
  unfold reset. unfold bind at 1.
  rewrite (bind_val (assign _) _ _ _ _ eq_refl).
  rewrite removeAll_run.
  eexists. split.
  - unfold totalElapsedSeconds, read. f_equal.
    cbn [clock after_invoke after_calls set_calls set_heap set_clock time _started
         set__timers set__started].
    rewrite Hz, nsub_diag_ofZ. apply nmul_0_milli.
  - split; reflexivity.
Qed.

(** X8: [totalElapsedSeconds] counts from the first sample [boot] took.  On a
    new clock, after [boot] and any operations other than [boot] and [reset],
    it returns the last sample minus that first one, times 0.001; and
    [elapsedSince] and [elapsedSecondsSince] measure from their argument to
    the last sample, in milliseconds and in seconds. *)
Theorem seconds_since_boot w (ops : list Op) :
  Forall keeps_started ops ->
  exists w' z,
    (Phaser_Time ;; boot ;; run_ops ops) w = Val tt w' /\
    time (clock w') = ofZ z /\
    totalElapsedSeconds w' = Val (nmul (ofZ (z - wall w (wallReads w))) milli) w' /\
    forall s : Z,
      elapsedSince (ofZ s) w' = Val (ofZ (z - s)) w' /\
      elapsedSecondsSince (ofZ s) w' = Val (nmul (ofZ (z - s)) milli) w'.
Proof.
  intros Hops.
  rewrite (bind_val Phaser_Time _ w tt _ eq_refl).
  rewrite (bind_val boot _ _ tt _ eq_refl).
  match goal with |- context [run_ops ops ?w0] =>
    destruct (run_ops_keeps
                (fun w' => _started (clock w') = ofZ (wall w (wallReads w)) /\
                           is_sample (time (clock w')))
                keeps_started) with (ops := ops) (w := w0)
      as (w1 & Hrun & Hst & [z Hz])
  end.
  - intros o w1 Ho (H1 & H2).
    destruct (run_op_keeps o w1) as (w2 & Hrun & _ & _ & _ & _ & Hkeep & _).
    exists w2. split; [exact Hrun|]. split; [rewrite (Hkeep Ho); exact H1|].
    clear Hkeep. destruct o; cbn [run_op] in Hrun;
      try (injection Hrun as <-; exact H2);
      try (unfold countUpdate, countRender, bind, read in Hrun;
           destruct (advancedTiming (clock w1)); injection Hrun as <-; exact H2).
    + destruct Ho.
    + rewrite removeAll_run in Hrun. injection Hrun as <-. exact H2.
    + injection Hrun as <-. apply is_sample_ofZ.
    + rewrite update_run in Hrun. injection Hrun as <-.
      destruct (update_untouched time_ w1) as (_ & _ & _ & _ & _ & _ & _ & -> & _).
      apply is_sample_ofZ.
    + rewrite gamePaused_run in Hrun. injection Hrun as <-. exact H2.
    + rewrite gameResumed_run in Hrun. injection Hrun as <-. apply is_sample_ofZ.
    + destruct Ho.
  - exact Hops.
  - split; [reflexivity|apply is_sample_ofZ].
  - exists w1, z. split; [exact Hrun|]. split; [exact Hz|]. split.
    + unfold totalElapsedSeconds, read. rewrite Hz, Hst, nsub_ofZ. reflexivity.
    + intros s. unfold elapsedSince, elapsedSecondsSince, read.
      rewrite Hz, nsub_ofZ. split; reflexivity.
Qed.

(** X9: nothing but an assignment changes [desiredFps]: reading it gives the
    value last assigned, and 60 on a clock where none was. *)
Theorem desiredFps_reads_last_assignment w (ops : list Op) (value : num) :
  Forall not_desiredFps_set ops ->
  (exists w', (desiredFps_set value ;; run_ops ops ;; desiredFps_get) w = Val value w') /\
  (exists w', (Phaser_Time ;; run_ops ops ;; desiredFps_get) w = Val (ofZ 60) w').
Proof.
  intros Hops.
  assert (forall v w0, _desiredFps (clock w0) = v ->
            exists w', run_ops ops w0 = Val tt w' /\ _desiredFps (clock w') = v) as Hkeep.
  { intros v w0 Hv.
    apply (run_ops_keeps (fun w' => _desiredFps (clock w') = v) not_desiredFps_set);
      [|exact Hops|exact Hv].
    intros o w1 Ho H1.
    destruct (run_op_keeps o w1) as (w2 & Hrun & _ & _ & _ & Hd & _).
    exists w2. split; [exact Hrun|]. rewrite (Hd Ho). exact H1. }
  split.
  - rewrite (bind_val (desiredFps_set value) _ w tt _ eq_refl).
    match goal with |- context [bind (run_ops ops) _ ?w0] =>
      destruct (Hkeep value w0 eq_refl) as (w1 & Hrun & Hv)
    end.
    rewrite (bind_val _ _ _ _ _ Hrun). exists w1.
    unfold desiredFps_get, read. rewrite Hv. reflexivity.
  - rewrite (bind_val Phaser_Time _ w tt _ eq_refl).
    match goal with |- context [bind (run_ops ops) _ ?w0] =>
      destruct (Hkeep (ofZ 60) w0 eq_refl) as (w1 & Hrun & Hv)
    end.
    rewrite (bind_val _ _ _ _ _ Hrun). exists w1.
    unfold desiredFps_get, read. rewrite Hv. reflexivity.
Qed.

(** *** Adding and creating timers *)

(** A frame of a running game, in terms of the world before it. *)
Lemma update_running t w :
  paused (game w) = false ->
  let tm := ofZ (wall w (wallReads w)) in
  let ev := events (clock w) in
  let h1 := <[ev := (timer_update (heap w ev) tm).1]> (heap w) in
  exists w', update t w = Val tt w' /\
    calls w' = calls w ++ mkCall ev (m_update tm)
                       :: calls_of (m_update tm) (_timers (clock w)) /\
    heap w' = (sweep tm (_timers (clock w)) h1).1 /\
    _timers (clock w') = (sweep tm (_timers (clock w)) h1).2.
Proof.
  intros Hp. cbv zeta. rewrite update_run. eexists; split; [reflexivity|].
  destruct (after_clock_part_frame t w) as (Hg & Hh & _ & Hc & _ & _ & Hts & Hev & Htm).
  unfold after_update; cbv zeta. rewrite Hg, Hp.
  revert Hh Hc Hts Hev Htm.
  generalize (after_clock_part t w); intros w1 Hh Hc Hts Hev Htm.
  unfold after_sweep, after_invoke.
  cbn [clock heap calls set_calls set_heap apply_method app].
  cbn [time _timers set__timers].
  rewrite Hh, Hc, Hts, Hev, Htm.
  split; [rewrite <- app_assoc; reflexivity|]. split; reflexivity.
Qed.

Lemma sweep_app t (l1 l2 : list TimerId) : forall h : TimerId -> T,
  sweep t (l1 ++ l2) h
  = ((sweep t l2 (sweep t l1 h).1).1,
     (sweep t l1 h).2 ++ (sweep t l2 (sweep t l1 h).1).2).
Proof.
  induction l1 as [|x l1 IH]; intros h.
  - cbn [app sweep fst snd]. destruct (sweep t l2 h); reflexivity.
  - cbn [app sweep fst snd]. rewrite IH. cbn [fst snd].
    destruct (timer_update (h x) t).2; reflexivity.
Qed.

(** A pass over the pool leaves the timers that are not in it alone. *)
Lemma sweep_other t (id : TimerId) (ids : list TimerId) : forall h : TimerId -> T,
  id ∉ ids -> (sweep t ids h).1 id = h id.
Proof.
  induction ids as [|x ids IH]; intros h Hnotin; [reflexivity|].
  apply not_elem_of_cons in Hnotin as [Hne Hnotin].
  cbn [sweep fst]. rewrite (IH _ Hnotin). apply fn_lookup_insert_ne. congruence.
Qed.

(** X10: [add] does not look for the timer in the pool.  A timer added twice
    is in the pool twice, and a frame then calls [update] on it twice, the
    second call on the state the first one left; each of the two entries
    stays or goes by the result of its own call. *)
Theorem add_twice_ticks_twice w (id : TimerId) t :
  paused (game w) = false ->
  id ∉ _timers (clock w) ->
  id <> events (clock w) ->
  let tm := ofZ (wall w (wallReads w)) in
  let ev := events (clock w) in
  let pool := _timers (clock w) in
  let h1 := <[ev := (timer_update (heap w ev) tm).1]> (heap w) in
  let first := timer_update (heap w id) tm in
  let second := timer_update first.1 tm in
  exists w1 w2,
    (add id ;; add id) w = Val id w1 /\
    _timers (clock w1) = pool ++ [id; id] /\
    update t w1 = Val tt w2 /\
    calls w2 = calls w ++ mkCall ev (m_update tm) :: calls_of (m_update tm) pool
                       ++ [mkCall id (m_update tm); mkCall id (m_update tm)] /\
    heap w2 id = second.1 /\
    _timers (clock w2) = (sweep tm pool h1).2
                         ++ (if first.2 then [id] else [])
                         ++ (if second.2 then [id] else []).
Proof.
  intros Hp Hnotin Hne. cbv zeta.
  pose (w1 := set_clock (set__timers (_timers (clock w) ++ [id; id]) (clock w)) w).
  assert ((add id ;; add id) w = Val id w1) as Hadd.
  { unfold w1, add, bind, assign, ret. cbn [clock set_clock _timers set__timers].
    rewrite <- app_assoc. destruct w as [[] ? ? ? ? ? ?]; reflexivity. }
  destruct (update_running t w1 Hp) as (w2 & Hrun & Hc & Hh & Hts).
  exists w1, w2. split; [exact Hadd|]. split; [reflexivity|]. split; [exact Hrun|].
  cbv zeta in Hc, Hh, Hts.
  change (wall w1 (wallReads w1)) with (wall w (wallReads w)) in *.
  change (events (clock w1)) with (events (clock w)) in *.
  change (heap w1) with (heap w) in *.
  change (calls w1) with (calls w) in *.
  change (_timers (clock w1)) with (_timers (clock w) ++ [id; id]) in *.
  set (tm := ofZ (wall w (wallReads w))) in *.
  set (h1 := <[events (clock w) := (timer_update (heap w (events (clock w))) tm).1]>
               (heap w)) in *.
  assert ((sweep tm (_timers (clock w)) h1).1 id = heap w id) as Hid.
  { rewrite (sweep_other _ _ _ _ Hnotin). unfold h1.
    apply fn_lookup_insert_ne. congruence. }
  rewrite sweep_app in Hh, Hts. cbn [fst snd] in Hh, Hts.
  split.
  { rewrite Hc. unfold calls_of. rewrite map_app. reflexivity. }
  split.
  - rewrite Hh. cbn [sweep fst snd]. rewrite Hid.
    rewrite !fn_lookup_insert. reflexivity.
  - rewrite Hts. f_equal. cbn [sweep fst snd]. rewrite Hid, fn_lookup_insert.
    destruct (timer_update (heap w id) tm).2,
             (timer_update (timer_update (heap w id) tm).1 tm).2; reflexivity.
Qed.

Lemma after_update_nextId t w : nextId (after_update t w) = nextId w.
Proof.
  unfold after_update. cbv zeta.
  destruct (after_clock_part_frame t w) as (_ & _ & Hn & _).
  revert Hn. generalize (after_clock_part t w); intros w1 Hn.
  destruct (paused (game w1)); exact Hn.
Qed.

(** How an operation other than [add] changes the pool and the next timer. *)
Lemma run_op_alloc (o : Op) w :
  not_add o ->
  exists w', run_op o w = Val tt w' /\
    events (clock w') = events (clock w) /\
    ((_timers (clock w') `sublist_of` _timers (clock w) /\
      (nextId w <= nextId w')%nat) \/
     (_timers (clock w') = _timers (clock w) ++ [nextId w] /\
      nextId w' = S (nextId w))).
Proof.
  intros Hna.
  destruct o; cbn [run_op not_add] in *;
    try (eexists; split; [reflexivity|]; split; [reflexivity|]; left; split;
         [reflexivity|cbn; lia]).
  - destruct Hna.
  - eexists; split; [reflexivity|]. split; [reflexivity|]. right. split; reflexivity.
  - eexists; split; [apply removeAll_run|]. split; [reflexivity|]. left.
    split; [apply sublist_nil_l|cbn; lia].
  - rewrite update_run. eexists; split; [reflexivity|].
    destruct (update_untouched time_ w) as (He & _).
    destruct (after_update_pool time_ w) as (Hsub & _).
    split; [exact He|]. left. split; [exact Hsub|].
    rewrite after_update_nextId. lia.
  - unfold countUpdate, bind, read. destruct (advancedTiming (clock w));
      (eexists; split; [reflexivity|]; split; [reflexivity|]; left; split;
       [reflexivity|cbn; lia]).
  - unfold countRender, bind, read. destruct (advancedTiming (clock w));
      (eexists; split; [reflexivity|]; split; [reflexivity|]; left; split;
       [reflexivity|cbn; lia]).
  - eexists; split; [apply gamePaused_run|]. split; [reflexivity|]. left.
    split; [reflexivity|cbn; lia].
  - eexists; split; [apply gameResumed_run|]. split; [reflexivity|]. left.
    split; [reflexivity|cbn; lia].
  - unfold reset. rewrite (bind_val (assign _) _ _ _ _ eq_refl).
    eexists; split; [apply removeAll_run|]. split; [reflexivity|]. left.
    split; [apply sublist_nil_l|cbn; lia].
Qed.

Lemma NoDup_append_new (x : TimerId) (l : list TimerId) :
  NoDup l -> x ∉ l -> NoDup (l ++ [x]).
Proof.
  induction 1 as [|y l Hy Hnd IH]; intros Hx; cbn [app].
  - constructor; [intros Hin; inversion Hin|constructor].
  - apply not_elem_of_cons in Hx as [Hne Hx]. constructor; [|apply IH, Hx].
    intros Hin. apply elem_of_app in Hin as [Hin|Hin]; [contradiction|].
    apply list_elem_of_singleton in Hin. congruence.
Qed.

Lemma run_op_distinct (o : Op) w :
  not_add o -> pool_distinct w ->
  exists w', run_op o w = Val tt w' /\ pool_distinct w'.
Proof.
  intros Hna (Hnd & Hlt & Hev).
  destruct (run_op_alloc o w Hna) as (w' & Hrun & He & [[Hsub Hle]|[Happ Hnext]]).
  - exists w'. split; [exact Hrun|]. split; [|split].
    + eapply sublist_NoDup; eassumption.
    + intros id Hin. rewrite He.
      destruct (Hlt id) as [H1 H2]; [eapply elem_of_sublist; eassumption|].
      split; [exact H1|lia].
    + rewrite He. lia.
  - exists w'. split; [exact Hrun|]. split; [|split].
    + rewrite Happ. apply NoDup_append_new; [exact Hnd|].
      intros Hin. destruct (Hlt _ Hin). lia.
    + intros id Hin. rewrite Happ in Hin. rewrite Hnext, He.
      apply elem_of_app in Hin as [Hin|Hin].
      * destruct (Hlt _ Hin). split; lia.
      * apply list_elem_of_singleton in Hin. subst. split; lia.
    + rewrite He, Hnext. lia.
Qed.

(** X11: on a clock that only gets timers from [create], no timer is in the
    pool twice and the master timer is not in it; and [create] then returns a
    timer that is new: not in the pool, not the master timer, and in the state
    the constructor of timers gives it, with [autoDestroy] true when the
    argument is left out. *)
Theorem created_timers_are_distinct w (ops : list Op) :
  Forall not_add ops ->
  exists w', (Phaser_Time ;; run_ops ops) w = Val tt w' /\
    NoDup (_timers (clock w')) /\
    (events (clock w') ∉ _timers (clock w')) /\
    forall (b : option bool), exists w2,
      create b w' = Val (nextId w') w2 /\
      (nextId w' ∉ _timers (clock w')) /\
      nextId w' <> events (clock w') /\
      _timers (clock w2) = _timers (clock w') ++ [nextId w'] /\
      heap w2 (nextId w')
      = timer_new (match b with None => true | Some b' => b' end).
Proof.
  intros Hops.
  rewrite (bind_val Phaser_Time _ w tt _ eq_refl).
  match goal with |- context [run_ops ops ?w0] =>
    destruct (run_ops_keeps pool_distinct not_add run_op_distinct ops w0 Hops)
      as (w' & Hrun & Hnd & Hlt & Hev)
  end.
  { split; [constructor|]. split; [intros id Hin; inversion Hin|cbn; lia]. }
  exists w'. split; [exact Hrun|]. split; [exact Hnd|]. split.
  { intros Hin. destruct (Hlt _ Hin). lia. }
  intros b. eexists. split; [reflexivity|]. split.
  { intros Hin. destruct (Hlt _ Hin). lia. }
  split; [intros Heq; rewrite <- Heq in Hev; exact (Nat.lt_irrefl _ Hev)|].
  split; [reflexivity|].
  destruct b; cbn [heap set_clock set_nextId set_heap]; apply fn_lookup_insert.
Qed.

(** *** The next call under setTimeout *)

Lemma nmax_ofZ (a b : Z) : nmax (ofZ a) (ofZ b) = ofZ (Z.max a b).
Proof.
  unfold ofZ. rewrite nmax_Fin.
  destruct (decide (a < b)) as [Hlt|Hge].
  - rewrite bool_decide_eq_true_2 by (apply (proj1 (Z2Qc_inj_lt a b)), Hlt).
    rewrite Z.max_r by lia. reflexivity.
  - rewrite bool_decide_eq_false_2.
    + rewrite Z.max_l by lia. reflexivity.
    + intros H. apply Hge. apply (proj2 (Z2Qc_inj_lt a b)), H.
Qed.

Lemma update_cadence t w :
  raf_isSetTimeOut (game w) = true ->
  timeToCall (clock (after_update t w))
  = nfloor (nmax (ofZ 0)
              (nsub (ndiv (ofZ 1000) (_desiredFps (clock w)))
                    (nsub (timeExpected (clock w)) t))) /\
  timeExpected (clock (after_update t w))
  = nadd t (timeToCall (clock (after_update t w))).
Proof.
  intros Hraf. rewrite (after_update_clock t w).
  generalize (_timers (clock (after_update t w))); intros ts.
  take_apart w. cbn in Hraf. subst. unfold after_clock_part.
  eval_clock; split; reflexivity.
Qed.

(** X12: when the game runs on setTimeout with a positive finite
    [desiredFps] and finite times, the delay to the next call is a whole
    number of milliseconds that is never negative, and the next call is
    expected that much later than this one.  A call that comes exactly when
    expected gets the delay [floor(1000 / desiredFps)]; one that comes a whole
    period or more before it was expected gets 0. *)
Theorem next_call_delay_bounds w (f te x : Qc) :
  raf_isSetTimeOut (game w) = true ->
  _desiredFps (clock w) = Fin f ->
  (0 < f)%Qc ->
  timeExpected (clock w) = Fin te ->
  let z := Z.max 0 (Qfloor (Qc_of_Z 1000 / f - (te - x))%Qc) in
  exists w', update (Fin x) w = Val tt w' /\
    timeToCall (clock w') = ofZ z /\
    0 <= z /\
    timeExpected (clock w') = nadd (Fin x) (ofZ z) /\
    (te = x -> z = Qfloor (Qc_of_Z 1000 / f)%Qc) /\
    ((Qc_of_Z 1000 / f <= te - x)%Qc -> z = 0).
Proof.
  intros Hraf Hfps Hpos Hte. cbv zeta.
  rewrite update_run. eexists. split; [reflexivity|].
  destruct (update_cadence (Fin x) w Hraf) as (Hcall & Hexp).
  rewrite Hexp, Hcall, Hfps, Hte, nfloor_nmax_0.
  assert (ndiv (ofZ 1000) (Fin f) = Fin (Qc_of_Z 1000 / f)) as ->.
  { unfold ofZ, ndiv. destruct (decide (f = 0%Qc)) as [->|_]; [|reflexivity].
    exfalso. exact (Qclt_not_eq _ _ Hpos eq_refl). }
  change (nsub (Fin (Qc_of_Z 1000 / f)) (nsub (Fin te) (Fin x)))
    with (Fin (Qc_of_Z 1000 / f - (te - x))).
  cbn [nfloor]. rewrite nmax_ofZ.
  split; [reflexivity|]. split; [apply Z.le_max_l|]. split; [reflexivity|]. split.
  - intros ->. replace (Qc_of_Z 1000 / f - (x - x))%Qc with (Qc_of_Z 1000 / f)%Qc by ring.
    apply Z.max_r.
    change 0 with (Qfloor (inject_Z 0)). apply Qfloor_resp_le.
    apply Qlt_le_weak.
    assert (0 < Qc_of_Z 1000 / f)%Qc as H.
    { unfold Qcdiv. apply Qcmult_pos_pos; [|apply Qcinv_pos, Hpos].
      rewrite <- Z2Qc_inj_0. apply (proj1 (Z2Qc_inj_lt 0 1000)). lia. }
    exact H.
  - intros Hearly. apply Z.max_l.
    change 0 with (Qfloor (inject_Z 0)). apply Qfloor_resp_le.
    assert (Qc_of_Z 1000 / f - (te - x) <= 0)%Qc as H.
    { apply (Qcplus_le_mono_r _ _ (te - x)%Qc).
      replace (Qc_of_Z 1000 / f - (te - x) + (te - x))%Qc
        with (Qc_of_Z 1000 / f)%Qc by ring.
      rewrite Qcplus_0_l. exact Hearly. }
    exact H.
Qed.

(** *** The extremes of the frame time *)

Lemma update_extrema t w :
  advancedTiming (clock w) = true ->
  let c' := clock (after_update t w) in
  elapsed c' = nsub t (now (clock w)) /\
  msMin c' = nmin (msMin (clock w)) (nsub t (now (clock w))) /\
  msMax c' = nmax (msMax (clock w)) (nsub t (now (clock w))).
Proof.
  intros Hon. cbv zeta. rewrite (after_update_clock t w).
  generalize (_timers (clock (after_update t w))); intros ts.
  take_apart w. cbn in Hon. subst. unfold after_clock_part.
  eval_clock; repeat split; reflexivity.
Qed.

Lemma nmin_Fin (x y : Qc) :
  nmin (Fin x) (Fin y) = if bool_decide (y < x)%Qc then Fin y else Fin x.
Proof. reflexivity. Qed.

(** X13: with the advanced timing on and finite values, a frame leaves
    [msMin <= elapsed <= msMax]; [msMin] does not go up, [msMax] does not go
    down, and each is its old value or the [elapsed] of this frame. *)
Theorem frame_time_extrema w (lo hi n x : Qc) :
  advancedTiming (clock w) = true ->
  msMin (clock w) = Fin lo ->
  msMax (clock w) = Fin hi ->
  now (clock w) = Fin n ->
  exists w', update (Fin x) w = Val tt w' /\
    elapsed (clock w') = Fin (x - n) /\
    nle (msMin (clock w')) (elapsed (clock w')) = true /\
    nle (elapsed (clock w')) (msMax (clock w')) = true /\
    nle (msMin (clock w')) (msMin (clock w)) = true /\
    nle (msMax (clock w)) (msMax (clock w')) = true /\
    (msMin (clock w') = msMin (clock w) \/ msMin (clock w') = elapsed (clock w')) /\
    (msMax (clock w') = msMax (clock w) \/ msMax (clock w') = elapsed (clock w')).
Proof.
  intros Hon Hlo Hhi Hnow.
  rewrite update_run. eexists. split; [reflexivity|].
  destruct (update_extrema (Fin x) w Hon) as (He & Hmin & Hmax).
  rewrite He, Hmin, Hmax, Hlo, Hhi, Hnow.
  change (nsub (Fin x) (Fin n)) with (Fin (x - n)).
  rewrite nmin_Fin, nmax_Fin.
  split; [reflexivity|].
  destruct (decide (x - n < lo)%Qc) as [H1|H1];
    [rewrite (bool_decide_eq_true_2 _ H1)|rewrite (bool_decide_eq_false_2 _ H1)];
    (destruct (decide (hi < x - n)%Qc) as [H2|H2];
     [rewrite (bool_decide_eq_true_2 _ H2)|rewrite (bool_decide_eq_false_2 _ H2)]);
    cbn [nle];
    repeat split;
    try (apply bool_decide_eq_true_2);
    try reflexivity;
    try (apply Qclt_le_weak; assumption);
    try (apply Qcnot_lt_le; assumption);
    try (left; reflexivity); try (right; reflexivity).
Qed.

(** *** The rates of the last second *)

(** What a frame does to the counters of the current second. *)
Lemma update_second t w :
  advancedTiming (clock w) = true ->
  let c := clock w in
  exists w', update t w = Val tt w' /\
    advancedTiming (clock w') = true /\
    now (clock w') = t /\
    let c' := clock w' in
    let count := nadd (frames c) (ofZ 1) in
    let interval := nsub t (_timeLastSecond c) in
    if ngt t (nadd (_timeLastSecond c) (ofZ 1000)) then
      fps c' = nround (ndiv (nmul count (ofZ 1000)) interval) /\
      ups c' = nround (ndiv (nmul (updates c) (ofZ 1000)) interval) /\
      rps c' = nround (ndiv (nmul (renders c) (ofZ 1000)) interval) /\
      fpsMin c' = nmin (fpsMin c) (fps c') /\
      fpsMax c' = nmax (fpsMax c) (fps c') /\
      _timeLastSecond c' = t /\
      frames c' = ofZ 0 /\ updates c' = ofZ 0 /\ renders c' = ofZ 0
    else
      frames c' = count /\ updates c' = updates c /\ renders c' = renders c /\
      fps c' = fps c /\ ups c' = ups c /\ rps c' = rps c /\
      fpsMin c' = fpsMin c /\ fpsMax c' = fpsMax c /\
      _timeLastSecond c' = _timeLastSecond c.
Proof.
  intros Hon. cbv zeta. rewrite update_run. eexists; split; [reflexivity|].
  rewrite (after_update_clock t w).
  generalize (_timers (clock (after_update t w))); intros ts.
  take_apart w. cbn in Hon. subst. unfold after_clock_part.
  eval_clock; repeat split; reflexivity.
Qed.

(** Whether the frame at [a + k * e] is more than a second after [a]. *)
Lemma second_passed (a e : Qc) (k : nat) :
  ngt (Fin (a + Qc_of_Z (Z.of_nat k) * e)) (nadd (Fin a) (ofZ 1000))
  = bool_decide (Qc_of_Z 1000 < Qc_of_Z (Z.of_nat k) * e)%Qc.
Proof.
  unfold ngt, ofZ. cbn [nadd nlt]. apply bool_decide_ext.
  rewrite (Qcplus_lt_mono_l (Qc_of_Z 1000) _ a). reflexivity.
Qed.

Lemma paced_product_le (e : Qc) (j k : nat) :
  (0 <= e)%Qc -> (j <= k)%nat ->
  (Qc_of_Z (Z.of_nat j) * e <= Qc_of_Z (Z.of_nat k) * e)%Qc.
Proof.
  intros He Hjk. apply Qcmult_le_mono_nonneg_r; [exact He|].
  apply (proj1 (Z2Qc_inj_le _ _)). lia.
Qed.

Lemma paced_rate (a e : Qc) (n : nat) :
  (0 < n)%nat -> e <> 0%Qc ->
  ndiv (nmul (ofNat n) (ofZ 1000))
       (nsub (Fin (a + Qc_of_Z (Z.of_nat n) * e)) (Fin a))
  = ndiv (ofZ 1000) (Fin e).
Proof.
  intros Hn He.
  assert (Qc_of_Z (Z.of_nat n) <> 0%Qc) as Hne.
  { rewrite <- Z2Qc_inj_0. intros Heq. apply Z2Qc_inj in Heq. lia. }
  unfold ofNat, ofZ, nsub. cbn [nmul nneg nadd ndiv].
  match goal with |- context [decide (?d = 0%Qc)] =>
    assert (d = (Qc_of_Z (Z.of_nat n) * e)%Qc) as -> by ring
  end.
  destruct (decide (Qc_of_Z (Z.of_nat n) * e = 0)%Qc) as [Hz|Hnz].
  - exfalso. apply Qcmult_integral in Hz as [Hz|Hz]; contradiction.
  - destruct (decide (e = 0%Qc)) as [Hz|_]; [contradiction|].
    f_equal. field. split; assumption.
Qed.

Lemma in_second_run w0 (a e : Qc) (n : nat) :
  (0 <= e)%Qc ->
  (Qc_of_Z (Z.of_nat n) * e <= Qc_of_Z 1000)%Qc ->
  forall (cnt k : nat) w,
    in_second w0 a e k w ->
    (k + cnt <= n)%nat ->
    exists w',
      run_ops (map (fun j => op_update (Fin (a + Qc_of_Z (Z.of_nat j) * e)))
                 (seq (S k) cnt)) w = Val tt w' /\
      in_second w0 a e (k + cnt) w'.
Proof.
  intros He Hn. induction cnt as [|cnt IH]; intros k w Hin Hle.
  - exists w. split; [reflexivity|]. rewrite Nat.add_0_r. exact Hin.
  - destruct Hin as (Hon & Hnow & Htls & Hfr & Hfps).
    destruct (update_second (Fin (a + Qc_of_Z (Z.of_nat (S k)) * e)) w Hon)
      as (w1 & Hrun1 & Hon1 & Hnow1 & Hsec).
    cbv zeta in Hsec. rewrite Htls, second_passed in Hsec.
    rewrite bool_decide_eq_false_2 in Hsec.
    2:{ apply Qcle_not_lt. etransitivity; [|exact Hn].
        apply paced_product_le; [exact He|lia]. }
    destruct Hsec as (Hfr1 & _ & _ & Hfps1 & _ & _ & _ & _ & Htls1).
    destruct (IH (S k) w1) as (w2 & Hrun2 & Hin2); [|lia|].
    { repeat split; try assumption; try congruence.
      rewrite Hfr1, Hfr. apply ofNat_S. }
    exists w2. split.
    + cbn [seq map run_ops run_op]. rewrite (bind_val _ _ _ _ _ Hrun1). exact Hrun2.
    + replace (k + S cnt)%nat with (S k + cnt)%nat by lia. exact Hin2.
Qed.

(** X14: the frame rate of a steady game.  With the advanced timing on, let
    frames come every [e] milliseconds from the start of a second, and let
    the [S n]-th be the first one more than 1000 ms into it.  The first [n]
    frames leave [fps] alone; that one sets [fps] to [round(1000 / e)], starts
    the next second at its own timestamp and puts the three counters back to
    zero. *)
Theorem fps_at_constant_pace w (n : nat) (a e : Qc) :
  advancedTiming (clock w) = true ->
  frames (clock w) = ofZ 0 ->
  _timeLastSecond (clock w) = Fin a ->
  now (clock w) = Fin a ->
  (0 <= e)%Qc ->
  (Qc_of_Z (Z.of_nat n) * e <= Qc_of_Z 1000)%Qc ->
  (Qc_of_Z 1000 < Qc_of_Z (Z.of_nat (S n)) * e)%Qc ->
  (exists wn, run_ops (paced_updates a e n) w = Val tt wn /\
     fps (clock wn) = fps (clock w) /\ frames (clock wn) = ofNat n) /\
  exists w', run_ops (paced_updates a e (S n)) w = Val tt w' /\
    fps (clock w') = nround (ndiv (ofZ 1000) (Fin e)) /\
    _timeLastSecond (clock w') = now (clock w') /\
    frames (clock w') = ofZ 0 /\
    updates (clock w') = ofZ 0 /\
    renders (clock w') = ofZ 0.
Proof.
  intros Hon Hfr Htls Hnow He Hn Hlast.
  assert (in_second w a e 0 w) as Hin0.
  { repeat split; try assumption.
    rewrite Hnow. f_equal.
    rewrite (Z2Qc_inj_0 : Qc_of_Z (Z.of_nat 0) = 0%Qc). ring. }
  destruct (in_second_run w a e n He Hn n 0%nat w Hin0) as (wn & Hrun & Hin); [lia|].
  cbn [Nat.add] in Hin.
  split.
  { exists wn. destruct Hin as (_ & _ & _ & Hfrn & Hfpsn).
    split; [exact Hrun|]. split; assumption. }
  destruct Hin as (Hon' & Hnow' & Htls' & Hfr' & _).
  destruct (update_second (Fin (a + Qc_of_Z (Z.of_nat (S n)) * e)) wn Hon')
    as (w' & Hrun' & _ & Hnow'' & Hsec).
  cbv zeta in Hsec. rewrite Htls', second_passed in Hsec.
  rewrite (bool_decide_eq_true_2 _ Hlast) in Hsec.
  destruct Hsec as (Hfps & _ & _ & _ & _ & Htls'' & Hfr'' & Hu & Hr).
  assert (e <> 0%Qc) as Hne.
  { intros ->. rewrite Qcmult_0_r in Hlast.
    apply (Qclt_not_le _ _ Hlast).
    rewrite <- Z2Qc_inj_0. apply (proj1 (Z2Qc_inj_le 0 1000)). lia. }
  rewrite Hfr', ofNat_S, paced_rate in Hfps by (lia || exact Hne).
  exists w'. split.
  - unfold paced_updates. rewrite seq_S, map_app, run_ops_app.
    rewrite (bind_val _ _ _ _ _ Hrun).
    cbn [map run_ops run_op Nat.add]. rewrite (bind_val _ _ _ _ _ Hrun').
    reflexivity.
  - split; [exact Hfps|]. split; [rewrite Htls'', Hnow''; reflexivity|].
    repeat split; assumption.
Qed.

(** [k] calls of [countUpdate] with the advanced timing on. *)
Lemma countUpdate_times (k : nat) : forall w (u : nat),
  advancedTiming (clock w) = true ->
  updates (clock w) = ofNat u ->
  run_ops (replicate k op_countUpdate) w
  = Val tt (set_clock (set_updates (ofNat (u + k)) (clock w)) w).
Proof.
  induction k as [|k IH]; intros w u Hon Hu.
  - cbn [replicate run_ops]. unfold ret. f_equal.
    rewrite Nat.add_0_r, <- Hu. destruct w as [[] ? ? ? ? ? ?]; reflexivity.
  - cbn [replicate run_ops run_op]. unfold bind at 1.
    unfold countUpdate, bind, read, assign. rewrite Hon.
    rewrite (IH _ (S u)).
    + cbn [clock set_clock]. replace (S u + k)%nat with (u + S k)%nat by lia.
      reflexivity.
    + exact Hon.
    + cbn [clock set_clock updates set_updates]. rewrite Hu. apply ofNat_S.
Qed.

(** X15: logic updates are counted per second.  With the advanced timing on
    and [u] updates counted so far, [k] more calls of [countUpdate] followed
    by a frame that comes more than 1000 ms after the start of the second set
    [ups] to [round((u + k) * 1000 / interval)], the interval being the time
    since that start, and put the counter back to zero. *)
Theorem logic_updates_per_second w (u k : nat) t :
  advancedTiming (clock w) = true ->
  updates (clock w) = ofNat u ->
  ngt t (nadd (_timeLastSecond (clock w)) (ofZ 1000)) = true ->
  exists w',
    (run_ops (replicate k op_countUpdate) ;; update t) w = Val tt w' /\
    ups (clock w')
    = nround (ndiv (nmul (ofNat (u + k)) (ofZ 1000))
                   (nsub t (_timeLastSecond (clock w)))) /\
    updates (clock w') = ofZ 0.
Proof.
  intros Hon Hu Hsec.
  rewrite (bind_val _ _ _ _ _ (countUpdate_times k w u Hon Hu)).
  match goal with |- context [update t ?w1] =>
    destruct (update_second t w1 Hon) as (w' & Hrun & _ & _ & Hres)
  end.
  cbv zeta in Hres.
  cbn [clock set_clock _timeLastSecond updates set_updates] in Hres.
  rewrite Hsec in Hres.
  destruct Hres as (_ & Hups & _ & _ & _ & _ & _ & Hzero & _).
  exists w'. split; [exact Hrun|]. split; [exact Hups|exact Hzero].
Qed.

(** *** A wall clock that does not run backwards *)

Lemma run_op_in_order (o : Op) w :
  wall_in_order w -> exists w', run_op o w = Val tt w' /\ wall_in_order w'.
Proof.
  intros (Hmono & (z & Hz & Hle) & (d & Hd & Hpos)).
  assert (forall w', wall w' = wall w -> (wallReads w <= wallReads w')%nat ->
            clock w' = clock w \/
            (time (clock w') = time (clock w) /\ elapsedMS (clock w') = elapsedMS (clock w)) ->
            wall_in_order w') as Hsame.
  { intros w' Hw Hr Hc.
    assert (time (clock w') = time (clock w) /\ elapsedMS (clock w') = elapsedMS (clock w))
      as [Ht He] by (destruct Hc as [->|Hc]; [split; reflexivity|exact Hc]).
    split; [rewrite Hw; exact Hmono|]. split.
    - exists z. rewrite Ht, Hw. split; [exact Hz|].
      etransitivity; [exact Hle|apply Hmono, Hr].
    - exists d. rewrite He. split; assumption. }
  assert (forall w' (i : nat), wall w' = wall w ->
            (wallReads w <= i)%nat -> (i <= wallReads w')%nat ->
            time (clock w') = ofZ (wall w i) ->
            elapsedMS (clock w') = elapsedMS (clock w) \/
            elapsedMS (clock w') = nsub (ofZ (wall w (wallReads w))) (time (clock w)) ->
            wall_in_order w') as Hnew.
  { intros w' i Hw Hi Hi' Ht He.
    split; [rewrite Hw; exact Hmono|]. split.
    - exists (wall w i). rewrite Hw. split; [exact Ht|apply Hmono, Hi'].
    - destruct He as [He|He]; rewrite He.
      + exists d. split; assumption.
      + rewrite Hz, nsub_ofZ. eexists. split; [reflexivity|lia]. }
  destruct o; cbn [run_op];
    try (eexists; split; [reflexivity|];
         apply Hsame; [reflexivity|cbn; lia|right; split; reflexivity]).
  - (* boot *)
    eexists; split; [reflexivity|].
    apply (Hnew _ (S (wallReads w))); [reflexivity|cbn; lia|cbn; lia|reflexivity|].
    left; reflexivity.
  - (* removeAll *)
    eexists; split; [apply removeAll_run|].
    apply Hsame; [reflexivity|cbn; lia|right; split; reflexivity].
  - (* refresh *)
    eexists; split; [reflexivity|].
    apply (Hnew _ (wallReads w)); [reflexivity|cbn; lia|cbn; lia|reflexivity|].
    right; reflexivity.
  - (* update *)
    rewrite update_run. eexists; split; [reflexivity|].
    destruct (update_untouched time_ w) as (_ & _ & _ & _ & _ & _ & _ & Ht & He).
    destruct (after_update_pool time_ w) as (_ & Hw).
    apply (Hnew _ (wallReads w));
      [exact Hw|lia|rewrite after_update_wallReads; lia|exact Ht|right; exact He].
  - (* countUpdate *)
    unfold countUpdate, bind, read. destruct (advancedTiming (clock w));
      (eexists; split; [reflexivity|];
       apply Hsame; [reflexivity|cbn; lia|right; split; reflexivity]).
  - (* countRender *)
    unfold countRender, bind, read. destruct (advancedTiming (clock w));
      (eexists; split; [reflexivity|];
       apply Hsame; [reflexivity|cbn; lia|right; split; reflexivity]).
  - (* gamePaused *)
    eexists; split; [apply gamePaused_run|].
    apply Hsame; [reflexivity|cbn; lia|right; split; reflexivity].
  - (* gameResumed *)
    eexists; split; [apply gameResumed_run|].
    apply (Hnew _ (wallReads w)); [reflexivity|cbn; lia|cbn; lia|reflexivity|].
    left; reflexivity.
  - (* reset *)
    unfold reset. rewrite (bind_val (assign _) _ _ _ _ eq_refl).
    eexists; split; [apply removeAll_run|].
    apply Hsame; [reflexivity|cbn; lia|right; split; reflexivity].
Qed.

(** X16: if the wall clock never runs backwards and starts at 0 or later,
    then on a clock made by the constructor [elapsedMS] is never negative, and
    [time] never holds a sample from the future, whatever is done to the
    clock. *)
Theorem elapsedMS_never_negative w (ops : list Op) :
  (forall i j : nat, (i <= j)%nat -> wall w i <= wall w j) ->
  0 <= wall w (wallReads w) ->
  exists w' z d,
    (Phaser_Time ;; run_ops ops) w = Val tt w' /\
    time (clock w') = ofZ z /\ z <= wall w (wallReads w') /\
    elapsedMS (clock w') = ofZ d /\ 0 <= d.
Proof.
  intros Hmono Hstart.
  rewrite (bind_val Phaser_Time _ w tt _ eq_refl).
  match goal with |- context [run_ops ops ?w0] =>
    destruct (run_ops_keeps (fun w' => wall_in_order w' /\ wall w' = wall w)
                (fun _ => True)) with (ops := ops) (w := w0)
      as (w' & Hrun & (_ & (z & Hz & Hle) & (d & Hd & Hpos)) & Hw)
  end.
  - intros o w1 _ (H1 & H2).
    destruct (run_op_in_order o w1 H1) as (w2 & Hrun & Hin).
    destruct (run_op_keeps o w1) as (w2' & Hrun' & _ & Hw & _).
    rewrite Hrun in Hrun'. injection Hrun' as <-.
    exists w2. split; [exact Hrun|]. split; [exact Hin|]. rewrite Hw. exact H2.
  - apply Forall_any.
  - split; [|reflexivity]. split; [exact Hmono|]. split.
    + exists 0. split; [reflexivity|exact Hstart].
    + exists 0. split; [reflexivity|lia].
  - exists w', z, d. rewrite <- Hw. repeat split; assumption.
Qed.

End ClockMore.

(** ** The further properties on the example worlds *)

Lemma master_kept_pool_only_shrinks_witness :
  Forall adds_no_timer [op_update (ofZ 16); op_removeAll] /\
  exists w', run_ops [op_update (ofZ 16); op_removeAll] pool_world = Val tt w' /\
    events (clock w') = events (clock pool_world) /\
    _timers (clock w') `sublist_of` _timers (clock pool_world).
Proof.
  assert (Forall adds_no_timer [op_update (ofZ 16); op_removeAll]) as Hops
    by (repeat constructor).
  split; [exact Hops|].
  destruct (master_kept_pool_only_shrinks pool_world
              [op_update (ofZ 16); op_removeAll]) as (_ & Hshrink).
  exact (Hshrink Hops).
Defined.

Lemma pause_length_over_operations_witness :
  Forall not_gamePaused [op_update (ofZ 16); op_refresh] /\
  exists w1 w2 w3,
    gamePaused pool_world = Val tt w1 /\
    run_ops [op_update (ofZ 16); op_refresh] w1 = Val tt w2 /\
    gameResumed w2 = Val tt w3 /\
    pauseDuration (clock w3)
    = ofZ (wall pool_world (wallReads w2) - wall pool_world (wallReads pool_world)).
Proof.
  assert (Forall not_gamePaused [op_update (ofZ 16); op_refresh]) as Hops
    by (repeat constructor).
  split; [exact Hops|].
  exact (pause_length_over_operations pool_world _ Hops).
Defined.

Lemma no_ticks_while_paused_witness :
  paused (game paused_world) = true /\
  exists w1 w2 w3,
    gamePaused paused_world = Val tt w1 /\
    run_ops (map op_update [ofZ 16; ofZ 33]) w1 = Val tt w2 /\
    gameResumed w2 = Val tt w3 /\
    _timers (clock w3) = [1; 2; 3]%nat.
Proof.
  split; [reflexivity|].
  destruct (no_ticks_while_paused paused_world [ofZ 16; ofZ 33] eq_refl)
    as (w1 & w2 & w3 & H1 & H2 & H3 & _ & Hpool).
  exists w1, w2, w3. split; [exact H1|]. split; [exact H2|]. split; [exact H3|].
  rewrite Hpool. reflexivity.
Defined.

Lemma removeAll_destroys_pool_witness :
  (events (clock pool_world) ∉ _timers (clock pool_world)) /\
  exists w', removeAll pool_world = Val tt w' /\
    _timers (clock w') = [] /\
    calls w' = calls pool_world
               ++ [mkCall 1%nat m_destroy; mkCall 2%nat m_destroy;
                   mkCall 3%nat m_destroy; mkCall 0%nat m_removeAll] /\
    heap w' 0%nat = timer_removeAll (heap pool_world 0%nat).
Proof.
  assert (events (clock pool_world) ∉ _timers (clock pool_world)) as Hnotin.
  { apply (bool_decide_unpack _). vm_compute. exact I. }
  split; [exact Hnotin|].
  destruct (removeAll_destroys_pool pool_world) as (w' & Hrun & Hc & Hcalls & Hmaster & _).
  destruct (Hmaster Hnotin) as (Hheap & _).
  exists w'. split; [exact Hrun|]. split; [rewrite Hc; reflexivity|].
  split; [rewrite Hcalls; reflexivity|exact Hheap].
Defined.

Lemma seconds_since_boot_witness :
  Forall keeps_started [op_update (ofZ 16); op_refresh] /\
  exists w' z,
    (Phaser_Time ;; boot ;; run_ops [op_update (ofZ 16); op_refresh]) blank_world
    = Val tt w' /\
    time (clock w') = ofZ z /\
    totalElapsedSeconds w'
    = Val (nmul (ofZ (z - wall blank_world (wallReads blank_world))) milli) w'.
Proof.
  assert (Forall keeps_started [op_update (ofZ 16); op_refresh]) as Hops
    by (repeat constructor).
  split; [exact Hops|].
  destruct (seconds_since_boot blank_world _ Hops) as (w' & z & Hrun & Hz & Htot & _).
  exists w', z. split; [exact Hrun|]. split; [exact Hz|exact Htot].
Defined.

Lemma desiredFps_reads_last_assignment_witness :
  Forall not_desiredFps_set [op_update (ofZ 16); op_countUpdate] /\
  exists w',
    (desiredFps_set (ofZ 30) ;; run_ops [op_update (ofZ 16); op_countUpdate] ;;
     desiredFps_get) booted_world = Val (ofZ 30) w'.
Proof.
  assert (Forall not_desiredFps_set [op_update (ofZ 16); op_countUpdate]) as Hops
    by (repeat constructor).
  split; [exact Hops|].
  destruct (desiredFps_reads_last_assignment booted_world _ (ofZ 30) Hops) as (Hset & _).
  exact Hset.
Defined.

Lemma add_twice_ticks_twice_witness :
  paused (game booted_world) = false /\
  (5%nat ∉ _timers (clock booted_world)) /\
  5%nat <> events (clock booted_world) /\
  exists w1 w2,
    (add 5%nat ;; add 5%nat) booted_world = Val 5%nat w1 /\
    _timers (clock w1) = [5; 5]%nat /\
    update (ofZ 16) w1 = Val tt w2 /\
    calls w2 = calls booted_world
               ++ [mkCall 0%nat (m_update (ofZ 1100));
                   mkCall 5%nat (m_update (ofZ 1100));
                   mkCall 5%nat (m_update (ofZ 1100))].
Proof.
  assert (5%nat ∉ _timers (clock booted_world)) as Hnotin.
  { apply (bool_decide_unpack _). vm_compute. exact I. }
  assert (5%nat <> events (clock booted_world)) as Hne.
  { apply (bool_decide_unpack _). vm_compute. exact I. }
  split; [reflexivity|]. split; [exact Hnotin|]. split; [exact Hne|].
  destruct (add_twice_ticks_twice booted_world 5%nat (ofZ 16) eq_refl Hnotin Hne)
    as (w1 & w2 & Hadd & Hpool & Hrun & Hcalls & _).
  exists w1, w2. split; [exact Hadd|]. split; [rewrite Hpool; reflexivity|].
  split; [exact Hrun|]. rewrite Hcalls. reflexivity.
Defined.

Lemma created_timers_are_distinct_witness :
  Forall not_add [op_boot; op_create None; op_create (Some false)] /\
  exists w',
    (Phaser_Time ;; run_ops [op_boot; op_create None; op_create (Some false)])
      blank_world = Val tt w' /\
    NoDup (_timers (clock w')) /\
    (events (clock w') ∉ _timers (clock w')).
Proof.
  assert (Forall not_add [op_boot; op_create None; op_create (Some false)]) as Hops
    by (repeat constructor).
  split; [exact Hops|].
  destruct (created_timers_are_distinct blank_world _ Hops) as (w' & Hrun & Hnd & Hev & _).
  exists w'. split; [exact Hrun|]. split; [exact Hnd|exact Hev].
Defined.

Lemma next_call_delay_bounds_witness :
  raf_isSetTimeOut (game timeout_world) = true /\
  _desiredFps (clock timeout_world) = Fin (Qc_of_Z 60) /\
  (0 < Qc_of_Z 60)%Qc /\
  timeExpected (clock timeout_world) = Fin (Qc_of_Z 1050) /\
  exists w', update (Fin (Qc_of_Z 1050)) timeout_world = Val tt w' /\
    timeToCall (clock w') = ofZ 16.
Proof.
  assert (0 < Qc_of_Z 60)%Qc as Hpos by reflexivity.
  split; [reflexivity|]. split; [reflexivity|]. split; [exact Hpos|].
  split; [reflexivity|].
  destruct (next_call_delay_bounds timeout_world (Qc_of_Z 60) (Qc_of_Z 1050)
              (Qc_of_Z 1050) eq_refl eq_refl Hpos eq_refl)
    as (w' & Hrun & Hcall & _ & _ & Hontime & _).
  exists w'. split; [exact Hrun|].
  rewrite Hcall, (Hontime eq_refl). vm_compute. reflexivity.
Defined.

Lemma frame_time_extrema_witness :
  advancedTiming (clock timing_world) = true /\
  msMin (clock timing_world) = Fin (Qc_of_Z 1000) /\
  msMax (clock timing_world) = Fin (Qc_of_Z 0) /\
  now (clock timing_world) = Fin (Qc_of_Z 0) /\
  exists w', update (Fin (Qc_of_Z 16)) timing_world = Val tt w' /\
    nle (msMin (clock w')) (elapsed (clock w')) = true /\
    nle (elapsed (clock w')) (msMax (clock w')) = true.
Proof.
  split; [reflexivity|]. split; [reflexivity|]. split; [reflexivity|].
  split; [reflexivity|].
  destruct (frame_time_extrema timing_world (Qc_of_Z 1000) (Qc_of_Z 0) (Qc_of_Z 0)
              (Qc_of_Z 16) eq_refl eq_refl eq_refl eq_refl)
    as (w' & Hrun & _ & Hlo & Hhi & _).
  exists w'. split; [exact Hrun|]. split; [exact Hlo|exact Hhi].
Defined.

Lemma fps_at_constant_pace_witness :
  advancedTiming (clock timing_world) = true /\
  (0 <= Qc_of_Z 400)%Qc /\
  (Qc_of_Z (Z.of_nat 2) * Qc_of_Z 400 <= Qc_of_Z 1000)%Qc /\
  (Qc_of_Z 1000 < Qc_of_Z (Z.of_nat 3) * Qc_of_Z 400)%Qc /\
  exists w', run_ops (paced_updates (Qc_of_Z 0) (Qc_of_Z 400) 3) timing_world
             = Val tt w' /\
    fps (clock w') = ofZ 3 /\
    frames (clock w') = ofZ 0.
Proof.
  assert (0 <= Qc_of_Z 400)%Qc as He
    by (apply (bool_decide_unpack _); vm_compute; exact I).
  assert (Qc_of_Z (Z.of_nat 2) * Qc_of_Z 400 <= Qc_of_Z 1000)%Qc as Hn
    by (apply (bool_decide_unpack _); vm_compute; exact I).
  assert (Qc_of_Z 1000 < Qc_of_Z (Z.of_nat 3) * Qc_of_Z 400)%Qc as Hlast
    by (apply (bool_decide_unpack _); vm_compute; exact I).
  split; [reflexivity|]. split; [exact He|]. split; [exact Hn|]. split; [exact Hlast|].
  destruct (fps_at_constant_pace timing_world 2 (Qc_of_Z 0) (Qc_of_Z 400)
              eq_refl eq_refl eq_refl eq_refl He Hn Hlast)
    as (_ & w' & Hrun & Hfps & _ & Hfr & _).
  exists w'. split; [exact Hrun|]. split; [|exact Hfr].
  rewrite Hfps. apply num_eq_decide. vm_compute. reflexivity.
Defined.

Lemma logic_updates_per_second_witness :
  advancedTiming (clock timing_world) = true /\
  updates (clock timing_world) = ofNat 0 /\
  ngt (ofZ 1500) (nadd (_timeLastSecond (clock timing_world)) (ofZ 1000)) = true /\
  exists w',
    (run_ops (replicate 3 op_countUpdate) ;; update (ofZ 1500)) timing_world
    = Val tt w' /\
    ups (clock w') = ofZ 2 /\
    updates (clock w') = ofZ 0.
Proof.
  assert (ngt (ofZ 1500) (nadd (_timeLastSecond (clock timing_world)) (ofZ 1000)) = true)
    as Hsec by (vm_compute; reflexivity).
  split; [reflexivity|]. split; [reflexivity|]. split; [exact Hsec|].
  destruct (logic_updates_per_second timing_world 0 3 (ofZ 1500) eq_refl eq_refl Hsec)
    as (w' & Hrun & Hups & Hzero).
  exists w'. split; [exact Hrun|]. split; [|exact Hzero].
  rewrite Hups. apply num_eq_decide. vm_compute. reflexivity.
Defined.

Lemma elapsedMS_never_negative_witness :
  (forall i j : nat, (i <= j)%nat -> wall blank_world i <= wall blank_world j) /\
  0 <= wall blank_world (wallReads blank_world) /\
  exists w' z d,
    (Phaser_Time ;; run_ops [op_boot; op_update (ofZ 16); op_refresh]) blank_world
    = Val tt w' /\
    time (clock w') = ofZ z /\
    elapsedMS (clock w') = ofZ d /\ 0 <= d.
Proof.
  assert (forall i j : nat, (i <= j)%nat -> wall blank_world i <= wall blank_world j)
    as Hmono by (intros i j Hij; cbn; lia).
  assert (0 <= wall blank_world (wallReads blank_world)) as Hstart by (cbn; lia).
  split; [exact Hmono|]. split; [exact Hstart|].
  destruct (elapsedMS_never_negative blank_world
              [op_boot; op_update (ofZ 16); op_refresh] Hmono Hstart)
    as (w' & z & d & Hrun & Hz & _ & Hd & Hpos).
  exists w', z, d. split; [exact Hrun|]. split; [exact Hz|]. split; [exact Hd|exact Hpos].
Defined.
